(** * effector: a shallow embedding of the global-effect classes

    The development follows the source tree:

    - [Py]            the fragment of Python/NumPy the code relies on
                      (dynamic values, exceptions, indexing, masks);
    - [PythiaHelpers] [src/pythia/helpers.py];
    - [LegacyALE]     [src/feature_effect/ale.py];
    - [Effector]      [src/effector/global_effect.py],
                      [src/effector/global_effect_rhale.py] and
                      [src/effector/global_effect_shap.py].

    Floating-point numbers are modelled by exact rationals ([Q]); the
    external collaborators (SHAP explainer, spline fitting, binning, the
    numeric core, random sampling) are section variables. *)

From Stdlib Require Import ZArith QArith Qabs String List Lia Sorting.Sorted Permutation.
From stdpp Require Import base option list gmap strings pretty.

Local Open Scope string_scope.
Local Open Scope Z_scope.

(* ===================================================================== *)
(** * Python fragment *)
(* ===================================================================== *)

Module Py.

(** Exceptions raised by the modelled code.  [LibraryError] stands for any
    exception coming out of an external collaborator. *)
Inductive exn : Type :=
| AssertionError
| AttributeError
| IndexError
| KeyError
| TypeError
| ValueError
| NotImplementedError
| LibraryError.

Inductive result (A : Type) : Type :=
| Ok (a : A)
| Raise (e : exn).
Arguments Ok {A} a.
Arguments Raise {A} e.

Definition bind {A B} (m : result A) (k : A → result B) : result B :=
  match m with
  | Ok a => k a
  | Raise e => Raise e
  end.

Definition is_ok {A} (m : result A) : bool :=
  match m with Ok _ => true | Raise _ => false end.

Declare Scope py_scope.
Delimit Scope py_scope with py.
Notation "x <- m ;; k" := (bind m (λ x, k))
  (at level 100, m at next level, right associativity) : py_scope.
Notation "m ;;; k" := (bind m (λ _, k))
  (at level 100, right associativity) : py_scope.
Local Open Scope py_scope.

(** [assert c] *)
Definition py_assert (c : bool) : result unit :=
  if c then Ok tt else Raise AssertionError.

(** ** Arrays *)

Definition vector := list Q.

(** A 2-D array of shape [(length rows, ncols)]; the column count is kept
    apart so that an array without rows still has a second dimension. *)
Record matrix : Type := Matrix { ncols : nat; rows : list vector }.

Definition nrows (m : matrix) : nat := length (rows m).

Inductive ndarray : Type :=
| Arr1 (v : vector)
| Arr2 (m : matrix).

Definition ndim (a : ndarray) : Z :=
  match a with Arr1 _ => 1 | Arr2 _ => 2 end.

(** ** Dynamically typed values *)

#[warnings="-register-all"]
Inductive value : Type :=
| VNone
| VBool (b : bool)
| VInt (n : Z)
| VFloat (q : Q)
| VStr (s : string)
| VList (l : list value)
| VArray (a : ndarray)
| VCallable (f : matrix → ndarray).

Inductive pytype : Type :=
| TNoneType | TBool | TInt | TFloat | TStr | TList | TNdarray | TFunction.

Global Instance pytype_eq_dec : EqDecision pytype.
Proof. solve_decision. Defined.

(** [type(v)] *)
Definition type_of (v : value) : pytype :=
  match v with
  | VNone => TNoneType
  | VBool _ => TBool
  | VInt _ => TInt
  | VFloat _ => TFloat
  | VStr _ => TStr
  | VList _ => TList
  | VArray _ => TNdarray
  | VCallable _ => TFunction
  end.

(** The number a value compares as ([True == 1], [2 == 2.0]). *)
Definition as_number (v : value) : option Q :=
  match v with
  | VBool b => Some (if b then 1%Q else 0%Q)
  | VInt n => Some (inject_Z n)
  | VFloat q => Some q
  | _ => None
  end.

(** [a == b] on scalars, strings and lists of them.  Arrays and callables
    never reach a comparison in the modelled code; they compare unequal. *)
Fixpoint py_eq (a b : value) : bool :=
  match as_number a, as_number b with
  | Some x, Some y => Qeq_bool x y
  | Some _, None | None, Some _ => false
  | None, None =>
      match a, b with
      | VNone, VNone => true
      | VStr s, VStr t => String.eqb s t
      | VList l, VList k =>
          (fix all2 (l k : list value) : bool :=
             match l, k with
             | [], [] => true
             | x :: l', y :: k' => py_eq x y && all2 l' k'
             | _, _ => false
             end) l k
      | _, _ => false
      end
  end.

(** [a != b] *)
Definition py_ne (a b : value) : bool := negb (py_eq a b).

(** [v is False]: identity with the [False] singleton. *)
Definition is_False (v : value) : bool :=
  match v with VBool false => true | _ => false end.

(** [v is True] *)
Definition is_True (v : value) : bool :=
  match v with VBool true => true | _ => false end.

(** [v is None] *)
Definition is_None (v : value) : bool :=
  match v with VNone => true | _ => false end.

(** [v in l] for a list literal [l]. *)
Definition py_in (v : value) (l : list value) : bool := existsb (py_eq v) l.

(** [str(n)] for an [int]. *)
Definition str (n : Z) : string := pretty n.

(** [len(v)] *)
Definition py_len (v : value) : result Z :=
  match v with
  | VStr s => Ok (Z.of_nat (String.length s))
  | VList l => Ok (Z.of_nat (length l))
  | VArray (Arr1 x) => Ok (Z.of_nat (length x))
  | VArray (Arr2 m) => Ok (Z.of_nat (nrows m))
  | VNone | VBool _ | VInt _ | VFloat _ | VCallable _ => Raise TypeError
  end.

(** [a < b] where [a] is an [int] and [b] any number. *)
Definition py_int_lt (a : Z) (b : Z) : bool := a <? b.

(** ** Indexing *)

(** [l[i]] with Python's negative indices. *)
Definition py_index {A} (l : list A) (i : Z) : result A :=
  let n := Z.of_nat (length l) in
  if (0 <=? i) && (i <? n) then
    match l !! Z.to_nat i with Some x => Ok x | None => Raise IndexError end
  else if (- n <=? i) && (i <? 0) then
    match l !! Z.to_nat (n + i) with Some x => Ok x | None => Raise IndexError end
  else Raise IndexError.

(** [l[i] = x] *)
Definition py_setitem {A} (l : list A) (i : Z) (x : A) : result (list A) :=
  let n := Z.of_nat (length l) in
  if (0 <=? i) && (i <? n) then Ok (<[Z.to_nat i := x]> l)
  else if (- n <=? i) && (i <? 0) then Ok (<[Z.to_nat (n + i) := x]> l)
  else Raise IndexError.

(** [d[k]] on a dict. *)
Definition py_getitem {V} (d : gmap string V) (k : string) : result V :=
  match d !! k with Some v => Ok v | None => Raise KeyError end.

(** The column index [j] of an array with [n] columns, as a position. *)
Definition col_pos (n : nat) (j : Z) : result nat :=
  let n' := Z.of_nat n in
  if (0 <=? j) && (j <? n') then Ok (Z.to_nat j)
  else if (- n' <=? j) && (j <? 0) then Ok (Z.to_nat (n' + j))
  else Raise IndexError.

(** [m[:, j]] *)
Definition column (m : matrix) (j : Z) : result vector :=
  p <- col_pos (ncols m) j ;;
  Ok (map (λ r, nth p r 0%Q) (rows m)).

(** [m[i, j]] *)
Definition index2 (m : matrix) (i j : Z) : result Q :=
  r <- py_index (rows m) i ;;
  p <- col_pos (ncols m) j ;;
  Ok (nth p r 0%Q).

(** [v[i, j]] on a value that need not be an array. *)
Definition value_index2 (v : value) (i j : Z) : result Q :=
  match v with
  | VArray (Arr2 m) => index2 m i j
  | VArray (Arr1 _) => Raise IndexError
  | _ => Raise TypeError
  end.

(** Rows of [l] selected by a boolean mask.  NumPy refuses a mask whose
    length differs from the indexed axis. *)
Fixpoint select {A} (l : list A) (mask : list bool) : list A :=
  match l, mask with
  | x :: l', b :: mask' => if b then x :: select l' mask' else select l' mask'
  | _, _ => []
  end.

Definition mask_rows (m : matrix) (mask : list bool) : result matrix :=
  if Nat.eqb (length mask) (nrows m)
  then Ok (Matrix (ncols m) (select (rows m) mask))
  else Raise IndexError.

(** [m[idx, :]] with an integer index list. *)
Fixpoint mapM {A B} (f : A → result B) (l : list A) : result (list B) :=
  match l with
  | [] => Ok []
  | x :: l' => y <- f x ;; ys <- mapM f l' ;; Ok (y :: ys)
  end.

Definition take_rows (m : matrix) (idx : list nat) : result matrix :=
  rs <- mapM (λ i, py_index (rows m) (Z.of_nat i)) idx ;;
  Ok (Matrix (ncols m) rs).

Definition take {A} (l : list A) (idx : list nat) : result (list A) :=
  mapM (λ i, py_index l (Z.of_nat i)) idx.

(** [v >= c], [v <= c] elementwise. *)
Definition ge_mask (v : vector) (c : Q) : list bool := map (λ x, Qle_bool c x) v.
Definition le_mask (v : vector) (c : Q) : list bool := map (λ x, Qle_bool x c) v.

(** [np.logical_and(a, b)] on masks of one length. *)
Fixpoint logical_and (a b : list bool) : list bool :=
  match a, b with
  | x :: a', y :: b' => (x && y) :: logical_and a' b'
  | _, _ => []
  end.

(** ** Numeric routines of NumPy, over the rationals

    Division is total as in [Q]: a zero divisor gives [0] where NumPy gives
    nan or an infinity (with a warning, not an exception). *)

Definition qsum (v : vector) : Q := foldr Qplus 0%Q v.

(** [np.mean(a)] *)
Definition np_mean (a : ndarray) : Q :=
  match a with
  | Arr1 v => (qsum v / inject_Z (Z.of_nat (length v)))%Q
  | Arr2 m =>
      let all := concat (rows m) in
      (qsum all / inject_Z (Z.of_nat (length all)))%Q
  end.

(** [np.linspace(a, b, n)] for a count [n]. *)
Definition linspace (a b : Q) (n : nat) : vector :=
  match n with
  | O => []
  | S O => [a]
  | S n' =>
      let step := ((b - a) / inject_Z (Z.of_nat n'))%Q in
      map (λ i, (a + inject_Z (Z.of_nat i) * step)%Q) (seq 0 n)
  end.

(** [np.linspace(a, b, num)] for an argument [num] of any type. *)
Definition np_linspace (a b : Q) (num : value) : result vector :=
  match num with
  | VInt n => if n <? 0 then Raise ValueError else Ok (linspace a b (Z.to_nat n))
  | VBool t => Ok (linspace a b (if t then 1%nat else 0%nat))
  | _ => Raise TypeError
  end.

(** [np.trapz(y, x)]: the sum of [(x[i+1] - x[i]) * (y[i+1] + y[i]) / 2]. *)
Fixpoint trapz_pairs (p : list (Q * Q)) : Q :=
  match p with
  | (x0, y0) :: (((x1, y1) :: _) as p') =>
      ((x1 - x0) * (y1 + y0) / 2 + trapz_pairs p')%Q
  | _ => 0%Q
  end.

Definition np_trapz (y x : vector) : result Q :=
  if Nat.eqb (length y) (length x) then Ok (trapz_pairs (zip x y))
  else Raise ValueError.

(** [np.argsort(v)]: positions of [v] in increasing order of value, by
    insertion.  (NumPy's default sort may order equal values differently;
    the sorted values are the same.) *)
Fixpoint insert_by_key {A} (x : Q * A) (l : list (Q * A)) : list (Q * A) :=
  match l with
  | [] => [x]
  | y :: l' => if Qle_bool x.1 y.1 then x :: l else y :: insert_by_key x l'
  end.

Definition sort_by_key {A} (l : list (Q * A)) : list (Q * A) :=
  foldr insert_by_key [] l.

Definition np_argsort (v : vector) : list nat :=
  map snd (sort_by_key (zip v (seq 0 (length v)))).

(** ** State and exceptions

    A method body runs on the object [self]; an exception leaves the
    mutations made so far in place. *)

Definition M (S A : Type) : Type := S → result A * S.

Definition ret {S A} (a : A) : M S A := λ s, (Ok a, s).
Definition raise {S A} (e : exn) : M S A := λ s, (Raise e, s).
Definition lift {S A} (r : result A) : M S A := λ s, (r, s).
Definition get {S} : M S S := λ s, (Ok s, s).
Definition gets {S A} (f : S → A) : M S A := λ s, (Ok (f s), s).
Definition modify {S} (f : S → S) : M S unit := λ s, (Ok tt, f s).

Definition mbind {S A B} (m : M S A) (k : A → M S B) : M S B :=
  λ s, match m s with
       | (Ok a, s') => k a s'
       | (Raise e, s') => (Raise e, s')
       end.

Declare Scope method_scope.
Delimit Scope method_scope with method.
Notation "x <- m ;; k" := (mbind m (λ x, k))
  (at level 100, m at next level, right associativity) : method_scope.
Notation "m ;;; k" := (mbind m (λ _, k))
  (at level 100, right associativity) : method_scope.

(** [for x in l: body(x)] *)
Fixpoint for_each {S A} (l : list A) (body : A → M S unit) : M S unit :=
  match l with
  | [] => ret tt
  | x :: l' => mbind (body x) (λ _, for_each l' body)
  end.

(** [v.min()] and [v.max()]: NumPy refuses an array without elements. *)
Definition array_min (v : vector) : result Q :=
  match v with
  | [] => Raise ValueError
  | x :: v' => Ok (fold_left (λ acc y, if Qle_bool y acc then y else acc) v' x)
  end.

Definition array_max (v : vector) : result Q :=
  match v with
  | [] => Raise ValueError
  | x :: v' => Ok (fold_left (λ acc y, if Qle_bool acc y then y else acc) v' x)
  end.

End Py.

Import Py.
Local Open Scope py_scope.

(* ===================================================================== *)
(** * [pythia/helpers.py] *)
(* ===================================================================== *)

Module PythiaHelpers.

(** A parameter dict. *)
Abbreviation params := (gmap string value).

(** [prep_features(feat, D)] *)
Definition prep_features (feat : value) (D : nat) : result value :=
  py_assert (bool_decide (type_of feat ∈ [TList; TStr; TInt])) ;;;
  if py_eq feat (VStr "all") then Ok (VList (map (λ i, VInt (Z.of_nat i)) (seq 0 D)))
  else if bool_decide (type_of feat = TInt) then Ok (VList [feat])
  else Ok feat.

(** [prep_centering(centering)] *)
Definition prep_centering (centering : value) : result value :=
  py_assert (bool_decide (type_of centering ∈ [TBool; TStr])) ;;;
  (if bool_decide (type_of centering = TStr)
   then py_assert (py_in centering [VStr "zero_start"; VStr "zero_integral"])
   else Ok tt) ;;;
  if is_True centering then Ok (VStr "zero_integral") else Ok centering.

(** [prep_dale_fit_params(par)]; [None] stands for the argument [None]. *)
Definition prep_dale_fit_params (par : option params) : result params :=
  let par := match par with None => ∅ | Some p => p end in
  par <- match par !! "bin_method" with
         | Some v =>
             py_assert (py_in v [VStr "fixed"; VStr "greedy"; VStr "dp"]) ;;; Ok par
         | None => Ok (<["bin_method" := VStr "fixed"]> par)
         end ;;
  par <- match par !! "nof_bins" with
         | Some v => py_assert (bool_decide (type_of v = TInt)) ;;; Ok par
         | None => Ok (<["nof_bins" := VInt 100]> par)
         end ;;
  par <- match par !! "max_nof_bins" with
         | Some v => py_assert (bool_decide (type_of v = TInt)) ;;; Ok par
         | None => Ok (<["max_nof_bins" := VInt 20]> par)
         end ;;
  par <- match par !! "min_points_per_bin" with
         | Some _ =>
             (* the source checks [par["max_nof_bins"]] here *)
             v <- py_getitem par "max_nof_bins" ;;
             py_assert (bool_decide (type_of v = TInt)) ;;; Ok par
         | None => Ok (<["min_points_per_bin" := VNone]> par)
         end ;;
  Ok par.

(** [prep_ale_fit_params(par)] *)
Definition prep_ale_fit_params (par : params) : result params :=
  match par !! "nof_bins" with
  | Some v => py_assert (bool_decide (type_of v = TInt)) ;;; Ok par
  | None => Ok (<["nof_bins" := VInt 100]> par)
  end.

(** [prep_uncertainty(uncertainty)] *)
Definition prep_uncertainty (uncertainty : value) : result value :=
  py_assert (bool_decide (type_of uncertainty ∈ [TBool; TStr])) ;;;
  (if bool_decide (type_of uncertainty = TStr)
   then py_assert (py_in uncertainty [VStr "std"; VStr "std_err"])
   else Ok tt) ;;;
  if is_True uncertainty then Ok (VStr "std") else Ok uncertainty.

(** The loop [for d in range(D)] of [axis_limits_from_data], on the two
    rows of [axis_limits]. *)
Fixpoint axis_limits_loop (data : matrix) (ds : list nat) (lower upper : vector)
    : result (vector * vector) :=
  match ds with
  | [] => Ok (lower, upper)
  | d :: ds' =>
      c <- column data (Z.of_nat d) ;;
      mn <- array_min c ;;
      let lower := <[d := mn]> lower in
      c <- column data (Z.of_nat d) ;;
      mx <- array_max c ;;
      let upper := <[d := mx]> upper in
      axis_limits_loop data ds' lower upper
  end.

(** [axis_limits_from_data(data)] *)
Definition axis_limits_from_data (data : matrix) : result matrix :=
  let D := ncols data in
  let zeros := replicate D 0%Q in
  r <- axis_limits_loop data (seq 0 D) zeros zeros ;;
  Ok (Matrix D [r.1; r.2]).

End PythiaHelpers.


(* ===================================================================== *)
(** * [feature_effect/ale.py] *)
(* ===================================================================== *)

Module LegacyALE.

(** The function returned by [ALE._ale_func(params)]: a closure over the
    parameter record of one feature. *)
Inductive ale_function : Type :=
| AleFunction (params : gmap string value).

(** An [ALE] object.  [feature_effect] starts as [None]; the attribute
    [ale_params] does not exist before the first [fit]. *)
Record ALE : Type := MkALE {
  data : matrix;
  model : value;
  data_effect : value;
  feature_effect : option (gmap string ale_function);
  parameters : value;
  ale_params : option (gmap string (gmap string value));
}.

(** ["feature_" + str(s)] *)
Definition feature_key (s : Z) : string := "feature_" +:+ str s.

Section WithUtils.

(** [feature_effect.utils], which is not part of the source tree. *)
Variable create_fix_size_bins : vector → value → result vector.
Variable compute_data_effect : matrix → value → vector → Z → result vector.
Variable compute_fe_parameters :
  vector → vector → vector → value → result (gmap string value).

(** [compute_ale_parameters(data, model, feature, alg_params)] *)
Definition compute_ale_parameters (data : matrix) (model : value) (feature : Z)
    (alg_params : gmap string value) : result (gmap string value) :=
  let K := match alg_params !! "nof_bins" with Some k => k | None => VInt 30 end in
  let min_points_per_bin :=
    match alg_params !! "min_points_per_bin" with Some k => k | None => VInt 10 end in
  xs <- column data feature ;;
  limits <- create_fix_size_bins xs K ;;
  data_effect <- compute_data_effect data model limits feature ;;
  xs <- column data feature ;;
  ale_params <- compute_fe_parameters xs data_effect limits min_points_per_bin ;;
  Ok (<["method" := VStr "fixed-size"]> ale_params).

(** [ALE.__init__(data, model)] *)
Definition ALE_init (data : matrix) (model : value) : ALE :=
  {| data := data; model := model; data_effect := VNone;
     feature_effect := None; parameters := VNone; ale_params := None |}.

(** [ALE._ale_func(params)] *)
Definition _ale_func (params : gmap string value) : ale_function :=
  AleFunction params.

(** The body of [for s in features] in [ALE.fit], threading the two local
    dicts.  A list element that is not an [int] is refused by the column
    selection [data[:, feature]]. *)
Fixpoint fit_loop (self : ALE) (features : list value) (alg_params : gmap string value)
    (funcs : gmap string ale_function) (ale_params : gmap string (gmap string value))
    : result (gmap string ale_function * gmap string (gmap string value)) :=
  match features with
  | [] => Ok (funcs, ale_params)
  | VInt s :: rest =>
      p <- compute_ale_parameters (data self) (model self) s alg_params ;;
      let ale_params := <[feature_key s := p]> ale_params in
      p' <- py_getitem ale_params (feature_key s) ;;
      let funcs := <[feature_key s := _ale_func p']> funcs in
      fit_loop self rest alg_params funcs ale_params
  | _ :: _ => Raise IndexError
  end.

(** [ALE.fit(features, alg_params)] *)
Definition fit (self : ALE) (features : value) (alg_params : gmap string value)
    : result ALE :=
  py_assert (py_eq features (VStr "all") || bool_decide (type_of features = TList)) ;;;
  let features :=
    if py_eq features (VStr "all")
    then VList (map (λ i, VInt (Z.of_nat i)) (seq 0 (ncols (data self))))
    else features in
  l <- match features with VList l => Ok l | _ => Raise TypeError end ;;
  (* fit and store dale parameters *)
  r <- fit_loop self l alg_params ∅ ∅ ;;
  (* TODO change it to append, instead of overwriting *)
  Ok {| data := data self; model := model self; data_effect := data_effect self;
        feature_effect := Some r.1;
        parameters := parameters self;
        ale_params := Some r.2 |}.

(** The features a [fit] call asks for: every column for ["all"], the
    elements of the list otherwise. *)
Definition requested (self : ALE) (features : value) : list value :=
  if py_eq features (VStr "all")
  then map (λ i, VInt (Z.of_nat i)) (seq 0 (ncols (data self)))
  else match features with VList l => l | _ => [] end.

End WithUtils.
(** *** Evaluation and plotting *)

(** The call [vis.feature_effect_plot] receives, which ends [plot]. *)
Inductive ale_rendering : Type :=
| FeatureEffectPlot (params : gmap string value) (s : Z) (title : string)
    (block gt gt_bins : value).

Section WithEvaluation.

(** [feature_effect.utils.compute_accumulated_effect(x, limits, bin_effect,
    dx, square)], which is not part of the source tree. *)
Variable compute_accumulated_effect :
  vector → value → value → value → bool → result vector.

(** A call [ale_function(x)] of the closure [_ale_func(params)] returns. *)
Definition call_ale_function (f : ale_function) (x : vector)
    : result (vector * vector) :=
  match f with
  | AleFunction params =>
      lim <- py_getitem params "limits" ;;
      be <- py_getitem params "bin_effect" ;;
      dx <- py_getitem params "dx" ;;
      y <- compute_accumulated_effect x lim be dx false ;;
      z <- py_getitem params "z" ;;
      y <- match as_number z with
           | Some q => Ok (map (λ v, (v - q)%Q) y)
           | None => Raise TypeError
           end ;;
      lim <- py_getitem params "limits" ;;
      bev <- py_getitem params "bin_estimator_variance" ;;
      dx <- py_getitem params "dx" ;;
      var <- compute_accumulated_effect x lim bev dx true ;;
      Ok (y, var)
  end.

(** [ALE.compile(self)] *)
Definition compile (self : ALE) : ALE := self.

(** [ALE.eval(self, x, s)] *)
Definition eval (self : ALE) (x : vector) (s : Z) : result (vector * vector) :=
  match feature_effect self with
  | None => Raise TypeError
  | Some fe =>
      f <- py_getitem fe (feature_key s) ;;
      call_ale_function f x
  end.

(** [ALE.plot(self, s, block, gt, gt_bins)] *)
Definition plot (self : ALE) (s : Z) (block gt gt_bins : value)
    : result ale_rendering :=
  let title := "ALE: Effect of feature " +:+ str (s + 1) in
  match ale_params self with
  | None => Raise AttributeError
  | Some ap =>
      p <- py_getitem ap (feature_key s) ;;
      Ok (FeatureEffectPlot p s title block gt gt_bins)
  end.

End WithEvaluation.
End LegacyALE.

(* ===================================================================== *)
(** * [effector/global_effect*.py] *)
(* ===================================================================== *)

Module Effector.

Local Open Scope py_scope.

(** ** Classes, attributes and calls *)

Inductive cls : Type := GlobalEffect_cls | RHALE_cls | SHAPDependence_cls.

(** The names each class body defines. *)
Definition class_dict (c : cls) : list string :=
  match c with
  | GlobalEffect_cls => ["empty_symbol"; "__init__"; "fit"; "plot"; "refit"; "eval"]
  | RHALE_cls => ["__init__"; "compile"; "_fit_feature"; "fit"; "_eval_unnorm"; "plot"]
  | SHAPDependence_cls => ["__init__"; "_fit_feature"; "fit"; "eval"; "plot"]
  end.

Definition bases (c : cls) : list cls :=
  match c with
  | GlobalEffect_cls => []
  | RHALE_cls | SHAPDependence_cls => [GlobalEffect_cls]
  end.

(** The attributes the constructors set on the instance. *)
Definition instance_attributes (c : cls) : list string :=
  let common :=
    ["method_name"; "nof_instances"; "indices"; "data"; "dim"; "model";
     "avg_output"; "axis_limits"; "feature_names"; "target_name";
     "is_fitted"; "method_args"; "feature_effect"] in
  match c with
  | RHALE_cls => ["model_jac"; "data_effect"] ++ common
  | _ => common
  end.

(** The class whose body provides [name] for an instance of [c]. *)
Definition resolve (c : cls) (name : string) : option cls :=
  List.find (λ k, bool_decide (name ∈ class_dict k)) (c :: bases c).

Definition has_attribute (c : cls) (name : string) : bool :=
  bool_decide (name ∈ instance_attributes c) ||
  match resolve c name with Some _ => true | None => false end.

(** The exception [self.name] raises when no such attribute exists. *)
Definition missing_attribute (c : cls) (name : string)
    (absent : has_attribute c name = false) : exn := AttributeError.

(** A parameter list: names with their defaults. *)
Definition signature := list (string * option value).

(** Binding of positional arguments to a parameter list. *)
Fixpoint bind_args (sig : signature) (args : list value)
    : result (list (string * value)) :=
  match sig, args with
  | [], [] => Ok []
  | [], _ :: _ => Raise TypeError
  | (x, _) :: sig', a :: args' => env <- bind_args sig' args' ;; Ok ((x, a) :: env)
  | (x, Some d) :: sig', [] => env <- bind_args sig' [] ;; Ok ((x, d) :: env)
  | (_, None) :: _, [] => Raise TypeError
  end.

Fixpoint arg (env : list (string * value)) (x : string) : value :=
  match env with
  | [] => VNone
  | (y, v) :: env' => if String.eqb x y then v else arg env' x
  end.

(** [f(x)] for a value [f]. *)
Definition py_call (f : value) (x : matrix) : result ndarray :=
  match f with
  | VCallable g => Ok (g x)
  | _ => Raise TypeError
  end.

(** [v.ndim] *)
Definition getattr_ndim (v : value) : result Z :=
  match v with
  | VArray a => Ok (ndim a)
  | _ => Raise AttributeError
  end.

(** [v.shape[0]], [v[idx, :]] and [v.shape[1]] of a 2-D array. *)
Definition as_matrix (v : value) : result matrix :=
  match v with
  | VArray (Arr2 m) => Ok m
  | VArray (Arr1 _) => Raise IndexError
  | _ => Raise AttributeError
  end.

(** [m[:, feature]] for a feature of any type. *)
Definition py_column (m : matrix) (feature : value) : result vector :=
  match feature with
  | VInt j => column m j
  | _ => Raise IndexError
  end.

(** [v[mask, :]] for a value [v]. *)
Definition value_mask_rows (v : value) (mask : list bool) : result matrix :=
  match v with
  | VArray (Arr2 m) => mask_rows m mask
  | VArray (Arr1 _) => Raise IndexError
  | _ => Raise TypeError
  end.

(** [a < n] for a value [a] and an [int]. *)
Definition py_lt_int (a : value) (n : Z) : result bool :=
  match a with
  | VInt k => Ok (k <? n)
  | VBool b => Ok ((if b then 1 else 0) <? n)
  | VFloat q => Ok (negb (Qle_bool (inject_Z n) q))
  | _ => Raise TypeError
  end.

(** [for s in v] *)
Definition py_iter (v : value) : result (list value) :=
  match v with
  | VList l => Ok l
  | VStr s => Ok (map (λ c, VStr (String c EmptyString)) (list_ascii_of_string s))
  | _ => Raise TypeError
  end.

(** ["feature_" + str(feature)] *)
Definition feature_key (feature : Z) : string := "feature_" +:+ str feature.

(** ** Objects *)

(** The attributes set by [GlobalEffect.__init__]; [E] is the type of a
    feature-effect record. *)
Record GlobalEffect (E : Type) : Type := MkGlobalEffect {
  method_name : value;
  nof_instances : nat;
  indices : list nat;
  data : matrix;
  dim : nat;
  model : value;
  avg_output : value;
  axis_limits : value;
  feature_names : value;
  target_name : value;
  is_fitted : list bool;
  method_args : gmap string (gmap string value);
  feature_effect : gmap string E;
}.
Arguments MkGlobalEffect {E}.
Arguments method_name {E}. Arguments nof_instances {E}. Arguments indices {E}.
Arguments data {E}. Arguments dim {E}. Arguments model {E}.
Arguments avg_output {E}. Arguments axis_limits {E}. Arguments feature_names {E}.
Arguments target_name {E}. Arguments is_fitted {E}. Arguments method_args {E}.
Arguments feature_effect {E}.

Definition with_data {E} (d : matrix) (g : GlobalEffect E) : GlobalEffect E :=
  MkGlobalEffect (method_name g) (nof_instances g) (indices g) d (dim g) (model g)
    (avg_output g) (axis_limits g) (feature_names g) (target_name g)
    (is_fitted g) (method_args g) (feature_effect g).

Definition with_is_fitted {E} (f : list bool) (g : GlobalEffect E) : GlobalEffect E :=
  MkGlobalEffect (method_name g) (nof_instances g) (indices g) (data g) (dim g) (model g)
    (avg_output g) (axis_limits g) (feature_names g) (target_name g)
    f (method_args g) (feature_effect g).

Definition with_method_args {E} (a : gmap string (gmap string value))
    (g : GlobalEffect E) : GlobalEffect E :=
  MkGlobalEffect (method_name g) (nof_instances g) (indices g) (data g) (dim g) (model g)
    (avg_output g) (axis_limits g) (feature_names g) (target_name g)
    (is_fitted g) a (feature_effect g).

Definition with_feature_effect {E} (fe : gmap string E)
    (g : GlobalEffect E) : GlobalEffect E :=
  MkGlobalEffect (method_name g) (nof_instances g) (indices g) (data g) (dim g) (model g)
    (avg_output g) (axis_limits g) (feature_names g) (target_name g)
    (is_fitted g) (method_args g) fe.

(** A RHALE effect record is the dict returned by [utils.compute_ale_params]
    with the key ["alg_params"] added. *)
Record RHALE : Type := MkRHALE {
  base : GlobalEffect (gmap string value);
  model_jac : value;
  data_effect : value;
}.

Definition with_base (f : GlobalEffect (gmap string value) → GlobalEffect (gmap string value))
    (r : RHALE) : RHALE :=
  MkRHALE (f (base r)) (model_jac r) (data_effect r).

Definition with_data_effect (e : value) (r : RHALE) : RHALE :=
  MkRHALE (base r) (model_jac r) e.

(** The dict built by [SHAPDependence._fit_feature]. *)
Record shap_effect : Type := MkShapEffect {
  spline_mean : Q → Q;
  spline_std : Q → Q;
  xx : vector;
  yy : vector;
  norm_const : value;
}.

Definition SHAPDependence : Type := GlobalEffect shap_effect.

(** What [eval] returns. *)
Inductive eval_result : Type :=
| Curve (y : vector)
| CurveWithHeterogeneity (y std std_err : vector).

(** The call handed to the visualization module, which ends [plot]. *)
Inductive rendering : Type :=
| AlePlot (params : gmap string value) (feature : Z) (centering error : value)
    (scale_x scale_y avg_output y_limits : value)
| ShapPlot (x y : vector) (xx yy : value) (y_std : option vector) (feature : Z)
    (confidence_interval scale_x scale_y avg_output y_limits : value).

(** The result of [binning_methods.find_limits]: [limits] is the array of
    edges, or [False]. *)
Record bin_estimator : Type := MkBinEstimator {
  limits : value;
  class_name : string;
}.

Section WithCollaborators.

(** *** Code outside the source tree *)

(** [effector.helpers.EMPTY_SYMBOL] *)
Variable EMPTY_SYMBOL : value.
(** [np.random.choice(N, n, replace=False)] *)
Variable random_choice : nat → value → result (list nat).
(** [effector.helpers.prep_nof_instances] on the arguments the
    specification leaves open. *)
Variable prep_nof_instances_other : value → nat → result (nat * list nat).
(** [effector.helpers.prep_avg_output(data, model, avg_output, scale_y)] *)
Variable prep_avg_output : matrix → value → value → value → result value.
(** [effector.utils] *)
Variable compute_jacobian_numerically : value → matrix → result value.
Variable compute_ale_params : vector → vector → value → result (gmap string value).
Variable compute_accumulated_effect : vector → value → value → value → result vector.
(** [np.sqrt] on a stored array *)
Variable np_sqrt : value → result value.
(** [effector.binning_methods.find_limits] *)
Variable find_limits : matrix → matrix → Z → value → value → result bin_estimator.
(** [shap.Explainer(model, data)(data).values] *)
Variable shap_explainer : value → matrix → result matrix.
(** [scipy.interpolate.UnivariateSpline(x, y)] *)
Variable UnivariateSpline : vector → vector → result (Q → Q).

(** *** [effector.helpers] *)

(** Modelled from the spec: [effector.helpers.prep_nof_instances] is not in
    the source tree.  "If [n == "all"], use every row (indices 0..N-1 in
    order); if an integer smaller than N, draw that many distinct row
    indices uniformly at random without replacement; returns the chosen
    count and the index list." *)
Definition prep_nof_instances (n : value) (N : nat) : result (nat * list nat) :=
  if py_eq n (VStr "all") then Ok (N, seq 0 N)
  else match n with
       | VInt k =>
           if (0 <=? k) && (k <? Z.of_nat N)
           then idx <- random_choice N n ;; Ok (Z.to_nat k, idx)
           else prep_nof_instances_other n N
       | _ => prep_nof_instances_other n N
       end.

(** Modelled from the spec: [effector.helpers.prep_features] is not in the
    source tree.  "["all"] gives every index 0..D-1; a single integer a
    one-element list; a list passes through unchanged.  Fails with
    InvalidInput if given any other type."  The function of this name in
    [pythia/helpers.py] reads the same. *)
Definition prep_features (features : value) (D : nat) : result value :=
  PythiaHelpers.prep_features features D.

(** Modelled from the spec: [effector.helpers.prep_centering] is not in the
    source tree.  "Normalizes [True] to ["zero_integral"]; validates that a
    string value is one of the two recognized modes; fails with
    InvalidInput otherwise."  The function of this name in
    [pythia/helpers.py] reads the same. *)
Definition prep_centering (centering : value) : result value :=
  PythiaHelpers.prep_centering centering.

(** Modelled from the spec: [effector.helpers.prep_confidence_interval] is
    not in the source tree.  "Analogous normalization for the
    heterogeneity/uncertainty flag, mapping [True] to ["std"] and
    validating any string against the recognized set (["std"],
    ["std_err"], and, for SHAP, additionally ["shap_values"])." *)
Definition prep_confidence_interval (confidence_interval : value) : result value :=
  py_assert (bool_decide (type_of confidence_interval ∈ [TBool; TStr])) ;;;
  (if bool_decide (type_of confidence_interval = TStr)
   then py_assert (py_in confidence_interval
                     [VStr "std"; VStr "std_err"; VStr "shap_values"])
   else Ok tt) ;;;
  if is_True confidence_interval then Ok (VStr "std") else Ok confidence_interval.

(** The least and the greatest element of an array; an empty array has
    none. *)
Definition np_min (v : vector) : result Q :=
  match v with
  | [] => Raise ValueError
  | x :: v' => Ok (foldr (λ y acc, if Qle_bool y acc then y else acc) x v')
  end.

Definition np_max (v : vector) : result Q :=
  match v with
  | [] => Raise ValueError
  | x :: v' => Ok (foldr (λ y acc, if Qle_bool acc y then y else acc) x v')
  end.

(** Modelled from the spec: [effector.helpers.axis_limits_from_data] is not
    in the source tree.  "Per-column minimum and maximum over the dataset,
    returned as a 2×D matrix."  The function of this name in
    [pythia/helpers.py] reads the same. *)
Definition axis_limits_from_data (data : matrix) : result matrix :=
  let D := ncols data in
  mins <- mapM (λ d, c <- column data (Z.of_nat d) ;; np_min c) (seq 0 D) ;;
  maxs <- mapM (λ d, c <- column data (Z.of_nat d) ;; np_max c) (seq 0 D) ;;
  Ok (Matrix D [mins; maxs]).

(** *** [GlobalEffect] *)

Definition GlobalEffect_init_signature : signature :=
  [("method_name", None); ("data", None); ("model", None);
   ("nof_instances", Some (VStr "all")); ("axis_limits", Some VNone);
   ("avg_output", Some VNone); ("feature_names", Some VNone);
   ("target_name", Some VNone)].

(** [GlobalEffect.__init__(self, *args)] *)
Definition GlobalEffect_init {E} (args : list value) : result (GlobalEffect E) :=
  env <- bind_args GlobalEffect_init_signature args ;;
  let method_name := arg env "method_name" in
  let data := arg env "data" in
  let model := arg env "model" in
  let nof_instances := arg env "nof_instances" in
  let axis_limits := arg env "axis_limits" in
  let avg_output := arg env "avg_output" in
  let feature_names := arg env "feature_names" in
  let target_name := arg env "target_name" in
  nd <- getattr_ndim data ;;
  py_assert (nd =? 2) ;;;
  (* select nof_instances from the data *)
  m <- as_matrix data ;;
  sel <- prep_nof_instances nof_instances (nrows m) ;;
  data <- take_rows m sel.2 ;;
  let dim := ncols data in
  avg_output <-
    (if negb (is_None avg_output) then Ok avg_output
     else out <- py_call model data ;; Ok (VFloat (np_mean out))) ;;
  axis_limits <-
    (if is_None axis_limits
     then l <- axis_limits_from_data data ;; Ok (VArray (Arr2 l))
     else Ok axis_limits) ;;
  Ok {| method_name := method_name;
        nof_instances := sel.1;
        indices := sel.2;
        data := data;
        dim := dim;
        model := model;
        avg_output := avg_output;
        axis_limits := axis_limits;
        feature_names := feature_names;
        target_name := target_name;
        (* state variable *)
        is_fitted := replicate dim false;
        method_args := ∅;
        feature_effect := ∅ |}.

(** [GlobalEffect.refit(self, feature, centering)] *)
Definition refit {E} (self : GlobalEffect E) (feature : Z) (centering : value)
    : result bool :=
  fitted <- py_index (is_fitted self) feature ;;
  if negb fitted then Ok true
  else
    (if negb (is_False centering) then
       a <- py_getitem (method_args self) (feature_key feature) ;;
       c <- py_getitem a "centering" ;;
       if py_ne c centering then Ok true else Ok false
     else Ok false).

(** [GlobalEffect.eval(self, feature, xs, heterogeneity, centering)] *)
Definition GlobalEffect_eval {S} (feature : Z) (xs : vector)
    (heterogeneity : bool) (centering : value) : M S eval_result :=
  raise NotImplementedError.

(** [self.name(...)] for a method that [c] inherits from [owner]. *)
Definition inherited {A} (c : cls) (name : string) (owner : cls)
    (found : resolve c name = Some owner) (body : A) : A := body.

Local Open Scope method_scope.

(** *** [RHALE] *)

(** [RHALE.__init__(self, data, model, model_jac, axis_limits, data_effect,
    avg_output, feature_names, target_name)] *)
Definition RHALE_init (data model model_jac axis_limits data_effect avg_output
    feature_names target_name : value) : result RHALE :=
  bind (GlobalEffect_init
          [data; model; axis_limits; avg_output; feature_names; target_name])
       (λ g, Ok {| base := g; model_jac := model_jac; data_effect := data_effect |}).

(** [RHALE.compile(self)] *)
Definition RHALE_compile : M RHALE unit :=
  self <- get ;;
  if is_None (data_effect self) && negb (is_None (model_jac self)) then
    e <- lift (py_call (model_jac self) (data (base self))) ;;
    modify (with_data_effect (VArray e))
  else if is_None (data_effect self) && is_None (model_jac self) then
    e <- lift (compute_jacobian_numerically (model (base self)) (data (base self))) ;;
    modify (with_data_effect e)
  else ret tt.

(** [RHALE._fit_feature(self, feature, binning_method)] *)
Definition RHALE_fit_feature (feature : Z) (binning_method : value)
    : M RHALE (gmap string value) :=
  self <- get ;;
  (if is_None (data_effect self) then RHALE_compile else ret tt) ;;;
  (* drop points outside of limits *)
  self <- get ;;
  col <- lift (column (data (base self)) feature) ;;
  lo <- lift (value_index2 (axis_limits (base self)) 0 feature) ;;
  d <- lift (mask_rows (data (base self)) (ge_mask col lo)) ;;
  modify (with_base (with_data d)) ;;;
  self <- get ;;
  col <- lift (column (data (base self)) feature) ;;
  hi <- lift (value_index2 (axis_limits (base self)) 1 feature) ;;
  d <- lift (mask_rows (data (base self)) (le_mask col hi)) ;;
  modify (with_base (with_data d)) ;;;
  self <- get ;;
  col <- lift (column (data (base self)) feature) ;;
  lo <- lift (value_index2 (axis_limits (base self)) 0 feature) ;;
  col' <- lift (column (data (base self)) feature) ;;
  hi <- lift (value_index2 (axis_limits (base self)) 1 feature) ;;
  let ind := logical_and (ge_mask col lo) (le_mask col' hi) in
  data <- lift (mask_rows (data (base self)) ind) ;;
  data_effect <- lift (value_mask_rows (data_effect self) ind) ;;
  (* bin estimation *)
  bin_est <- lift (find_limits data data_effect feature (axis_limits (base self))
                     binning_method) ;;
  (* assert bins can be computed else raise error *)
  lift (py_assert (negb (is_False (limits bin_est)))) ;;;
  (* compute the bin effect *)
  c <- lift (column data feature) ;;
  ce <- lift (column data_effect feature) ;;
  dale_params <- lift (compute_ale_params c ce (limits bin_est)) ;;
  ret (<["alg_params" := binning_method]> dale_params).

(** [RHALE.fit(self, features, binning_method, centering)].  An element of
    [features] that is not an [int] is refused by the first array access
    of [_fit_feature]. *)
Definition RHALE_fit (features binning_method centering : value) : M RHALE unit :=
  self <- get ;;
  features <- lift (prep_features features (dim (base self))) ;;
  centering <- lift (prep_centering centering) ;;
  l <- lift (py_iter features) ;;
  for_each l (λ s,
    match s with
    | VInt s =>
        p <- RHALE_fit_feature s binning_method ;;
        modify (with_base
                  (λ g, with_feature_effect (<[feature_key s := p]> (feature_effect g)) g)) ;;;
        (if negb (is_False centering)
         then raise (missing_attribute RHALE_cls "_compute_norm_const" eq_refl)
         else ret tt) ;;;
        self <- get ;;
        f <- lift (py_setitem (is_fitted (base self)) s true) ;;
        modify (with_base (with_is_fitted f)) ;;;
        modify (with_base
                  (λ g, with_method_args
                          (<[feature_key s := {[ "centering" := centering ]}]>
                             (method_args g)) g))
    | _ =>
        self <- get ;;
        (if is_None (data_effect self) then RHALE_compile else ret tt) ;;;
        raise IndexError
    end).

(** [RHALE._eval_unnorm(self, feature, x, heterogeneity)] *)
Definition RHALE_eval_unnorm (self : RHALE) (feature : Z) (x : vector)
    (heterogeneity : bool) : result eval_result :=
  (params <- py_getitem (feature_effect (base self)) (feature_key feature) ;;
   lim <- py_getitem params "limits" ;;
   be <- py_getitem params "bin_effect" ;;
   dx <- py_getitem params "dx" ;;
   y <- compute_accumulated_effect x lim be dx ;;
   if heterogeneity then
     lim <- py_getitem params "limits" ;;
     bv <- py_getitem params "bin_variance" ;;
     sd <- np_sqrt bv ;;
     dx <- py_getitem params "dx" ;;
     std <- compute_accumulated_effect x lim sd dx ;;
     lim <- py_getitem params "limits" ;;
     bev <- py_getitem params "bin_estimator_variance" ;;
     se <- np_sqrt bev ;;
     dx <- py_getitem params "dx" ;;
     std_err <- compute_accumulated_effect x lim se dx ;;
     Ok (CurveWithHeterogeneity y std std_err)
   else Ok (Curve y))%py.

(** [RHALE.eval]: the class body has no [eval]; the name resolves to
    [GlobalEffect.eval]. *)
Definition RHALE_eval (feature : Z) (xs : vector) (heterogeneity : bool)
    (centering : value) : M RHALE eval_result :=
  inherited RHALE_cls "eval" GlobalEffect_cls eq_refl
    (GlobalEffect_eval feature xs heterogeneity centering).

(** [RHALE.plot(self, feature, heterogeneity, centering, scale_x, scale_y,
    show_avg_output, y_limits)] *)
Definition RHALE_plot (feature : Z) (heterogeneity centering scale_x scale_y : value)
    (show_avg_output : bool) (y_limits : value) : M RHALE rendering :=
  heterogeneity <- lift (prep_confidence_interval heterogeneity) ;;
  centering <- lift (prep_centering centering) ;;
  (* hack to fit the feature if not fitted *)
  self <- get ;;
  x0 <- lift (value_index2 (axis_limits (base self)) 0 feature) ;;
  _ <- RHALE_eval feature [x0] false centering ;;
  self <- get ;;
  avg_output <-
    (if show_avg_output
     then lift (prep_avg_output (data (base self)) (model (base self))
                  (avg_output (base self)) scale_y)
     else ret VNone) ;;
  params <- lift (py_getitem (feature_effect (base self)) (feature_key feature)) ;;
  ret (AlePlot params feature centering heterogeneity scale_x scale_y avg_output y_limits).

(** *** [SHAPDependence] *)

(** [SHAPDependence.__init__(self, data, model, axis_limits, avg_output,
    feature_names, target_name)] *)
Definition SHAP_init (data model axis_limits avg_output feature_names
    target_name : value) : result SHAPDependence :=
  GlobalEffect_init [data; model; axis_limits; avg_output; feature_names; target_name].

(** The norm constant computed at the end of [_fit_feature]. *)
Definition SHAP_norm_const (spline_mean : Q → Q) (xx : vector)
    (centering points_used_for_centering : value) : result value :=
  (if py_eq centering (VStr "zero_integral") then
     x0 <- py_index xx 0 ;;
     xN <- py_index xx (-1) ;;
     x_norm <- np_linspace x0 xN points_used_for_centering ;;
     let y_norm := map spline_mean x_norm in
     integral <- np_trapz y_norm x_norm ;;
     xN <- py_index xx (-1) ;;
     x0 <- py_index xx 0 ;;
     Ok (VFloat (integral / (xN - x0)))
   else if py_eq centering (VStr "zero_start") then
     x0 <- py_index xx 0 ;;
     Ok (VFloat (spline_mean x0))
   else Ok EMPTY_SYMBOL)%py.

(** The rows [_fit_feature] computes SHAP values on: those at or above the
    lower limit, subsampled. *)
Definition SHAP_fit_rows (self : SHAPDependence) (feature : Z)
    (points_for_fitting_spline points_used_for_centering : value) : result matrix :=
  ((* drop points outside of limits *)
   col <- column (data self) feature ;;
   lo <- value_index2 (axis_limits self) 0 feature ;;
   data <- mask_rows (data self) (ge_mask col lo) ;;
   (* prepare nof points *)
   shap <- prep_nof_instances points_for_fitting_spline (nrows data) ;;
   cent <- prep_nof_instances points_used_for_centering (nrows data) ;;
   take_rows data shap.2)%py.

(** [SHAPDependence._fit_feature(self, feature, centering,
    points_for_fitting_spline, points_used_for_centering)] *)
Definition SHAP_fit_feature (self : SHAPDependence) (feature : Z)
    (centering points_for_fitting_spline points_used_for_centering : value)
    : result shap_effect :=
  (data <- SHAP_fit_rows self feature points_for_fitting_spline
             points_used_for_centering ;;
   (* compute shap values *)
   explanation <- shap_explainer (model self) data ;;
   (* extract x and y pais *)
   yy <- column explanation feature ;;
   xx <- column data feature ;;
   (* make xx monotonic *)
   let idx := np_argsort xx in
   xx <- take xx idx ;;
   yy <- take yy idx ;;
   (* fit spline_mean to xx, yy pairs *)
   spline_mean <- UnivariateSpline xx yy ;;
   (* fit spline_mean to the sqrt of the residuals *)
   let yy_std := zip_with (λ y x, Qabs (y - spline_mean x)) yy xx in
   spline_std <- UnivariateSpline xx yy_std ;;
   (* compute norm constant *)
   norm_const <- SHAP_norm_const spline_mean xx centering points_used_for_centering ;;
   Ok {| spline_mean := spline_mean; spline_std := spline_std;
         xx := xx; yy := yy; norm_const := norm_const |})%py.

(** [SHAPDependence.fit(self, features, centering,
    points_for_fitting_spline, points_for_centering)].  An element of
    [features] that is not an [int] is refused by the first array access
    of [_fit_feature]. *)
Definition SHAP_fit (features centering points_for_fitting_spline
    points_for_centering : value) : M SHAPDependence unit :=
  centering <- lift (prep_centering centering) ;;
  self <- get ;;
  features <- lift (prep_features features (dim self)) ;;
  l <- lift (py_iter features) ;;
  for_each l (λ s,
    match s with
    | VInt s =>
        self <- get ;;
        e <- lift (SHAP_fit_feature self s centering points_for_fitting_spline
                     points_for_centering) ;;
        modify (λ g, with_feature_effect (<[feature_key s := e]> (feature_effect g)) g) ;;;
        self <- get ;;
        f <- lift (py_setitem (is_fitted self) s true) ;;
        modify (with_is_fitted f)
    | _ => raise IndexError
    end).

(** The condition under which [eval] fits first:
    [not self.is_fitted[feature] or norm_const == EMPTY_SYMBOL and
    centering is not False], evaluated left to right. *)
Definition SHAP_eval_must_fit (self : SHAPDependence) (feature : Z)
    (centering : value) : result bool :=
  (fitted <- py_index (is_fitted self) feature ;;
   if negb fitted then Ok true
   else
     e <- py_getitem (feature_effect self) (feature_key feature) ;;
     if py_eq (norm_const e) EMPTY_SYMBOL
     then Ok (negb (is_False centering))
     else Ok false)%py.

(** [yy - norm_const] *)
Definition np_sub_scalar (y : vector) (c : value) : result vector :=
  match as_number c with
  | Some q => Ok (map (λ v, (v - q)%Q) y)
  | None => Raise TypeError
  end.

(** The statements of [eval] after the conditional fit. *)
Definition SHAP_eval_curve (feature : Z) (xs : vector) (uncertainty : bool)
    (centering : value) : M SHAPDependence eval_result :=
  self <- get ;;
  (* Check if the lower bound is less than the upper bound *)
  lo <- lift (value_index2 (axis_limits self) 0 feature) ;;
  hi <- lift (value_index2 (axis_limits self) 1 feature) ;;
  lift (py_assert (negb (Qle_bool hi lo))) ;;;
  e <- lift (py_getitem (feature_effect self) (feature_key feature)) ;;
  let yy := map (spline_mean e) xs in
  yy <- (if negb (is_False centering) then
           e <- lift (py_getitem (feature_effect self) (feature_key feature)) ;;
           lift (np_sub_scalar yy (norm_const e))
         else ret yy) ;;
  if uncertainty then
    e <- lift (py_getitem (feature_effect self) (feature_key feature)) ;;
    let yy_std := map (spline_std e) xs in
    ret (CurveWithHeterogeneity yy yy_std (map (λ _, 0%Q) yy_std))
  else ret (Curve yy).

(** [SHAPDependence.eval(self, feature, xs, uncertainty, centering)] *)
Definition SHAP_eval (feature : Z) (xs : vector) (uncertainty : bool)
    (centering : value) : M SHAPDependence eval_result :=
  centering <- lift (prep_centering centering) ;;
  self <- get ;;
  must_fit <- lift (SHAP_eval_must_fit self feature centering) ;;
  (if must_fit
   then SHAP_fit (VInt feature) centering (VInt 100) (VInt 100)
   else ret tt) ;;;
  SHAP_eval_curve feature xs uncertainty centering.

(** [SHAPDependence.plot(self, feature, confidence_interval, centering,
    nof_axis_points, scale_x, scale_y, nof_shap_values, show_avg_output,
    y_limits)] *)
Definition SHAP_plot (feature : Z) (confidence_interval centering nof_axis_points
    scale_x scale_y nof_shap_values : value) (show_avg_output : bool)
    (y_limits : value) : M SHAPDependence rendering :=
  confidence_interval <- lift (prep_confidence_interval confidence_interval) ;;
  self <- get ;;
  lo <- lift (value_index2 (axis_limits self) 0 feature) ;;
  hi <- lift (value_index2 (axis_limits self) 1 feature) ;;
  x <- lift (np_linspace lo hi nof_axis_points) ;;
  (* get the SHAP curve *)
  r <- SHAP_eval feature x false centering ;;
  let y := match r with Curve y => y | CurveWithHeterogeneity y _ _ => y end in
  self <- get ;;
  (* get the std of the SHAP curve *)
  y_std <-
    (if py_eq confidence_interval (VStr "std")
     then e <- lift (py_getitem (feature_effect self) (feature_key feature)) ;;
          ret (Some (map (spline_std e) x))
     else ret None) ;;
  (* get some SHAP values *)
  yy <-
    (if py_eq confidence_interval (VStr "shap_values")
     then e <- lift (py_getitem (feature_effect self) (feature_key feature)) ;;
          ret (VArray (Arr1 (yy e)))
     else ret VNone) ;;
  xx <-
    (if py_eq confidence_interval (VStr "shap_values")
     then e <- lift (py_getitem (feature_effect self) (feature_key feature)) ;;
          ret (VArray (Arr1 (xx e)))
     else ret VNone) ;;
  subsample <-
    (if py_ne nof_shap_values (VStr "all")
     then n <- lift (py_len xx) ;; lift (py_lt_int nof_shap_values n)
     else ret false) ;;
  sample <-
    (if subsample : bool then
       n <- lift (py_len xx) ;;
       idx <- lift (random_choice (Z.to_nat n) nof_shap_values) ;;
       xs <- lift (match xx with
                   | VArray (Arr1 v) => take v idx | _ => Raise TypeError end) ;;
       ys <- lift (match yy with
                   | VArray (Arr1 v) => take v idx | _ => Raise TypeError end) ;;
       ret (VArray (Arr1 xs), VArray (Arr1 ys))
     else ret (xx, yy)) ;;
  let avg_output := if negb show_avg_output then VNone else avg_output self in
  ret (ShapPlot x y sample.1 sample.2 y_std feature confidence_interval
         scale_x scale_y avg_output y_limits).

End WithCollaborators.
End Effector.

(* ===================================================================== *)
(** * Sample collaborators and objects *)
(* ===================================================================== *)

(** Stand-ins for the external collaborators and a few small objects, on
    which the statements below are instantiated. *)
Module Demo.
Import Effector.

Definition EMPTY_SYMBOL : value := VFloat 10000000000.

Definition random_choice (N : nat) (n : value) : result (list nat) :=
  match n with
  | VInt k => if (0 <=? k) && (k <=? Z.of_nat N) then Ok (seq 0 (Z.to_nat k))
              else Raise ValueError
  | _ => Raise TypeError
  end.

Definition prep_nof_instances_other (n : value) (N : nat) : result (nat * list nat) :=
  match n with
  | VInt _ => Ok (N, seq 0 N)
  | _ => Raise AssertionError
  end.

Definition prep_avg_output (data : matrix) (model avg_output scale_y : value)
    : result value := Ok avg_output.

Definition ones_like (m : matrix) : matrix :=
  Matrix (ncols m) (map (map (λ _, 1%Q)) (rows m)).

Definition compute_jacobian_numerically (model : value) (data : matrix) : result value :=
  Ok (VArray (Arr2 (ones_like data))).

Definition compute_ale_params (x dx : vector) (limits : value)
    : result (gmap string value) :=
  Ok {[ "limits" := limits; "bin_effect" := VArray (Arr1 [1%Q]);
        "bin_variance" := VArray (Arr1 [0%Q]);
        "bin_estimator_variance" := VArray (Arr1 [0%Q]);
        "dx" := VArray (Arr1 [1%Q]) ]}.

Definition compute_accumulated_effect (x : vector) (limits bin_effect dx : value)
    : result vector := Ok x.

Definition np_sqrt (v : value) : result value := Ok v.

Definition find_limits (data data_effect : matrix) (feature : Z)
    (axis_limits binning_method : value) : result bin_estimator :=
  Ok {| limits := VArray (Arr1 [0%Q; 1%Q]); class_name := "Greedy" |}.

Definition shap_explainer (model : value) (data : matrix) : result matrix := Ok data.

(** A stand-in spline: the line [y = 2 x], refused on fewer than four
    points. *)
Definition UnivariateSpline (x y : vector) : result (Q → Q) :=
  if (List.length x <? 4)%nat then Raise LibraryError else Ok (λ t, (2 * t)%Q).

Definition first_column : value :=
  VCallable (λ m, Arr1 (map (λ r, nth 0 r 0%Q) (rows m))).

(** One feature, two instances, both within the limits [0, 1]. *)
Definition rhale_inside : RHALE :=
  {| base :=
       {| method_name := VStr "RHALE"; nof_instances := 2; indices := [0; 1]%nat;
          data := Matrix 1 [[0%Q]; [1%Q]]; dim := 1; model := first_column;
          avg_output := VFloat 0.5;
          axis_limits := VArray (Arr2 (Matrix 1 [[0%Q]; [1%Q]]));
          feature_names := VNone; target_name := VNone;
          is_fitted := [false]; method_args := ∅; feature_effect := ∅ |};
     model_jac := VNone;
     data_effect := VArray (Arr2 (Matrix 1 [[1%Q]; [1%Q]])) |}.

(** One feature, three instances, the last one above the upper limit. *)
Definition rhale_outside : RHALE :=
  {| base :=
       {| method_name := VStr "RHALE"; nof_instances := 3; indices := [0; 1; 2]%nat;
          data := Matrix 1 [[0%Q]; [1%Q]; [2%Q]]; dim := 1; model := first_column;
          avg_output := VFloat 1;
          axis_limits := VArray (Arr2 (Matrix 1 [[0%Q]; [1%Q]]));
          feature_names := VNone; target_name := VNone;
          is_fitted := [false]; method_args := ∅; feature_effect := ∅ |};
     model_jac := VNone;
     data_effect := VArray (Arr2 (Matrix 1 [[1%Q]; [1%Q]; [1%Q]])) |}.

(** One feature, five instances, nothing fitted yet. *)
Definition shap_new : SHAPDependence :=
  {| method_name := VStr "SHAP"; nof_instances := 5; indices := [0; 1; 2; 3; 4]%nat;
     data := Matrix 1 [[3%Q]; [0%Q]; [4%Q]; [1%Q]; [2%Q]]; dim := 1;
     model := first_column; avg_output := VFloat 2;
     axis_limits := VArray (Arr2 (Matrix 1 [[0%Q]; [4%Q]]));
     feature_names := VNone; target_name := VNone;
     is_fitted := [false]; method_args := ∅; feature_effect := ∅ |}.

Definition SHAP_fit :=
  Effector.SHAP_fit EMPTY_SYMBOL random_choice prep_nof_instances_other
    shap_explainer UnivariateSpline.

(** [shap_new] after [fit(features=0)]. *)
Definition shap_fitted : SHAPDependence :=
  (SHAP_fit (VInt 0) (VBool false) (VInt 100) (VInt 100) shap_new).2.

Definition RHALE_fit :=
  Effector.RHALE_fit compute_jacobian_numerically compute_ale_params find_limits.

(** [rhale_inside] after [fit(features=0)]. *)
Definition rhale_fitted : RHALE :=
  (RHALE_fit (VInt 0) (VStr "greedy") (VBool false) rhale_inside).2.

(** The bin statistics the stand-ins produce. *)
Definition bin_statistics : gmap string value :=
  {[ "limits" := VArray (Arr1 [0%Q; 1%Q]); "bin_effect" := VArray (Arr1 [1%Q]);
     "bin_variance" := VArray (Arr1 [0%Q]);
     "bin_estimator_variance" := VArray (Arr1 [0%Q]);
     "dx" := VArray (Arr1 [1%Q]) ]}.

(** One feature whose lower and upper limit coincide. *)
Definition shap_degenerate : SHAPDependence :=
  {| method_name := VStr "SHAP"; nof_instances := 5; indices := [0; 1; 2; 3; 4]%nat;
     data := Matrix 1 [[3%Q]; [0%Q]; [4%Q]; [1%Q]; [2%Q]]; dim := 1;
     model := first_column; avg_output := VFloat 2;
     axis_limits := VArray (Arr2 (Matrix 1 [[1%Q]; [1%Q]]));
     feature_names := VNone; target_name := VNone;
     is_fitted := [false]; method_args := ∅; feature_effect := ∅ |}.

Definition SHAP_fit_feature :=
  Effector.SHAP_fit_feature EMPTY_SYMBOL random_choice prep_nof_instances_other
    shap_explainer UnivariateSpline.

Definition SHAP_eval :=
  Effector.SHAP_eval EMPTY_SYMBOL random_choice prep_nof_instances_other
    shap_explainer UnivariateSpline.

Definition SHAP_plot :=
  Effector.SHAP_plot EMPTY_SYMBOL random_choice prep_nof_instances_other
    shap_explainer UnivariateSpline.

(** A binning strategy that finds no admissible bins. *)
Definition find_limits_refusing (data data_effect : matrix) (feature : Z)
    (axis_limits binning_method : value) : result bin_estimator :=
  Ok {| limits := VBool false; class_name := "Greedy" |}.

(** Bin statistics that are refused on anything but an array of limits. *)
Definition compute_ale_params_strict (x dx : vector) (limits : value)
    : result (gmap string value) :=
  match limits with
  | VArray _ => compute_ale_params x dx limits
  | _ => Raise TypeError
  end.

End Demo.

(** Stand-ins for [feature_effect.utils] and a legacy object. *)
Module DemoALE.

Definition create_fix_size_bins (x : vector) (K : value) : result vector :=
  Ok [0%Q; 1%Q].

Definition compute_data_effect (data : matrix) (model : value) (limits : vector)
    (feature : Z) : result vector := Ok [1%Q; 1%Q].

Definition compute_fe_parameters (x effect limits : vector) (min_points : value)
    : result (gmap string value) :=
  Ok {[ "limits" := VArray (Arr1 limits); "bin_effect" := VArray (Arr1 [1%Q]);
        "bin_estimator_variance" := VArray (Arr1 [0%Q]);
        "dx" := VFloat 1; "z" := VFloat 0.5 ]}.

Definition compute_accumulated_effect (x : vector) (limits bin_effect dx : value)
    (square : bool) : result vector := Ok x.

Definition fit :=
  LegacyALE.fit create_fix_size_bins compute_data_effect compute_fe_parameters.

(** Two features, two instances. *)
Definition ale_new : LegacyALE.ALE :=
  LegacyALE.ALE_init (Matrix 2 [[0%Q; 1%Q]; [1%Q; 0%Q]]) VNone.

End DemoALE.

(* ===================================================================== *)
(** * Predicates used in the statements *)
(* ===================================================================== *)

Module Spec.
Import Effector.

(** The check that guards a supplied parameter. *)
Definition supplied_ok (par : gmap string value) (k : string) (P : value → bool) : bool :=
  match par !! k with Some v => P v | None => true end.

(** A step of a method keeps [R] when the object after it is [R]-related to
    the object before it, whether it returns or raises. *)
Definition keeps {S A} (R : S → S → Prop) (m : M S A) : Prop :=
  ∀ s, R s (m s).2.

(** The fitted flags and the recorded fitting options are those of [s]. *)
Definition same_fit_state (s s' : RHALE) : Prop :=
  is_fitted (base s') = is_fitted (base s) ∧
  method_args (base s') = method_args (base s).

(** Besides, the stored effect records are those of [s]. *)
Definition same_records (s s' : RHALE) : Prop :=
  same_fit_state s s' ∧ feature_effect (base s') = feature_effect (base s).

(** Every feature marked fitted has a stored effect record. *)
Definition fitted_have_records (self : SHAPDependence) : Prop :=
  ∀ f : nat, is_fitted self !! f = Some true →
             is_Some (feature_effect self !! feature_key (Z.of_nat f)).

(** The centering mode recorded for a feature, if any. *)
Definition recorded_centering {E} (self : GlobalEffect E) (feature : Z) : option value :=
  a ← method_args self !! feature_key feature; a !! "centering".

(** Order of two keyed entries by their keys. *)
Definition key_le {A} (x y : Q * A) : Prop := (x.1 <= y.1)%Q.

(** [x] lies within the closed interval [lo, hi]. *)
Definition within (lo hi x : Q) : bool := Qle_bool lo x && Qle_bool x hi.

(** Everything but the fitted flags and the effect records is as in [s]. *)
Definition same_but_fit_state {E} (s s' : GlobalEffect E) : Prop :=
  method_name s' = method_name s ∧ nof_instances s' = nof_instances s ∧
  indices s' = indices s ∧ data s' = data s ∧ dim s' = dim s ∧
  model s' = model s ∧ avg_output s' = avg_output s ∧
  axis_limits s' = axis_limits s ∧ feature_names s' = feature_names s ∧
  target_name s' = target_name s ∧ method_args s' = method_args s.

(** Every requested feature index is non-negative. *)
Definition nonnegative_features (l : list value) : Prop :=
  ∀ s : Z, VInt s ∈ l → 0 <= s.

(** After [RHALE.fit] without centering: feature [s] is marked fitted, has
    an effect record tagged with the binning method, and [False] is the
    centering mode recorded for it. *)
Definition rhale_recorded (binning_method : value) (self : RHALE) (s : Z) : Prop :=
  py_index (is_fitted (base self)) s = Ok true ∧
  (∃ p, feature_effect (base self) !! feature_key s = Some p ∧
        p !! "alg_params" = Some binning_method) ∧
  method_args (base self) !! feature_key s = Some {[ "centering" := VBool false ]}.

(** What [SHAPDependence.eval] is specified to return from a stored effect
    record: the lower axis limit must be strictly below the upper one; the
    mean spline is evaluated at [xs], minus the norm constant when
    centering is requested; with uncertainty the std spline at [xs] and an
    array of zeros come with it. *)
Definition stored_curve (self : SHAPDependence) (feature : Z) (e : shap_effect)
    (xs : vector) (uncertainty : bool) (centering : value) : result eval_result :=
  bind (value_index2 (axis_limits self) 0 feature) (λ lo,
  bind (value_index2 (axis_limits self) 1 feature) (λ hi,
  bind (py_assert (negb (Qle_bool hi lo))) (λ _,
  bind (if is_False centering then Ok (map (spline_mean e) xs)
        else np_sub_scalar (map (spline_mean e) xs) (norm_const e)) (λ y,
  Ok (if uncertainty
      then CurveWithHeterogeneity y (map (spline_std e) xs) (map (λ _, 0%Q) xs)
      else Curve y))))).

End Spec.

(* ===================================================================== *)
(** * Properties *)
(* ===================================================================== *)

(* --------------------------------------------------------------------- *)
(** ** Properties of [prep_dale_fit_params] *)
(* --------------------------------------------------------------------- *)

Section PythiaHelpersFacts.
Import PythiaHelpers Spec.

(** The entries of the returned dict. *)
Lemma prep_dale_fit_params_lookups (par d : params) :
  prep_dale_fit_params (Some par) = Ok d →
  d !! "bin_method" = Some (default (VStr "fixed") (par !! "bin_method")) ∧
  d !! "nof_bins" = Some (default (VInt 100) (par !! "nof_bins")) ∧
  d !! "max_nof_bins" = Some (default (VInt 20) (par !! "max_nof_bins")) ∧
  d !! "min_points_per_bin" = Some (default VNone (par !! "min_points_per_bin")) ∧
  ∀ k, k ∉ ["bin_method"; "nof_bins"; "max_nof_bins"; "min_points_per_bin"] →
       d !! k = par !! k.
Proof.
  unfold prep_dale_fit_params, py_getitem. intros H.
  destruct (par !! "bin_method") as [b|] eqn:Eb;
  destruct (par !! "nof_bins") as [n|] eqn:En;
  destruct (par !! "max_nof_bins") as [m|] eqn:Em;
  destruct (par !! "min_points_per_bin") as [q|] eqn:Eq;
  repeat (rewrite ?lookup_insert_eq, ?lookup_insert_ne, ?Eb, ?En, ?Em, ?Eq in H by done;
          cbn [bind] in H;
          try match type of H with
              | context [py_assert ?c] => destruct (py_assert c); cbn [bind] in H
              end);
  try discriminate H; injection H as <-;
  (split_and!;
   [ repeat (rewrite lookup_insert_eq || rewrite lookup_insert_ne by done);
     assumption || reflexivity ..
   | intros k Hk; rewrite !not_elem_of_cons in Hk; destruct Hk as (? & ? & ? & ? & _);
     rewrite ?lookup_insert_ne by done; reflexivity ]).
Qed.

Lemma prep_dale_fit_params_defaults (d : params) :
  prep_dale_fit_params None = Ok d →
  d !! "bin_method" = Some (VStr "fixed") ∧ d !! "nof_bins" = Some (VInt 100) ∧
  d !! "max_nof_bins" = Some (VInt 20) ∧ d !! "min_points_per_bin" = Some VNone.
Proof.
  intros H. change (prep_dale_fit_params (Some ∅) = Ok d) in H.
  apply prep_dale_fit_params_lookups in H as (H1 & H2 & H3 & H4 & _).
  rewrite lookup_empty in H1, H2, H3, H4. auto.
Qed.

(** Every key that is missing receives its default, every supplied value
    is kept, and the other keys are left alone. *)
Theorem prep_dale_fit_params_fills (par d : params) :
  prep_dale_fit_params (Some par) = Ok d →
  d !! "bin_method" = Some (default (VStr "fixed") (par !! "bin_method")) ∧
  d !! "nof_bins" = Some (default (VInt 100) (par !! "nof_bins")) ∧
  d !! "max_nof_bins" = Some (default (VInt 20) (par !! "max_nof_bins")) ∧
  d !! "min_points_per_bin" = Some (default VNone (par !! "min_points_per_bin")) ∧
  ∀ k, k ∉ ["bin_method"; "nof_bins"; "max_nof_bins"; "min_points_per_bin"] →
       d !! k = par !! k.
Proof. exact (prep_dale_fit_params_lookups par d). Qed.

(** The three checked keys do fail on a value of the wrong type. *)
Lemma prep_dale_fit_params_nof_bins_checked :
  prep_dale_fit_params (Some {[ "nof_bins" := VStr "many" ]}) = Raise AssertionError.
Proof. vm_compute. reflexivity. Qed.

Lemma prep_dale_fit_params_max_nof_bins_checked :
  prep_dale_fit_params (Some {[ "max_nof_bins" := VFloat 2.5 ]}) = Raise AssertionError.
Proof. vm_compute. reflexivity. Qed.

Lemma prep_dale_fit_params_bin_method_checked :
  prep_dale_fit_params (Some {[ "bin_method" := VInt 3 ]}) = Raise AssertionError.
Proof. vm_compute. reflexivity. Qed.

(** The check guarding ["min_points_per_bin"] reads ["max_nof_bins"], which
    is an [int] at that point: whatever is supplied under
    ["min_points_per_bin"] is kept. *)
Lemma prep_dale_fit_params_min_points_unchecked (par : params) (v : value) :
  par !! "min_points_per_bin" = Some v →
  supplied_ok par "bin_method" (λ x, py_in x [VStr "fixed"; VStr "greedy"; VStr "dp"]) = true →
  supplied_ok par "nof_bins" (λ x, bool_decide (type_of x = TInt)) = true →
  supplied_ok par "max_nof_bins" (λ x, bool_decide (type_of x = TInt)) = true →
  ∃ d, prep_dale_fit_params (Some par) = Ok d ∧ d !! "min_points_per_bin" = Some v.
Proof.
  unfold supplied_ok, prep_dale_fit_params, py_getitem. intros Hv Hb Hn Hm.
  destruct (par !! "bin_method") as [b|] eqn:Eb;
  destruct (par !! "nof_bins") as [n|] eqn:En;
  destruct (par !! "max_nof_bins") as [m|] eqn:Em;
  repeat (rewrite ?lookup_insert_eq, ?lookup_insert_ne, ?Eb, ?En, ?Em, ?Hv,
            ?Hb, ?Hn, ?Hm by done; cbn [py_assert bind bool_decide decide_rel]);
  (eexists; split; [reflexivity|]);
  rewrite ?lookup_insert_ne by done; exact Hv.
Qed.

Lemma prep_dale_fit_params_min_points_unchecked_witness :
  ∃ d, prep_dale_fit_params (Some {[ "min_points_per_bin" := VList [] ]}) = Ok d
       ∧ d !! "min_points_per_bin" = Some (VList []).
Proof.
  apply (prep_dale_fit_params_min_points_unchecked
           {[ "min_points_per_bin" := VList [] ]} (VList [])); reflexivity.
Defined.

(** C8 (code defect).  A dict whose ["min_points_per_bin"] is the string
    ["ten"] is accepted: the call returns the dict with the three defaults
    added and the string left in place, where the specification asks for a
    failure on a value that is not an integer. *)
Theorem prep_dale_fit_params_accepts_bad_min_points :
  PythiaHelpers.prep_dale_fit_params (Some {[ "min_points_per_bin" := VStr "ten" ]})
  = Ok (<["bin_method" := VStr "fixed"]>
        (<["nof_bins" := VInt 100]>
         (<["max_nof_bins" := VInt 20]>
          {[ "min_points_per_bin" := VStr "ten" ]}))).
Proof. vm_compute. reflexivity. Qed.

End PythiaHelpersFacts.

(* --------------------------------------------------------------------- *)
(** ** Properties of the legacy [ALE.fit] *)
(* --------------------------------------------------------------------- *)

Section LegacyALEFacts.
Import LegacyALE.

Variable create_fix_size_bins : vector → value → result vector.
Variable compute_data_effect : matrix → value → vector → Z → result vector.
Variable compute_fe_parameters :
  vector → vector → vector → value → result (gmap string value).

Local Abbreviation compute_ale_parameters :=
  (LegacyALE.compute_ale_parameters
     create_fix_size_bins compute_data_effect compute_fe_parameters).
Local Abbreviation fit_loop :=
  (LegacyALE.fit_loop create_fix_size_bins compute_data_effect compute_fe_parameters).
Local Abbreviation fit :=
  (LegacyALE.fit create_fix_size_bins compute_data_effect compute_fe_parameters).

(** *** The loop adds exactly the keys of the features it runs over *)

Lemma feature_key_inj (s t : Z) : feature_key s = feature_key t → s = t.
Proof.
  unfold feature_key, str. intros H. simpl in H.
  apply (inj (String.append "feature_")) in H || (injection H as H).
  all: by apply (inj pretty) in H.
Qed.

Lemma fit_loop_keys self l alg funcs pars funcs' pars' :
  fit_loop self l alg funcs pars = Ok (funcs', pars') →
  ∀ k, (is_Some (funcs' !! k) ↔
          is_Some (funcs !! k) ∨ ∃ s, VInt s ∈ l ∧ k = feature_key s) ∧
       (is_Some (pars' !! k) ↔
          is_Some (pars !! k) ∨ ∃ s, VInt s ∈ l ∧ k = feature_key s).
Proof.
  revert funcs pars. induction l as [|v l IH]; intros funcs pars H k.
  - simpl in H. injection H as <- <-.
    split; (split; [auto | intros [?|(s & Hs & _)]; [done | by apply elem_of_nil in Hs]]).
  - destruct v as [| | s | | | | |]; simpl in H; try discriminate.
    destruct (compute_ale_parameters _ _ s alg) as [p|e]; simpl in H; [|discriminate].
    unfold py_getitem in H. rewrite lookup_insert_eq in H. simpl in H.
    destruct (IH _ _ H k) as [IHf IHp]. clear IH H.
    split; [rewrite IHf | rewrite IHp]; rewrite lookup_insert_is_Some;
      setoid_rewrite elem_of_cons;
      (split;
       [ intros [[<-|[Hne Hk]]|(t & Ht & ->)];
         [ right; exists s; auto | by left | right; exists t; auto ]
       | intros [Hk|(t & [[= ->]|Ht] & ->)];
         [ destruct (decide (feature_key s = k)); auto
         | left; by left
         | right; exists t; auto ] ]).
Qed.

Lemma fit_loop_ints self l alg funcs pars r :
  fit_loop self l alg funcs pars = Ok r → ∀ v, v ∈ l → ∃ s, v = VInt s.
Proof.
  revert funcs pars. induction l as [|v l IH]; intros funcs pars H w Hw.
  - by apply elem_of_nil in Hw.
  - destruct v as [| | s | | | | |]; simpl in H; try discriminate.
    destruct (compute_ale_parameters _ _ s alg) as [p|e]; simpl in H; [|discriminate].
    unfold py_getitem in H. rewrite lookup_insert_eq in H. simpl in H.
    apply elem_of_cons in Hw as [->|Hw]; [by eexists | by eapply IH].
Qed.

(** After a successful [fit], both stored maps hold exactly the requested
    features, whatever the object held before. *)
Lemma fit_stores_requested self features alg self' :
  fit self features alg = Ok self' →
  ∃ fe ap, feature_effect self' = Some fe ∧ ale_params self' = Some ap ∧
    ∀ s : Z, (is_Some (fe !! feature_key s) ↔ VInt s ∈ requested self features) ∧
             (is_Some (ap !! feature_key s) ↔ VInt s ∈ requested self features).
Proof.
  unfold fit, requested. intros H.
  destruct (py_assert _); simpl in H; [|discriminate].
  set (fs := if py_eq features (VStr "all") then _ else features) in H.
  assert (∃ l, fs = VList l ∧
               l = (if py_eq features (VStr "all")
                    then map (λ i, VInt (Z.of_nat i)) (seq 0 (ncols (data self)))
                    else match features with VList l => l | _ => [] end))
    as (l & Hfs & Hl).
  { subst fs. destruct (py_eq features (VStr "all")); [by eexists|].
    destruct features; simpl in H; try discriminate. by eexists. }
  rewrite Hfs in H. simpl in H. rewrite <- Hl.
  destruct (fit_loop self l alg ∅ ∅) as [[fe ap]|e] eqn:Hloop; simpl in H; [|discriminate].
  injection H as <-. exists fe, ap. split; [done|]. split; [done|].
  intros s. destruct (fit_loop_keys _ _ _ _ _ _ _ Hloop (feature_key s)) as [Hf Hp].
  split; [rewrite Hf | rewrite Hp]; rewrite lookup_empty;
    (split;
     [ intros [[? ?]|(t & Ht & Hk)]; [done | by apply feature_key_inj in Hk as ->]
     | intros Hs; right; by exists s ]).
Qed.


End LegacyALEFacts.


(* --------------------------------------------------------------------- *)
(** ** Construction *)
(* --------------------------------------------------------------------- *)

Section EffectorFacts.
Import Effector Spec.

Variable EMPTY_SYMBOL : value.
Variable random_choice : nat → value → result (list nat).
Variable prep_nof_instances_other : value → nat → result (nat * list nat).
Variable prep_avg_output : matrix → value → value → value → result value.
Variable compute_jacobian_numerically : value → matrix → result value.
Variable compute_ale_params : vector → vector → value → result (gmap string value).
Variable compute_accumulated_effect : vector → value → value → value → result vector.
Variable np_sqrt : value → result value.
Variable find_limits : matrix → matrix → Z → value → value → result bin_estimator.
Variable shap_explainer : value → matrix → result matrix.
Variable UnivariateSpline : vector → vector → result (Q → Q).

Local Abbreviation prep_nof_instances :=
  (Effector.prep_nof_instances random_choice prep_nof_instances_other).
Local Abbreviation GlobalEffect_init :=
  (Effector.GlobalEffect_init random_choice prep_nof_instances_other).
Local Abbreviation RHALE_init :=
  (Effector.RHALE_init random_choice prep_nof_instances_other).
Local Abbreviation SHAP_init :=
  (Effector.SHAP_init random_choice prep_nof_instances_other).

(** The six positional arguments of the subclasses land on the first six
    parameters of [GlobalEffect.__init__]: the model is bound to [data]. *)
Lemma subclass_arguments_shifted (data model axis_limits avg_output feature_names
    target_name : value) :
  bind_args GlobalEffect_init_signature
    [data; model; axis_limits; avg_output; feature_names; target_name]
  = Ok [("method_name", data); ("data", model); ("model", axis_limits);
        ("nof_instances", avg_output); ("axis_limits", feature_names);
        ("avg_output", target_name); ("feature_names", VNone);
        ("target_name", VNone)].
Proof. reflexivity. Qed.

(** Selecting every row in order gives the array back. *)
Lemma mapM_index_seq {A} (pre l : list A) :
  mapM (λ i, py_index (pre ++ l) (Z.of_nat i)) (seq (length pre) (length l)) = Ok l.
Proof.
  revert pre. induction l as [|x l IH]; intros pre; [reflexivity|].
  cbn [length seq mapM]. unfold py_index at 1.
  rewrite length_app. cbn [length].
  assert (Hin : (0 <=? Z.of_nat (List.length pre)) &&
                (Z.of_nat (List.length pre)
                   <? Z.of_nat (List.length pre + S (List.length l))%nat) = true)
    by (apply andb_true_iff; split; [apply Z.leb_le | apply Z.ltb_lt]; lia).
  rewrite Hin.
  rewrite Nat2Z.id, lookup_app_r, Nat.sub_diag by lia. cbn [lookup list_lookup bind].
  specialize (IH (pre ++ [x])%list). rewrite <- app_assoc, length_app in IH.
  cbn [length app] in IH. rewrite Nat.add_1_r in IH. rewrite IH. reflexivity.
Qed.

Lemma take_rows_all (m : matrix) : take_rows m (seq 0 (nrows m)) = Ok m.
Proof.
  unfold take_rows, nrows.
  pose proof (mapM_index_seq [] (rows m)) as H. cbn [app List.length] in H.
  rewrite H. destruct m; reflexivity.
Qed.

(** Called with its own parameter list, [GlobalEffect.__init__] does what
    the constructor is documented to do: with ["all"] instances it keeps
    the dataset, computes or accepts the average output and the axis
    limits, marks each of the [D] features not fitted and starts from empty
    maps. *)
Lemma GlobalEffect_init_direct E (name model axis_limits avg_output feature_names
    target_name : value) (m : matrix) (g : GlobalEffect E) :
  GlobalEffect_init
    [name; VArray (Arr2 m); model; VStr "all"; axis_limits; avg_output;
     feature_names; target_name] = Ok g →
  indices g = seq 0 (nrows m) ∧ nof_instances g = nrows m ∧
  data g = m ∧ dim g = ncols m ∧
  (if is_None avg_output
   then ∃ out, py_call model m = Ok out ∧ Effector.avg_output g = VFloat (np_mean out)
   else Effector.avg_output g = avg_output) ∧
  (if is_None axis_limits
   then ∃ l, axis_limits_from_data m = Ok l ∧ Effector.axis_limits g = VArray (Arr2 l)
   else Effector.axis_limits g = axis_limits) ∧
  is_fitted g = replicate (ncols m) false ∧
  length (is_fitted g) = ncols m ∧
  method_args g = ∅ ∧ feature_effect g = ∅.
Proof.
  unfold Effector.GlobalEffect_init. cbn -[take_rows axis_limits_from_data np_mean seq nrows].
  rewrite take_rows_all. cbn -[axis_limits_from_data np_mean seq nrows].
  destruct (is_None avg_output) eqn:Havg; cbn -[axis_limits_from_data np_mean seq nrows].
  - destruct (py_call model m) as [out|e] eqn:Hcall;
      cbn -[axis_limits_from_data np_mean seq nrows]; [|discriminate].
    destruct (is_None axis_limits) eqn:Hlim; cbn -[axis_limits_from_data np_mean seq nrows].
    + destruct (axis_limits_from_data m) as [l|e] eqn:Hl;
        cbn -[np_mean seq nrows]; [|discriminate].
      intros [= <-]. cbn -[np_mean seq nrows]. rewrite length_replicate. eauto 15.
    + intros [= <-]. cbn -[np_mean seq nrows]. rewrite length_replicate. eauto 15.
  - destruct (is_None axis_limits) eqn:Hlim; cbn -[axis_limits_from_data np_mean seq nrows].
    + destruct (axis_limits_from_data m) as [l|e] eqn:Hl;
        cbn -[np_mean seq nrows]; [|discriminate].
      intros [= <-]. cbn -[np_mean seq nrows]. rewrite length_replicate. eauto 15.
    + intros [= <-]. cbn -[np_mean seq nrows]. rewrite length_replicate. eauto 15.
Qed.

(** C1 (code defect).  Whatever the 2-D dataset, the model callable and the
    optional arguments, neither constructor returns an object: the call to
    [GlobalEffect.__init__] passes the dataset as [method_name] and the
    model as [data], and [data.ndim] raises [AttributeError]. *)
Theorem subclass_constructors_raise (m : matrix) (f : matrix → ndarray)
    (model_jac axis_limits data_effect avg_output feature_names target_name : value) :
  RHALE_init (VArray (Arr2 m)) (VCallable f) model_jac axis_limits data_effect
    avg_output feature_names target_name = Raise AttributeError
  ∧ SHAP_init (VArray (Arr2 m)) (VCallable f) axis_limits avg_output
      feature_names target_name = Raise AttributeError.
Proof. split; reflexivity. Qed.

(* --------------------------------------------------------------------- *)
(** ** RHALE *)
(* --------------------------------------------------------------------- *)

Local Abbreviation RHALE_compile :=
  (Effector.RHALE_compile compute_jacobian_numerically).
Local Abbreviation RHALE_fit_feature :=
  (Effector.RHALE_fit_feature compute_jacobian_numerically compute_ale_params find_limits).
Local Abbreviation RHALE_fit :=
  (Effector.RHALE_fit compute_jacobian_numerically compute_ale_params find_limits).
Local Abbreviation RHALE_eval_unnorm :=
  (Effector.RHALE_eval_unnorm compute_accumulated_effect np_sqrt).
Local Abbreviation RHALE_plot := (Effector.RHALE_plot prep_avg_output).

(** *** Steps that keep a relation *)

Section Keeps.
Context {S : Type} (R : S → S → Prop) `{!Reflexive R} `{!Transitive R}.

Lemma keeps_ret {A} (a : A) : keeps R (ret a).
Proof. intros s. reflexivity. Qed.

Lemma keeps_raise {A} (e : exn) : keeps R (raise (A := A) e).
Proof. intros s. reflexivity. Qed.

Lemma keeps_lift {A} (r : result A) : keeps R (lift r).
Proof. intros s. reflexivity. Qed.

Lemma keeps_get : keeps R get.
Proof. intros s. reflexivity. Qed.

Lemma keeps_modify (f : S → S) : (∀ s, R s (f s)) → keeps R (modify f).
Proof. intros H s. apply H. Qed.

Lemma keeps_mbind {A B} (m : M S A) (k : A → M S B) :
  keeps R m → (∀ a, keeps R (k a)) → keeps R (mbind m k).
Proof.
  intros Hm Hk s. unfold mbind. specialize (Hm s).
  destruct (m s) as [[a|e] s']; [|exact Hm].
  etransitivity; [exact Hm | apply Hk].
Qed.

Lemma keeps_for_each {A} (l : list A) (body : A → M S unit) :
  (∀ a, keeps R (body a)) → keeps R (for_each l body).
Proof.
  intros Hb. induction l as [|a l IH]; [apply keeps_ret|].
  apply keeps_mbind; [apply Hb | intros _; exact IH].
Qed.

End Keeps.

Global Instance same_fit_state_refl : Reflexive same_fit_state.
Proof. intros s. split; reflexivity. Qed.

Global Instance same_fit_state_trans : Transitive same_fit_state.
Proof. intros s1 s2 s3 [H1 H2] [H3 H4]. split; congruence. Qed.

Global Instance same_records_refl : Reflexive same_records.
Proof. intros s. split; reflexivity. Qed.

Global Instance same_records_trans : Transitive same_records.
Proof.
  intros s1 s2 s3 [H1 H2] [H3 H4]. split; [by etransitivity | congruence].
Qed.

Ltac keeps_step :=
  first
    [ apply keeps_mbind; [tc_solve | | intros ?]
    | apply keeps_ret | apply keeps_raise | apply keeps_lift | apply keeps_get
    | apply keeps_modify; intros [? ? ?]; repeat split; reflexivity
    | match goal with
      | |- keeps _ (if ?b then _ else _) => destruct b
      end ];
  try tc_solve.

Lemma RHALE_compile_keeps : keeps same_records RHALE_compile.
Proof. unfold Effector.RHALE_compile. repeat keeps_step. Qed.

(** [_fit_feature] changes [data] and [data_effect] only. *)
Lemma RHALE_fit_feature_keeps feature binning_method :
  keeps same_records (RHALE_fit_feature feature binning_method).
Proof.
  unfold Effector.RHALE_fit_feature.
  repeat first [ apply RHALE_compile_keeps | keeps_step ].
Qed.

(** *** Evaluation *)

(** C2 (code defect).  [RHALE] has no [eval] of its own, so the call runs
    [GlobalEffect.eval], which raises [NotImplementedError] for every
    object, feature, query array and option: no curve is returned. *)
Theorem RHALE_eval_not_implemented (self : RHALE) (feature : Z) (xs : vector)
    (heterogeneity : bool) (centering : value) :
  RHALE_eval feature xs heterogeneity centering self
  = (Raise NotImplementedError, self).
Proof. reflexivity. Qed.

(** The unnormalised curves are what [_eval_unnorm] computes: the mean
    curve from [bin_effect], and with heterogeneity the curves from the
    square roots of [bin_variance] and [bin_estimator_variance]. *)
Lemma RHALE_eval_unnorm_curves (self : RHALE) (feature : Z) (x : vector)
    (params : gmap string value) (lim be bv bev dx : value) :
  feature_effect (base self) !! feature_key feature = Some params →
  params !! "limits" = Some lim → params !! "bin_effect" = Some be →
  params !! "bin_variance" = Some bv →
  params !! "bin_estimator_variance" = Some bev → params !! "dx" = Some dx →
  RHALE_eval_unnorm self feature x false
  = bind (compute_accumulated_effect x lim be dx) (λ y, Ok (Curve y))
  ∧ RHALE_eval_unnorm self feature x true
    = bind (compute_accumulated_effect x lim be dx) (λ y,
      bind (np_sqrt bv) (λ sd,
      bind (compute_accumulated_effect x lim sd dx) (λ std,
      bind (np_sqrt bev) (λ se,
      bind (compute_accumulated_effect x lim se dx) (λ std_err,
      Ok (CurveWithHeterogeneity y std std_err)))))).
Proof.
  intros Hp Hl Hb Hv He Hd. unfold Effector.RHALE_eval_unnorm, py_getitem.
  rewrite Hp. cbn [bind]. rewrite Hl, Hb, Hd. cbn [bind].
  split; [reflexivity|].
  destruct (compute_accumulated_effect x lim be dx); [|reflexivity].
  cbn [bind]. rewrite Hv, He. reflexivity.
Qed.

(** [plot] relies on [eval] to fit on demand, and so never renders. *)
Lemma RHALE_plot_never_renders (self : RHALE) (feature : Z)
    (heterogeneity centering scale_x scale_y : value) (show_avg_output : bool)
    (y_limits : value) :
  ∃ e, RHALE_plot feature heterogeneity centering scale_x scale_y show_avg_output
         y_limits self = (Raise e, self).
Proof.
  unfold Effector.RHALE_plot, mbind, lift, get.
  destruct (prep_confidence_interval heterogeneity); [|by eexists].
  destruct (prep_centering centering); [|by eexists].
  destruct (value_index2 _ _ _); by eexists.
Qed.

(** *** Fitting *)

Lemma prep_centering_is_False (centering c : value) :
  prep_centering centering = Ok c → is_False c = is_False centering.
Proof.
  unfold prep_centering, PythiaHelpers.prep_centering.
  intros H. destruct centering as [| [|] | | | s | | |]; try discriminate H.
  - vm_compute in H. injection H as <-. reflexivity.
  - vm_compute in H. injection H as <-. reflexivity.
  - change (bool_decide (type_of (VStr s) ∈ [TBool; TStr])) with true in H.
    change (bool_decide (type_of (VStr s) = TStr)) with true in H.
    cbn [py_assert bind is_True] in H.
    destruct (py_in _ _); [|discriminate H]. injection H as <-. reflexivity.
Qed.

(** C3 (code defect).  With a centering mode other than [False] and a first
    requested feature [s], [fit] never returns: it raises, the fitted flags
    and the recorded fitting options are left as they were, and when
    [_fit_feature] succeeds the exception is the [AttributeError] of
    [self._compute_norm_const], raised right after the effect record of [s]
    is stored. *)
Theorem RHALE_fit_centering_raises (self : RHALE)
    (features binning_method centering c fs : value) (s : Z) (rest : list value) :
  prep_centering centering = Ok c →
  is_False centering = false →
  prep_features features (dim (base self)) = Ok fs →
  py_iter fs = Ok (VInt s :: rest) →
  ∃ e self',
    RHALE_fit features binning_method centering self = (Raise e, self') ∧
    same_fit_state self self' ∧
    ∀ p self1,
      RHALE_fit_feature s binning_method self = (Ok p, self1) →
      e = AttributeError ∧
      self' = with_base
                (λ g, with_feature_effect (<[feature_key s := p]> (feature_effect g)) g)
                self1.
Proof.
  intros Hc Hreq Hf Hl.
  pose proof (prep_centering_is_False _ _ Hc) as HcF. rewrite Hreq in HcF.
  unfold Effector.RHALE_fit, mbind at 1 2 3 4, get, lift.
  rewrite Hf, Hc, Hl. cbn [for_each]. unfold mbind at 1 2.
  pose proof (RHALE_fit_feature_keeps s binning_method self) as [Hk _].
  destruct (RHALE_fit_feature s binning_method self) as [[p|e] self1] eqn:Hff.
  - unfold modify at 1, mbind at 1. rewrite HcF. cbn [negb raise].
    eexists _, _. split; [reflexivity|]. split.
    + destruct self1 as [g1 ? ?]. cbn in Hk |- *. exact Hk.
    + intros p' s1' [= <- <-]. split; reflexivity.
  - exists e, self1. split; [reflexivity|]. split; [exact Hk|]. discriminate.
Qed.

(** *** Boolean masks *)

Lemma length_select_le {A} (l : list A) (mask : list bool) :
  (List.length (select l mask) ≤ List.length l)%nat.
Proof.
  revert mask. induction l as [|x l IH]; intros [|b mask]; cbn; try lia.
  specialize (IH mask). destruct b; cbn; lia.
Qed.

Lemma length_select_full {A} (l : list A) (mask : list bool) :
  List.length mask = List.length l →
  List.length (select l mask) = List.length l →
  forallb id mask = true ∧ select l mask = l.
Proof.
  revert mask. induction l as [|x l IH]; intros [|b mask]; cbn; try done.
  intros [= Hm] Hs. pose proof (length_select_le l mask).
  destruct b; cbn in Hs; [|lia].
  injection Hs as Hs. destruct (IH mask Hm Hs) as [-> ->]. done.
Qed.

Lemma select_map {A B} (f : A → B) (l : list A) (mask : list bool) :
  select (map f l) mask = map f (select l mask).
Proof.
  revert mask. induction l as [|x l IH]; intros [|b mask]; cbn; try done.
  destruct b; cbn; by rewrite IH.
Qed.

Lemma length_logical_and (a b : list bool) :
  List.length a = List.length b → List.length (logical_and a b) = List.length a.
Proof.
  revert b. induction a as [|x a IH]; intros [|y b]; cbn; try done.
  intros [= H]. by rewrite IH.
Qed.

Lemma forallb_logical_and (a b : list bool) :
  List.length a = List.length b →
  forallb id (logical_and a b) = forallb id a && forallb id b.
Proof.
  revert b. induction a as [|x a IH]; intros [|y b]; cbn; try done.
  intros [= H]. rewrite (IH b H). unfold id.
  destruct x, y; cbn; try reflexivity; by rewrite ?andb_false_r.
Qed.

Lemma column_mask_rows (m m' : matrix) (mask : list bool) (j : Z) (col : vector) :
  column m j = Ok col → mask_rows m mask = Ok m' →
  column m' j = Ok (select col mask).
Proof.
  unfold column, mask_rows. intros Hc Hm.
  destruct (Nat.eqb _ _); [|discriminate]. injection Hm as <-. cbn [ncols rows].
  destruct (col_pos (ncols m) j) as [p|]; [|discriminate]. cbn [bind] in *.
  injection Hc as <-. by rewrite select_map.
Qed.

Lemma mask_rows_ok (m : matrix) (mask : list bool) :
  List.length mask = nrows m →
  mask_rows m mask = Ok (Matrix (ncols m) (select (rows m) mask)).
Proof. unfold mask_rows. intros ->. by rewrite Nat.eqb_refl. Qed.

Lemma column_length (m : matrix) (j : Z) (col : vector) :
  column m j = Ok col → List.length col = nrows m.
Proof.
  unfold column, nrows. destruct (col_pos _ _); [|discriminate].
  cbn. intros [= <-]. apply length_map.
Qed.

(** A mask over a column: which entries lie within the limits. *)
Lemma forallb_within_masks (col : vector) (lo hi : Q) :
  forallb id (ge_mask col lo) && forallb id (le_mask (select col (ge_mask col lo)) hi)
  = forallb (within lo hi) col.
Proof.
  unfold ge_mask, le_mask, within. induction col as [|x col IH]; [reflexivity|].
  cbn. destruct (Qle_bool lo x); cbn; [|reflexivity].
  rewrite <- IH. unfold id at 2. destruct (Qle_bool x hi); cbn; [reflexivity|].
  by rewrite andb_false_r.
Qed.

(** C4 (code defect).  [_fit_feature] first replaces [self.data] by the
    rows within the limits and only then computes the mask, which therefore
    has one entry per kept row; applied to [self.data_effect], which still
    has one row per original instance, it raises [IndexError] as soon as one
    row lies outside the limits.  The bin statistics are never computed. *)
Theorem RHALE_fit_feature_misaligned (self self0 : RHALE) (feature : Z)
    (binning_method : value) (e : matrix) (col : vector) (lo hi : Q) :
  (if is_None (data_effect self) then RHALE_compile else ret tt) self = (Ok tt, self0) →
  data_effect self0 = VArray (Arr2 e) →
  nrows e = nrows (data (base self0)) →
  column (data (base self0)) feature = Ok col →
  value_index2 (axis_limits (base self0)) 0 feature = Ok lo →
  value_index2 (axis_limits (base self0)) 1 feature = Ok hi →
  forallb (within lo hi) col = false →
  ∃ self',
    RHALE_fit_feature feature binning_method self = (Raise IndexError, self') ∧
    data_effect self' = VArray (Arr2 e) ∧
    (nrows (data (base self')) < nrows e)%nat.
Proof.
  intros Hcomp He Hrows Hcol Hlo Hhi Hout.
  pose proof (column_length _ _ _ Hcol) as Hlen.
  set (m1 := ge_mask col lo).
  assert (Hm1 : List.length m1 = nrows (data (base self0)))
    by (unfold m1, ge_mask; rewrite length_map; exact Hlen).
  pose proof (mask_rows_ok _ _ Hm1) as Hd1.
  set (d1 := Matrix (ncols (data (base self0))) (select (rows (data (base self0))) m1)) in *.
  pose proof (column_mask_rows _ _ _ _ _ Hcol Hd1) as Hcol1.
  set (m2 := le_mask (select col m1) hi).
  assert (Hm2 : List.length m2 = nrows d1)
    by (unfold m2, le_mask; rewrite length_map; exact (column_length _ _ _ Hcol1)).
  pose proof (mask_rows_ok _ _ Hm2) as Hd2.
  set (d2 := Matrix (ncols d1) (select (rows d1) m2)) in *.
  pose proof (column_mask_rows _ _ _ _ _ Hcol1 Hd2) as Hcol2.
  set (col2 := select (select col m1) m2) in *.
  set (ind := logical_and (ge_mask col2 lo) (le_mask col2 hi)).
  assert (Hind : List.length ind = nrows d2).
  { unfold ind. rewrite length_logical_and; unfold ge_mask, le_mask;
      rewrite !length_map; [|reflexivity]. exact (column_length _ _ _ Hcol2). }
  assert (Hlt : (nrows d2 < nrows e)%nat).
  { rewrite Hrows. unfold nrows at 1. cbn [d2 d1 rows].
    pose proof (length_select_le (select (rows (data (base self0))) m1) m2) as L2.
    pose proof (length_select_le (rows (data (base self0))) m1) as L1.
    unfold nrows in *.
    destruct (decide (List.length (select (select (rows (data (base self0))) m1) m2)
                      = List.length (rows (data (base self0))))) as [Heq|Hne]; [|lia].
    exfalso.
    destruct (length_select_full _ _ Hm1 ltac:(lia)) as [A1 E1].
    cbn [d1 rows] in Hm2. rewrite E1 in Heq, Hm2.
    destruct (length_select_full _ _ Hm2 Heq) as [A2 _].
    pose proof (forallb_within_masks col lo hi) as W.
    fold m1 m2 in W. rewrite A1, A2, Hout in W. discriminate. }
  exists (with_base (with_data d2) (with_base (with_data d1) self0)).
  split; [|split; [exact He | exact Hlt]].
  unfold Effector.RHALE_fit_feature.
  unfold mbind at 1. unfold get at 1. unfold mbind at 1. rewrite Hcomp.
  unfold mbind at 1. unfold get at 1.
  unfold mbind at 1. unfold lift at 1. rewrite Hcol.
  unfold mbind at 1. unfold lift at 1. rewrite Hlo.
  unfold mbind at 1. unfold lift at 1. fold m1. rewrite Hd1.
  unfold mbind at 1. unfold modify at 1.
  unfold mbind at 1. unfold get at 1.
  unfold mbind at 1. unfold lift at 1.
  cbn [base with_base with_data data axis_limits]. rewrite Hcol1.
  unfold mbind at 1. unfold lift at 1. rewrite Hhi.
  unfold mbind at 1. unfold lift at 1. fold m2. rewrite Hd2.
  unfold mbind at 1. unfold modify at 1.
  unfold mbind at 1. unfold get at 1.
  unfold mbind at 1. unfold lift at 1.
  cbn [base with_base with_data data axis_limits]. rewrite Hcol2.
  unfold mbind at 1. unfold lift at 1. rewrite Hlo.
  unfold mbind at 1. unfold lift at 1.
  unfold mbind at 1. unfold lift at 1. rewrite Hhi.
  fold ind. unfold mbind at 1. unfold lift at 1.
  rewrite (mask_rows_ok _ _ Hind).
  unfold mbind at 1. unfold lift at 1.
  cbn [data_effect with_base]. rewrite He. unfold value_mask_rows, mask_rows.
  rewrite Hind. destruct (Nat.eqb_spec (nrows d2) (nrows e)) as [Heq|_]; [lia|].
  reflexivity.
Qed.

(* --------------------------------------------------------------------- *)
(** ** The shared refit policy *)
(* --------------------------------------------------------------------- *)

(** [refit] answers [True] exactly when the feature is
    not fitted, or it is fitted, the requested mode is not [False] and a
    centering mode is recorded for it that differs from the requested one;
    it answers [False] exactly when the feature is fitted and the requested
    mode is [False] or equals the recorded one; and it raises [KeyError]
    exactly when the feature is fitted, the requested mode is not [False]
    and no centering mode is recorded for the feature. *)
Lemma refit_characterised {E} (self : GlobalEffect E) (feature : Z)
    (centering : value) :
  (refit self feature centering = Ok true ↔
     py_index (is_fitted self) feature = Ok false ∨
     (py_index (is_fitted self) feature = Ok true ∧ is_False centering = false ∧
      ∃ c, recorded_centering self feature = Some c ∧ py_ne c centering = true)) ∧
  (refit self feature centering = Ok false ↔
     py_index (is_fitted self) feature = Ok true ∧
     (is_False centering = true ∨
      ∃ c, recorded_centering self feature = Some c ∧ py_ne c centering = false)) ∧
  (refit self feature centering = Raise KeyError ↔
     py_index (is_fitted self) feature = Ok true ∧ is_False centering = false ∧
     recorded_centering self feature = None).
Proof.
  unfold refit, recorded_centering, py_getitem.
  assert (Hidx : ∀ e, py_index (is_fitted self) feature = Raise e → e = IndexError).
  { unfold py_index. intros e. repeat case_match; congruence. }
  destruct (py_index (is_fitted self) feature) as [[|]|e]; cbn [bind negb];
    [| | specialize (Hidx e eq_refl); subst e ];
    [ destruct (is_False centering); cbn [negb];
      [| destruct (method_args self !! feature_key feature) as [a|];
         cbn [bind base.mbind option_bind];
         [ destruct (a !! "centering") as [c|] eqn:Hc; cbn [bind];
           [ destruct (py_ne c centering) eqn:Hne |] |] ] | | ];
    (repeat split; intros;
     repeat match goal with
       | H : _ ∨ _ |- _ => destruct H
       | H : _ ∧ _ |- _ => destruct H
       | H : ∃ _, _ |- _ => destruct H
       end; cbn [base.mbind option_bind] in *; simplify_eq; eauto 7; congruence).
Qed.

(* --------------------------------------------------------------------- *)
(** ** Sorting by [np.argsort] *)
(* --------------------------------------------------------------------- *)

Section Argsort.
Context {A : Type}.
Implicit Types (l : list (Q * A)) (x : Q * A).

Lemma insert_by_key_perm x l : Permutation (insert_by_key x l) (x :: l).
Proof.
  induction l as [|y l IH]; cbn; [reflexivity|].
  destruct (Qle_bool x.1 y.1); [reflexivity|].
  rewrite IH. apply perm_swap.
Qed.

Lemma sort_by_key_perm l : Permutation (sort_by_key l) l.
Proof.
  induction l as [|x l IH]; cbn; [reflexivity|].
  rewrite insert_by_key_perm. by constructor.
Qed.

Lemma insert_by_key_sorted x l :
  StronglySorted key_le l → StronglySorted key_le (insert_by_key x l).
Proof.
  induction 1 as [|y l Hs IH Hall]; cbn; [repeat constructor|].
  destruct (Qle_bool x.1 y.1) eqn:Hxy.
  - apply Qle_bool_iff in Hxy. constructor; [by constructor|].
    constructor; [exact Hxy|].
    eapply Forall_impl; [exact Hall|]. intros z Hz. unfold key_le in *.
    by eapply Qle_trans.
  - assert (Hyx : (y.1 <= x.1)%Q).
    { apply Qlt_le_weak, Qnot_le_lt. intros H. apply Qle_bool_iff in H. congruence. }
    constructor; [exact IH|].
    rewrite insert_by_key_perm. by constructor.
Qed.

Lemma sort_by_key_sorted l : StronglySorted key_le (sort_by_key l).
Proof.
  induction l as [|x l IH]; cbn; [constructor|]. by apply insert_by_key_sorted.
Qed.

End Argsort.

Lemma py_index_lookup {A} (l : list A) (i : nat) (x : A) :
  l !! i = Some x → py_index l (Z.of_nat i) = Ok x.
Proof.
  intros H. pose proof (lookup_lt_Some _ _ _ H) as Hlt. unfold py_index.
  assert (Hin : (0 <=? Z.of_nat i) && (Z.of_nat i <? Z.of_nat (List.length l)) = true)
    by (apply andb_true_iff; split; [apply Z.leb_le | apply Z.ltb_lt]; lia).
  rewrite Hin, Nat2Z.id, H. reflexivity.
Qed.

Lemma py_index_head {A} (l : list A) (x : A) :
  py_index l 0 = Ok x → head l = Some x.
Proof.
  unfold py_index. destruct l as [|y l]; [discriminate|].
  change (0 <=? 0) with true. cbn [andb].
  destruct (0 <? _); [cbn; by intros [= ->]|].
  change (0 <? 0) with false. rewrite andb_false_r. discriminate.
Qed.

Lemma py_index_last {A} (l : list A) (x : A) :
  py_index l (-1) = Ok x → last l = Some x.
Proof.
  unfold py_index. cbn [Z.leb Z.compare andb Z.ltb].
  destruct (- Z.of_nat (List.length l) <=? -1) eqn:Hn; cbn; [|discriminate].
  apply Z.leb_le in Hn.
  replace (Z.to_nat (Z.of_nat (List.length l) + -1)) with (pred (List.length l)) by lia.
  rewrite <- last_lookup. destruct (last l); congruence.
Qed.

(** Sorting the values of [v] by [np.argsort(v)] gives a sorted
    rearrangement of [v]. *)
Lemma take_argsort (v : vector) :
  take v (np_argsort v)
  = Ok (map fst (sort_by_key (zip v (seq 0 (List.length v))))).
Proof.
  unfold take, np_argsort.
  assert (H : Forall (λ p : Q * nat, v !! p.2 = Some p.1)
                (sort_by_key (zip v (seq 0 (List.length v))))).
  { rewrite sort_by_key_perm. apply Forall_forall. intros [x i] Hin.
    apply list_elem_of_lookup in Hin as [k Hk].
    apply lookup_zip_with_Some in Hk as (a & b & [= <- <-] & Ha & Hb).
    apply lookup_seq in Hb as [-> _]. exact Ha. }
  induction H as [|[x i] l Hx _ IH]; [reflexivity|].
  cbn [map mapM snd fst]. cbn [snd fst] in Hx.
  rewrite (py_index_lookup _ _ _ Hx). cbn [bind].
  rewrite IH. reflexivity.
Qed.

Lemma argsort_values_perm (v : vector) :
  Permutation (map fst (sort_by_key (zip v (seq 0 (List.length v))))) v.
Proof.
  rewrite sort_by_key_perm. rewrite fst_zip; [reflexivity|].
  rewrite length_seq. lia.
Qed.

Lemma argsort_values_sorted (v : vector) :
  StronglySorted Qle (map fst (sort_by_key (zip v (seq 0 (List.length v))))).
Proof.
  generalize (sort_by_key_sorted (zip v (seq 0 (List.length v)))).
  induction 1 as [|x l Hs IH Hall]; cbn; constructor; [exact IH|].
  apply Forall_map. exact Hall.
Qed.

(** In a sorted array the first element is the least and the last one
    the greatest. *)
Lemma sorted_head_least (l : vector) (x0 : Q) :
  StronglySorted Qle l → head l = Some x0 → ∀ x, x ∈ l → (x0 <= x)%Q.
Proof.
  intros Hs Hh x Hx. destruct Hs as [|y l Hs Hall]; [discriminate|].
  injection Hh as ->. apply elem_of_cons in Hx as [->|Hx]; [apply Qle_refl|].
  rewrite Forall_forall in Hall. by apply Hall.
Qed.

Lemma sorted_last_greatest (l : vector) (xN : Q) :
  StronglySorted Qle l → last l = Some xN → ∀ x, x ∈ l → (x <= xN)%Q.
Proof.
  induction 1 as [|y l Hs IH Hall]; intros Hl x Hx; [discriminate|].
  destruct l as [|z l].
  - injection Hl as <-. apply list_elem_of_singleton in Hx as ->. apply Qle_refl.
  - change (last (z :: l) = Some xN) in Hl.
    apply elem_of_cons in Hx as [->|Hx]; [|by apply IH].
    rewrite Forall_forall in Hall. eapply Qle_trans; [apply (Hall z); left|].
    apply IH; [exact Hl | left].
Qed.

(* --------------------------------------------------------------------- *)
(** ** SHAPDependence *)
(* --------------------------------------------------------------------- *)

Local Abbreviation SHAP_norm_const := (Effector.SHAP_norm_const EMPTY_SYMBOL).
Local Abbreviation SHAP_fit_rows :=
  (Effector.SHAP_fit_rows random_choice prep_nof_instances_other).
Local Abbreviation SHAP_fit_feature :=
  (Effector.SHAP_fit_feature EMPTY_SYMBOL random_choice prep_nof_instances_other
     shap_explainer UnivariateSpline).
Local Abbreviation SHAP_fit :=
  (Effector.SHAP_fit EMPTY_SYMBOL random_choice prep_nof_instances_other
     shap_explainer UnivariateSpline).
Local Abbreviation SHAP_eval_must_fit := (Effector.SHAP_eval_must_fit EMPTY_SYMBOL).
Local Abbreviation SHAP_eval :=
  (Effector.SHAP_eval EMPTY_SYMBOL random_choice prep_nof_instances_other
     shap_explainer UnivariateSpline).
Local Abbreviation SHAP_plot :=
  (Effector.SHAP_plot EMPTY_SYMBOL random_choice prep_nof_instances_other
     shap_explainer UnivariateSpline).

(** *** The norm constant *)

Lemma np_trapz_map (f : Q → Q) (x : vector) :
  np_trapz (map f x) x = Ok (trapz_pairs (zip x (map f x))).
Proof. unfold np_trapz. by rewrite length_map, Nat.eqb_refl. Qed.

Lemma SHAP_norm_const_cases (sm : Q → Q) (xs : vector) (centering pfc nc : value) :
  SHAP_norm_const sm xs centering pfc = Ok nc →
  if py_eq centering (VStr "zero_integral") then
    ∃ x0 xN grid,
      head xs = Some x0 ∧ last xs = Some xN ∧ np_linspace x0 xN pfc = Ok grid ∧
      nc = VFloat (trapz_pairs (zip grid (map sm grid)) / (xN - x0))
  else if py_eq centering (VStr "zero_start") then
    ∃ x0, head xs = Some x0 ∧ nc = VFloat (sm x0)
  else nc = EMPTY_SYMBOL.
Proof.
  unfold Effector.SHAP_norm_const.
  destruct (py_eq centering (VStr "zero_integral")).
  - destruct (py_index xs 0) as [x0|] eqn:H0; cbn [bind]; [|discriminate].
    destruct (py_index xs (-1)) as [xN|] eqn:HN; cbn [bind]; [|discriminate].
    destruct (np_linspace x0 xN pfc) as [grid|] eqn:Hg; cbn [bind]; [|discriminate].
    rewrite np_trapz_map. cbn [bind]. intros [= <-].
    exists x0, xN, grid. split_and!; eauto using py_index_head, py_index_last.
  - destruct (py_eq centering (VStr "zero_start")).
    + destruct (py_index xs 0) as [x0|] eqn:H0; cbn [bind]; [|discriminate].
      intros [= <-]. exists x0. split; eauto using py_index_head.
    + by intros [= <-].
Qed.

(** C7.  In the record a feature fit returns, [xx] holds the feature
    values of the rows used, in increasing order, so that its first entry
    is the smallest and its last entry the greatest observed value; and the
    norm constant is
    - for ["zero_integral"], the trapezoidal integral of the mean spline
      over the grid [np.linspace(xx[0], xx[-1], points_used_for_centering)]
      divided by [xx[-1] - xx[0]];
    - for ["zero_start"], the mean spline at [xx[0]];
    - for any other centering, [EMPTY_SYMBOL]. *)
Theorem SHAP_fit_feature_norm_const (self : SHAPDependence) (feature : Z)
    (centering pfs pfc : value) (e : shap_effect) :
  SHAP_fit_feature self feature centering pfs pfc = Ok e →
  (∃ used observed,
     SHAP_fit_rows self feature pfs pfc = Ok used ∧
     column used feature = Ok observed ∧
     Permutation (xx e) observed ∧
     (∀ x0, head (xx e) = Some x0 → ∀ x, x ∈ observed → (x0 <= x)%Q) ∧
     (∀ xN, last (xx e) = Some xN → ∀ x, x ∈ observed → (x <= xN)%Q)) ∧
  if py_eq centering (VStr "zero_integral") then
    ∃ x0 xN grid,
      head (xx e) = Some x0 ∧ last (xx e) = Some xN ∧
      np_linspace x0 xN pfc = Ok grid ∧
      norm_const e
      = VFloat (trapz_pairs (zip grid (map (spline_mean e) grid)) / (xN - x0))
  else if py_eq centering (VStr "zero_start") then
    ∃ x0, head (xx e) = Some x0 ∧ norm_const e = VFloat (spline_mean e x0)
  else norm_const e = EMPTY_SYMBOL.
Proof.
  unfold Effector.SHAP_fit_feature.
  destruct (SHAP_fit_rows self feature pfs pfc) as [used|] eqn:Hrows;
    cbn [bind]; [|discriminate].
  destruct (shap_explainer (model self) used) as [expl|]; cbn [bind]; [|discriminate].
  destruct (column expl feature) as [ys|]; cbn [bind]; [|discriminate].
  destruct (column used feature) as [observed|] eqn:Hobs; cbn [bind]; [|discriminate].
  rewrite take_argsort. cbn [bind].
  set (sorted := map fst (sort_by_key (zip observed (seq 0 (List.length observed))))).
  destruct (take ys (np_argsort observed)) as [ys'|]; cbn [bind]; [|discriminate].
  destruct (UnivariateSpline sorted ys') as [sm|]; cbn [bind]; [|discriminate].
  destruct (UnivariateSpline sorted _) as [ss|]; cbn [bind]; [|discriminate].
  destruct (SHAP_norm_const sm sorted centering pfc) as [nc|] eqn:Hnc;
    cbn [bind]; [|discriminate].
  intros [= <-]. cbn [xx norm_const spline_mean].
  pose proof (argsort_values_perm observed) as Hperm. fold sorted in Hperm.
  pose proof (argsort_values_sorted observed) as Hsorted. fold sorted in Hsorted.
  split.
  - exists used, observed. split_and!; try done.
    + intros x0 Hh x Hx. eapply sorted_head_least; [exact Hsorted | exact Hh |].
      by rewrite Hperm.
    + intros xN Hl x Hx. eapply sorted_last_greatest; [exact Hsorted | exact Hl |].
      by rewrite Hperm.
  - exact (SHAP_norm_const_cases _ _ _ _ _ Hnc).
Qed.

(** *** Evaluation *)

Lemma py_index_nonneg {A} (l : list A) (i : Z) :
  0 <= i < Z.of_nat (List.length l) →
  py_index l i = match l !! Z.to_nat i with
                 | Some x => Ok x
                 | None => Raise IndexError
                 end.
Proof.
  intros [H0 H1]. unfold py_index.
  assert (Hin : (0 <=? i) && (i <? Z.of_nat (List.length l)) = true)
    by (apply andb_true_iff; split; [apply Z.leb_le | apply Z.ltb_lt]; lia).
  by rewrite Hin.
Qed.

(** The statements after the conditional fit leave the object as it is. *)
Lemma SHAP_eval_curve_keeps (feature : Z) (xs : vector) (uncertainty : bool)
    (centering : value) :
  keeps eq (SHAP_eval_curve feature xs uncertainty centering).
Proof. unfold SHAP_eval_curve. repeat keeps_step. Qed.

(** *** Plotting *)

Lemma prep_confidence_interval_not_shap_values (ci ci' : value) :
  prep_confidence_interval ci = Ok ci' →
  ci ≠ VStr "shap_values" →
  py_eq ci' (VStr "shap_values") = false.
Proof.
  unfold prep_confidence_interval. intros H Hne.
  destruct ci as [| [|] | | | s | | |]; try discriminate H.
  - vm_compute in H. injection H as <-. reflexivity.
  - vm_compute in H. injection H as <-. reflexivity.
  - change (bool_decide (type_of (VStr s) ∈ [TBool; TStr])) with true in H.
    change (bool_decide (type_of (VStr s) = TStr)) with true in H.
    cbn [py_assert bind is_True] in H.
    destruct (py_in _ _); [|discriminate H]. injection H as <-.
    cbn. destruct (String.eqb_spec s "shap_values") as [->|]; [done|reflexivity].
Qed.

(** C10.  With an integer [nof_shap_values] and a [confidence_interval]
    other than ["shap_values"], [plot] raises before handing anything to
    the visualization module: [xx] is [None] in that branch and
    [len(xx)] is still evaluated. *)
Theorem SHAP_plot_raises (self : SHAPDependence) (feature : Z)
    (confidence_interval centering nof_axis_points scale_x scale_y : value)
    (n : Z) (show_avg_output : bool) (y_limits : value) :
  confidence_interval ≠ VStr "shap_values" →
  ∃ e self',
    SHAP_plot feature confidence_interval centering nof_axis_points scale_x
      scale_y (VInt n) show_avg_output y_limits self = (Raise e, self').
Proof.
  intros Hci. unfold Effector.SHAP_plot.
  unfold mbind at 1. unfold lift at 1.
  destruct (prep_confidence_interval confidence_interval) as [ci|] eqn:Hprep;
    [|by eexists _, _].
  pose proof (prep_confidence_interval_not_shap_values _ _ Hprep Hci) as Hns.
  unfold mbind at 1. unfold get at 1.
  unfold mbind at 1. unfold lift at 1.
  destruct (value_index2 (axis_limits self) 0 feature) as [lo|]; [|by eexists _, _].
  unfold mbind at 1. unfold lift at 1.
  destruct (value_index2 (axis_limits self) 1 feature) as [hi|]; [|by eexists _, _].
  unfold mbind at 1. unfold lift at 1.
  destruct (np_linspace lo hi nof_axis_points) as [x|]; [|by eexists _, _].
  unfold mbind at 1.
  destruct (SHAP_eval feature x false centering self) as [[r|] self1];
    [|by eexists _, _].
  unfold mbind at 1. unfold get at 1.
  rewrite Hns.
  unfold mbind at 1.
  destruct (py_eq ci (VStr "std")).
  - unfold mbind at 1. unfold lift at 1.
    destruct (py_getitem (feature_effect self1) (feature_key feature)) as [e|];
      [|by eexists _, _].
    by eexists _, _.
  - by eexists _, _.
Qed.

(* --------------------------------------------------------------------- *)
(** ** Further properties of [SHAPDependence] *)
(* --------------------------------------------------------------------- *)

Global Instance same_but_fit_state_refl {E} : Reflexive (same_but_fit_state (E := E)).
Proof. intros s. repeat split. Qed.

Global Instance same_but_fit_state_trans {E} : Transitive (same_but_fit_state (E := E)).
Proof.
  intros s1 s2 s3 H1 H2. unfold same_but_fit_state in *.
  destruct_and!. repeat split; congruence.
Qed.

Lemma SHAP_fit_frame (features centering pfs pfc : value) :
  keeps same_but_fit_state (SHAP_fit features centering pfs pfc).
Proof.
  unfold Effector.SHAP_fit.
  repeat first
    [ apply keeps_mbind; [tc_solve | | intros ?]
    | apply keeps_for_each; [tc_solve .. | intros []]
    | apply keeps_ret | apply keeps_raise | apply keeps_lift | apply keeps_get
    | apply keeps_modify; intros []; repeat split; reflexivity ];
  try tc_solve.
Qed.

(** Whether it returns or raises, [fit] changes nothing but the fitted
    flags and the effect records: in particular it records no fitting
    options and, unlike [RHALE.fit], leaves [data] alone. *)
Theorem SHAP_fit_touches_only_fit_state (features centering pfs pfc : value)
    (self : SHAPDependence) :
  same_but_fit_state self (SHAP_fit features centering pfs pfc self).2.
Proof. apply SHAP_fit_frame. Qed.

Lemma py_setitem_index {A} (l l' : list A) (i : Z) (x : A) :
  py_setitem l i x = Ok l' → py_index l' i = Ok x.
Proof.
  unfold py_setitem, py_index. intros H.
  destruct ((0 <=? i) && (i <? Z.of_nat (List.length l))) eqn:H1.
  - injection H as <-. rewrite length_insert, H1.
    apply andb_true_iff in H1 as [H0%Z.leb_le H1%Z.ltb_lt].
    rewrite list_lookup_insert_eq by lia. reflexivity.
  - destruct ((- Z.of_nat (List.length l) <=? i) && (i <? 0)) eqn:H2; [|discriminate].
    injection H as <-. rewrite length_insert, H1, H2.
    apply andb_true_iff in H2 as [H2%Z.leb_le H3%Z.ltb_lt].
    rewrite list_lookup_insert_eq by lia. reflexivity.
Qed.

Lemma py_setitem_nonneg {A} (l l' : list A) (i : Z) (x : A) :
  0 <= i → py_setitem l i x = Ok l' → l' = <[Z.to_nat i := x]> l.
Proof.
  unfold py_setitem. intros Hi H.
  destruct ((0 <=? i) && (i <? Z.of_nat (List.length l))); [by injection H|].
  destruct ((- Z.of_nat (List.length l) <=? i) && (i <? 0)) eqn:H2; [|discriminate].
  apply andb_true_iff in H2 as [_ H3%Z.ltb_lt]. lia.
Qed.

(** One iteration of the loop of [fit]. *)
Lemma SHAP_fit_body_records (s : Z) (centering pfs pfc : value) (self : SHAPDependence) :
  0 <= s → fitted_have_records self →
  fitted_have_records
    ((self0 <- get ;;
      e <- lift (SHAP_fit_feature self0 s centering pfs pfc) ;;
      modify (λ g, with_feature_effect (<[feature_key s := e]> (feature_effect g)) g) ;;;
      self1 <- get ;;
      f <- lift (py_setitem (is_fitted self1) s true) ;;
      modify (with_is_fitted f))%method self).2.
Proof.
  intros Hs Hwf. unfold mbind, get, lift, modify.
  destruct (SHAP_fit_feature self s centering pfs pfc) as [e|]; [|exact Hwf].
  cbn [is_fitted with_feature_effect].
  destruct (py_setitem (is_fitted self) s true) as [f|] eqn:Hf; cbn [snd].
  - apply (py_setitem_nonneg _ _ _ _ Hs) in Hf. subst f.
    intros n Hn. cbn [is_fitted feature_effect with_is_fitted with_feature_effect] in *.
    destruct (decide (n = Z.to_nat s)) as [->|Hne].
    + rewrite Z2Nat.id by lia. rewrite lookup_insert_eq. by eexists.
    + rewrite list_lookup_insert_ne in Hn by done.
      destruct (decide (feature_key s = feature_key (Z.of_nat n))) as [->|Hk].
      * rewrite lookup_insert_eq. by eexists.
      * rewrite lookup_insert_ne by done. by apply Hwf.
  - intros n Hn. cbn [is_fitted feature_effect with_feature_effect] in *.
    destruct (decide (feature_key s = feature_key (Z.of_nat n))) as [->|Hk].
    + rewrite lookup_insert_eq. by eexists.
    + rewrite lookup_insert_ne by done. by apply Hwf.
Qed.

(** [fit] on non-negative feature indices keeps every fitted feature
    backed by an effect record, whether it returns or raises. *)
Theorem SHAP_fit_keeps_records (features centering pfs pfc fs : value)
    (l : list value) (self : SHAPDependence) :
  fitted_have_records self →
  prep_features features (dim self) = Ok fs →
  py_iter fs = Ok l →
  nonnegative_features l →
  fitted_have_records (SHAP_fit features centering pfs pfc self).2.
Proof.
  intros Hwf Hf Hl Hnn. unfold Effector.SHAP_fit.
  unfold mbind at 1. unfold lift at 1.
  destruct (prep_centering centering) as [c|]; [|exact Hwf].
  unfold mbind at 1. unfold get at 1.
  unfold mbind at 1. unfold lift at 1. rewrite Hf.
  unfold mbind at 1. unfold lift at 1. rewrite Hl.
  clear Hf Hl. revert self Hwf. induction l as [|v l IH]; intros self Hwf; [exact Hwf|].
  cbn [for_each]. unfold mbind at 1.
  assert (Hbody : fitted_have_records
            ((match v with
              | VInt s =>
                  self0 <- get ;;
                  e <- lift (SHAP_fit_feature self0 s c pfs pfc) ;;
                  modify (λ g, with_feature_effect
                                 (<[feature_key s := e]> (feature_effect g)) g) ;;;
                  self1 <- get ;;
                  f <- lift (py_setitem (is_fitted self1) s true) ;;
                  modify (with_is_fitted f)
              | _ => raise IndexError
              end)%method self).2).
  { destruct v; try exact Hwf. apply SHAP_fit_body_records; [|exact Hwf].
    apply Hnn. left. }
  destruct (_ self) as [[[]|] self1]; cbn [snd] in Hbody; [|exact Hbody].
  apply IH; [|exact Hbody]. intros s Hs. apply Hnn. by right.
Qed.

(** After a successful [fit] of one feature the feature is marked fitted
    and has an effect record. *)
Lemma SHAP_fit_single (s : Z) (centering pfs pfc : value) (self self' : SHAPDependence) :
  SHAP_fit (VInt s) centering pfs pfc self = (Ok tt, self') →
  py_index (is_fitted self') s = Ok true ∧
  is_Some (feature_effect self' !! feature_key s).
Proof.
  unfold Effector.SHAP_fit.
  unfold mbind at 1. unfold lift at 1.
  destruct (prep_centering centering) as [c|]; [|discriminate].
  unfold mbind at 1. unfold get at 1.
  unfold mbind at 1. unfold lift at 1.
  change (prep_features (VInt s) (dim self)) with (Ok (VList [VInt s])).
  unfold mbind at 1. unfold lift at 1. cbn [py_iter for_each].
  unfold mbind, get, lift, modify, ret.
  destruct (SHAP_fit_feature self s c pfs pfc) as [e|]; [|discriminate].
  cbn [is_fitted with_feature_effect].
  destruct (py_setitem (is_fitted self) s true) as [f|] eqn:Hf; [|discriminate].
  intros [= <-]. cbn [is_fitted feature_effect with_is_fitted with_feature_effect].
  split; [by eapply py_setitem_index|]. rewrite lookup_insert_eq. by eexists.
Qed.

(** A normalised centering mode is left as it is by [prep_centering]. *)
Lemma prep_centering_fixed (centering c : value) :
  prep_centering centering = Ok c → prep_centering c = Ok c.
Proof.
  unfold prep_centering, PythiaHelpers.prep_centering.
  intros H. destruct centering as [| [|] | | | s | | |]; try discriminate H.
  - vm_compute in H. injection H as <-. reflexivity.
  - vm_compute in H. injection H as <-. reflexivity.
  - change (bool_decide (type_of (VStr s) ∈ [TBool; TStr])) with true in H.
    change (bool_decide (type_of (VStr s) = TStr)) with true in H.
    cbn [py_assert bind is_True] in H.
    destruct (py_in _ _) eqn:Hin; [|discriminate H]. injection H as <-.
    change (bool_decide (type_of (VStr s) ∈ [TBool; TStr])) with true.
    change (bool_decide (type_of (VStr s) = TStr)) with true.
    cbn [py_assert bind is_True]. rewrite Hin. reflexivity.
Qed.

(** An index that can be read can be written. *)
Lemma py_index_setitem {A} (l : list A) (i : Z) (x y : A) :
  py_index l i = Ok x → ∃ l', py_setitem l i y = Ok l'.
Proof.
  unfold py_index, py_setitem.
  destruct ((0 <=? i) && (i <? Z.of_nat (List.length l))); [by eexists|].
  destruct ((- Z.of_nat (List.length l) <=? i) && (i <? 0)); [by eexists|discriminate].
Qed.

(** [fit(features=s)] with a normalised centering mode is one run of
    [_fit_feature] on the object as it is, followed by the two writes. *)
Lemma SHAP_fit_one (s : Z) (c pfs pfc : value) (self : SHAPDependence) :
  prep_centering c = Ok c →
  SHAP_fit (VInt s) c pfs pfc self
  = match SHAP_fit_feature self s c pfs pfc with
    | Raise ex => (Raise ex, self)
    | Ok e =>
        let stored :=
          with_feature_effect (<[feature_key s := e]> (feature_effect self)) self in
        match py_setitem (is_fitted self) s true with
        | Ok f => (Ok tt, with_is_fitted f stored)
        | Raise ex => (Raise ex, stored)
        end
    end.
Proof.
  intros Hc. unfold Effector.SHAP_fit.
  unfold mbind at 1. unfold lift at 1. rewrite Hc.
  unfold mbind at 1. unfold get at 1.
  unfold mbind at 1. unfold lift at 1.
  change (prep_features (VInt s) (dim self)) with (Ok (VList [VInt s])).
  unfold mbind at 1. unfold lift at 1. cbn [py_iter for_each].
  unfold mbind, get, lift, modify, ret.
  destruct (SHAP_fit_feature self s c pfs pfc) as [e|]; [|reflexivity].
  cbn [is_fitted with_feature_effect].
  destruct (py_setitem (is_fitted self) s true) as [f|]; reflexivity.
Qed.

(** On an object that holds a record for the feature, the statements of
    [eval] after the conditional fit return the specified curve of that
    record and leave the object as it is. *)
Lemma SHAP_eval_curve_stored (feature : Z) (xs : vector) (uncertainty : bool)
    (c : value) (self : SHAPDependence) (e : shap_effect) :
  feature_effect self !! feature_key feature = Some e →
  SHAP_eval_curve feature xs uncertainty c self
  = (stored_curve self feature e xs uncertainty c, self).
Proof.
  intros He. unfold Effector.SHAP_eval_curve, stored_curve.
  unfold mbind at 1. unfold get at 1.
  unfold mbind at 1. unfold lift at 1.
  destruct (value_index2 (axis_limits self) 0 feature) as [lo|]; cbn [bind];
    [|reflexivity].
  unfold mbind at 1. unfold lift at 1.
  destruct (value_index2 (axis_limits self) 1 feature) as [hi|]; cbn [bind];
    [|reflexivity].
  unfold mbind at 1. unfold lift at 1.
  destruct (py_assert (negb (Qle_bool hi lo))) as [[]|]; cbn [bind]; [|reflexivity].
  unfold mbind at 1. unfold lift at 1. unfold py_getitem. rewrite He.
  unfold mbind at 1.
  destruct (is_False c); cbn [negb].
  - unfold ret at 1. cbn [bind].
    destruct uncertainty; [|reflexivity].
    unfold mbind, lift, ret. by rewrite map_map.
  - unfold mbind at 1. unfold lift at 1.
    unfold lift at 1.
    destruct (np_sub_scalar (map (spline_mean e) xs) (norm_const e)) as [y|];
      cbn [bind]; [|reflexivity].
    destruct uncertainty; [|reflexivity].
    unfold mbind, lift, ret. by rewrite map_map.
Qed.

(** What [eval] does when it fits first. *)
Lemma SHAP_eval_fit_first (feature : Z) (xs : vector) (uncertainty : bool)
    (c : value) (self : SHAPDependence) (b : bool) :
  prep_centering c = Ok c →
  py_index (is_fitted self) feature = Ok b →
  match SHAP_fit (VInt feature) c (VInt 100) (VInt 100) self with
  | (Ok _, self') =>
      ∃ e', SHAP_fit_feature self feature c (VInt 100) (VInt 100) = Ok e' ∧
            feature_effect self' !! feature_key feature = Some e' ∧
            py_index (is_fitted self') feature = Ok true ∧
            mbind (SHAP_fit (VInt feature) c (VInt 100) (VInt 100))
              (λ _, SHAP_eval_curve feature xs uncertainty c) self
            = (stored_curve self' feature e' xs uncertainty c, self')
  | (Raise ex, self') =>
      mbind (SHAP_fit (VInt feature) c (VInt 100) (VInt 100))
        (λ _, SHAP_eval_curve feature xs uncertainty c) self
      = (Raise ex, self')
  end.
Proof.
  intros Hc Hidx. unfold mbind.
  rewrite (SHAP_fit_one _ _ _ _ _ Hc).
  destruct (SHAP_fit_feature self feature c (VInt 100) (VInt 100)) as [e'|ex];
    [|reflexivity].
  destruct (py_index_setitem _ _ _ true Hidx) as [f Hf]. cbv zeta. rewrite Hf.
  exists e'. split; [reflexivity|].
  cbn [feature_effect with_is_fitted with_feature_effect is_fitted].
  split; [apply lookup_insert_eq|]. split; [by eapply py_setitem_index|].
  apply SHAP_eval_curve_stored. cbn. apply lookup_insert_eq.
Qed.

(** [eval] is the decision, the conditional fit and the closing
    statements, in this order. *)
Lemma SHAP_eval_unfold (feature : Z) (xs : vector) (uncertainty : bool)
    (centering : value) (self : SHAPDependence) :
  SHAP_eval feature xs uncertainty centering self
  = match prep_centering centering with
    | Raise ex => (Raise ex, self)
    | Ok c =>
        match SHAP_eval_must_fit self feature c with
        | Raise ex => (Raise ex, self)
        | Ok true =>
            mbind (SHAP_fit (VInt feature) c (VInt 100) (VInt 100))
              (λ _, SHAP_eval_curve feature xs uncertainty c) self
        | Ok false => SHAP_eval_curve feature xs uncertainty c self
        end
    end.
Proof.
  unfold Effector.SHAP_eval.
  unfold mbind at 1. unfold lift at 1.
  destruct (prep_centering centering) as [c|]; [|reflexivity].
  unfold mbind at 1. unfold get at 1.
  unfold mbind at 1. unfold lift at 1.
  destruct (SHAP_eval_must_fit self feature c) as [[|]|]; reflexivity.
Qed.

(** C5.  For every object and every argument list, [eval] runs
    [fit(features=feature, centering=centering)] first exactly when the
    feature is not fitted, or it is fitted, the norm constant of its
    stored record equals [EMPTY_SYMBOL] and the requested centering is not
    [False]; it then returns the curve of the record that fit has just
    stored.  In every other case with a stored record it returns the curve
    of that record, evaluated from the stored splines, and leaves the
    object as it is.  The remaining cases raise without fitting: an invalid
    centering argument, a feature index out of range, and a feature that
    is marked fitted while no record is stored under its key. *)
Theorem SHAP_eval_fits_exactly_when (self : SHAPDependence) (feature : Z)
    (xs : vector) (uncertainty : bool) (centering : value) :
  let eval := SHAP_eval feature xs uncertainty centering self in
  match prep_centering centering with
  | Raise ex => eval = (Raise ex, self)
  | Ok c =>
      let fits_first :=
        match SHAP_fit (VInt feature) c (VInt 100) (VInt 100) self with
        | (Ok _, self') =>
            ∃ e', SHAP_fit_feature self feature c (VInt 100) (VInt 100) = Ok e' ∧
                  feature_effect self' !! feature_key feature = Some e' ∧
                  py_index (is_fitted self') feature = Ok true ∧
                  eval = (stored_curve self' feature e' xs uncertainty c, self')
        | (Raise ex, self') => eval = (Raise ex, self')
        end in
      match py_index (is_fitted self) feature with
      | Raise ex => eval = (Raise ex, self)
      | Ok false => fits_first
      | Ok true =>
          match feature_effect self !! feature_key feature with
          | None => eval = (Raise KeyError, self)
          | Some e =>
              if py_eq (norm_const e) EMPTY_SYMBOL && negb (is_False centering)
              then fits_first
              else eval = (stored_curve self feature e xs uncertainty c, self)
          end
      end
  end.
Proof.
  intros eval. subst eval. rewrite SHAP_eval_unfold.
  destruct (prep_centering centering) as [c|ex] eqn:Hc; [|reflexivity].
  pose proof (prep_centering_is_False _ _ Hc) as HcF.
  pose proof (prep_centering_fixed _ _ Hc) as Hcc.
  cbv zeta. unfold Effector.SHAP_eval_must_fit.
  destruct (py_index (is_fitted self) feature) as [[|]|ex] eqn:Hidx; cbn [bind negb];
    [ | |reflexivity].
  - unfold py_getitem.
    destruct (feature_effect self !! feature_key feature) as [e|] eqn:He; cbn [bind];
      [|reflexivity].
    rewrite <- HcF.
    destruct (py_eq (norm_const e) EMPTY_SYMBOL); cbn [andb].
    + destruct (is_False c); cbn [negb].
      * by apply SHAP_eval_curve_stored.
      * exact (SHAP_eval_fit_first feature xs uncertainty c self true Hcc Hidx).
    + by apply SHAP_eval_curve_stored.
  - exact (SHAP_eval_fit_first feature xs uncertainty c self false Hcc Hidx).
Qed.

(** On a fitted feature without recorded fitting options, [refit] with a
    requested mode other than [False] raises [KeyError]. *)
Lemma refit_no_record {E} (self : GlobalEffect E) (feature : Z) (requested : value) :
  py_index (is_fitted self) feature = Ok true →
  is_False requested = false →
  method_args self !! feature_key feature = None →
  refit self feature requested = Raise KeyError.
Proof.
  intros Hfit Hreq Hno. unfold refit. rewrite Hfit. cbn [bind negb].
  rewrite Hreq. cbn [negb]. unfold py_getitem. by rewrite Hno.
Qed.

(** C6.  [refit] reads the centering mode recorded for a fitted feature
    without a guard, and [SHAPDependence.fit] records none.  On an object
    that holds no fitting options for the feature, as [__init__] leaves
    it, any [fit], whether it returns or raises, leaves every feature it
    has marked fitted in a state in which [refit] with a requested mode
    other than [False] raises [KeyError]: it returns neither [True] nor
    [False]. *)
Theorem refit_raises_without_record (features centering pfs pfc requested : value)
    (self : SHAPDependence) (feature : Z) :
  method_args self !! feature_key feature = None →
  py_index (is_fitted (SHAP_fit features centering pfs pfc self).2) feature = Ok true →
  is_False requested = false →
  refit (SHAP_fit features centering pfs pfc self).2 feature requested = Raise KeyError.
Proof.
  intros Hno Hfit Hreq.
  destruct (SHAP_fit_frame features centering pfs pfc self)
    as (_ & _ & _ & _ & _ & _ & _ & _ & _ & _ & Hargs).
  apply refit_no_record; [exact Hfit | exact Hreq |].
  transitivity (method_args self !! feature_key feature); [|exact Hno].
  exact (f_equal (λ m, m !! feature_key feature) Hargs).
Qed.

(** What [eval] returns is what the closing statements return on the
    object as it is after the conditional fit. *)
Lemma SHAP_eval_inv (feature : Z) (xs : vector) (uncertainty : bool)
    (centering : value) (self self' : SHAPDependence) (r : eval_result) :
  SHAP_eval feature xs uncertainty centering self = (Ok r, self') →
  ∃ c st,
    prep_centering centering = Ok c ∧
    SHAP_eval_curve feature xs uncertainty c st = (Ok r, self') ∧
    (st = self ∧ SHAP_eval_must_fit self feature c = Ok false ∨
     SHAP_fit (VInt feature) c (VInt 100) (VInt 100) self = (Ok tt, st)).
Proof.
  unfold Effector.SHAP_eval.
  unfold mbind at 1. unfold lift at 1.
  destruct (prep_centering centering) as [c|]; [|discriminate].
  unfold mbind at 1. unfold get at 1.
  unfold mbind at 1. unfold lift at 1.
  destruct (SHAP_eval_must_fit self feature c) as [[|]|] eqn:Hm; [| |discriminate].
  - unfold mbind at 1.
    destruct (SHAP_fit (VInt feature) c (VInt 100) (VInt 100) self) as [[[]|] st] eqn:Hfit;
      [|discriminate].
    intros H. exists c, st. split; [reflexivity|]. split; [exact H|]. by right.
  - unfold mbind at 1. unfold ret at 1. intros H. exists c, self.
    split; [reflexivity|]. split; [exact H|]. by left.
Qed.

(** After one successful [eval] the feature is fitted and has a record,
    and an [eval] without centering does not fit again. *)
Theorem SHAP_eval_leaves_fitted (feature : Z) (xs : vector) (uncertainty : bool)
    (centering : value) (self self' : SHAPDependence) (r : eval_result) :
  SHAP_eval feature xs uncertainty centering self = (Ok r, self') →
  py_index (is_fitted self') feature = Ok true ∧
  is_Some (feature_effect self' !! feature_key feature) ∧
  SHAP_eval_must_fit self' feature (VBool false) = Ok false.
Proof.
  intros H. apply SHAP_eval_inv in H as (c & st & _ & Hcurve & Hst).
  pose proof (SHAP_eval_curve_keeps feature xs uncertainty c st) as Hk.
  rewrite Hcurve in Hk. cbn [snd] in Hk. subst st.
  assert (Hfit : py_index (is_fitted self') feature = Ok true ∧
                 is_Some (feature_effect self' !! feature_key feature)).
  { destruct Hst as [[-> Hm]|Hfit]; [|by eapply SHAP_fit_single].
    unfold Effector.SHAP_eval_must_fit, py_getitem in Hm.
    destruct (py_index (is_fitted self) feature) as [[|]|]; cbn [bind negb] in Hm;
      try discriminate.
    destruct (feature_effect self !! feature_key feature) as [e|]; [|discriminate].
    split; [reflexivity | by eexists]. }
  destruct Hfit as [Hf [e He]]. split_and!; [exact Hf | by eexists |].
  unfold Effector.SHAP_eval_must_fit, py_getitem. rewrite Hf, He. cbn [bind negb].
  by destruct (py_eq _ _).
Qed.

(** The curve has one value per query point; with uncertainty the second
    component has as well and the third is all zeros. *)
Theorem SHAP_eval_shape (feature : Z) (xs : vector) (uncertainty : bool)
    (centering : value) (self self' : SHAPDependence) (r : eval_result) :
  SHAP_eval feature xs uncertainty centering self = (Ok r, self') →
  if uncertainty then
    ∃ y sd err, r = CurveWithHeterogeneity y sd err ∧
                List.length y = List.length xs ∧ List.length sd = List.length xs ∧
                List.length err = List.length xs ∧ Forall (λ z, z = 0%Q) err
  else ∃ y, r = Curve y ∧ List.length y = List.length xs.
Proof.
  intros H. apply SHAP_eval_inv in H as (c & st & _ & H & _).
  unfold SHAP_eval_curve, mbind, get, lift, ret in H.
  destruct (value_index2 (axis_limits st) 0 feature); [|discriminate].
  destruct (value_index2 (axis_limits st) 1 feature); [|discriminate].
  destruct (py_assert _); [|discriminate].
  destruct (py_getitem (feature_effect st) (feature_key feature)) as [e|]; [|discriminate].
  destruct (negb (is_False c)).
  - unfold np_sub_scalar in H. destruct (as_number (norm_const e)) as [q|]; [|discriminate].
    destruct uncertainty; injection H as <- _.
    + eexists _, _, _. split; [reflexivity|]. rewrite !length_map.
      split_and!; try done. apply Forall_map, Forall_true. done.
    + eexists. split; [reflexivity|]. by rewrite !length_map.
  - destruct uncertainty; injection H as <- _.
    + eexists _, _, _. split; [reflexivity|]. rewrite !length_map.
      split_and!; try done. apply Forall_map, Forall_true. done.
    + eexists. split; [reflexivity|]. by rewrite !length_map.
Qed.

(** With a lower limit that is not below the upper limit [eval] returns no
    curve, fitted or not. *)
Theorem SHAP_eval_degenerate_limits (feature : Z) (xs : vector) (uncertainty : bool)
    (centering : value) (self : SHAPDependence) (lo hi : Q) :
  value_index2 (axis_limits self) 0 feature = Ok lo →
  value_index2 (axis_limits self) 1 feature = Ok hi →
  (hi <= lo)%Q →
  ∃ e self', SHAP_eval feature xs uncertainty centering self = (Raise e, self').
Proof.
  intros Hlo Hhi Hle.
  destruct (SHAP_eval feature xs uncertainty centering self) as [[r|e] self'] eqn:H;
    [|by eexists _, _].
  exfalso. apply SHAP_eval_inv in H as (c & st & _ & H & Hst).
  assert (Hlim : axis_limits st = axis_limits self).
  { destruct Hst as [[-> _]|Hfit]; [reflexivity|].
    pose proof (SHAP_fit_frame (VInt feature) c (VInt 100) (VInt 100) self) as F.
    rewrite Hfit in F. apply F. }
  unfold SHAP_eval_curve, mbind, get, lift in H. rewrite Hlim, Hlo, Hhi in H.
  apply Qle_bool_iff in Hle. rewrite Hle in H. discriminate.
Qed.

(** The record [_fit_feature] returns carries the norm constant computed
    from its own spline and sorted values. *)
Lemma SHAP_fit_feature_inv (self : SHAPDependence) (feature : Z)
    (centering pfs pfc : value) (e : shap_effect) :
  SHAP_fit_feature self feature centering pfs pfc = Ok e →
  SHAP_norm_const (spline_mean e) (xx e) centering pfc = Ok (norm_const e).
Proof.
  unfold Effector.SHAP_fit_feature.
  destruct (SHAP_fit_rows self feature pfs pfc) as [used|]; cbn [bind]; [|discriminate].
  destruct (shap_explainer (model self) used) as [expl|]; cbn [bind]; [|discriminate].
  destruct (column expl feature) as [ys|]; cbn [bind]; [|discriminate].
  destruct (column used feature) as [observed|]; cbn [bind]; [|discriminate].
  destruct (take observed (np_argsort observed)) as [xs'|]; cbn [bind]; [|discriminate].
  destruct (take ys (np_argsort observed)) as [ys'|]; cbn [bind]; [|discriminate].
  destruct (UnivariateSpline xs' ys') as [sm|]; cbn [bind]; [|discriminate].
  destruct (UnivariateSpline xs' _) as [ss|]; cbn [bind]; [|discriminate].
  destruct (SHAP_norm_const sm xs' centering pfc) as [nc|] eqn:Hnc;
    cbn [bind]; [|discriminate].
  intros [= <-]. exact Hnc.
Qed.

(** Round trip for ["zero_start"]: with the record of a feature fitted
    with ["zero_start"] stored, the centered curve is zero at the smallest
    observed feature value. *)
Theorem SHAP_zero_start_round_trip (fitted_on self : SHAPDependence) (feature : Z)
    (pfs pfc : value) (e : shap_effect) (lo hi : Q) :
  SHAP_fit_feature fitted_on feature (VStr "zero_start") pfs pfc = Ok e →
  feature_effect self !! feature_key feature = Some e →
  value_index2 (axis_limits self) 0 feature = Ok lo →
  value_index2 (axis_limits self) 1 feature = Ok hi →
  (lo < hi)%Q →
  ∃ x0 y,
    head (xx e) = Some x0 ∧
    SHAP_eval_curve feature [x0] false (VStr "zero_start") self = (Ok (Curve [y]), self) ∧
    (y == 0)%Q.
Proof.
  intros Hfit He Hlo Hhi Hlt.
  apply SHAP_fit_feature_inv, SHAP_norm_const_cases in Hfit.
  change (py_eq (VStr "zero_start") (VStr "zero_integral")) with false in Hfit.
  change (py_eq (VStr "zero_start") (VStr "zero_start")) with true in Hfit.
  destruct Hfit as (x0 & Hx0 & Hnc).
  exists x0, (spline_mean e x0 - spline_mean e x0)%Q. split; [exact Hx0|].
  split; [|ring].
  unfold SHAP_eval_curve, mbind, get, lift, ret, py_getitem.
  rewrite Hlo, Hhi, He.
  assert (Hle : Qle_bool hi lo = false).
  { destruct (Qle_bool hi lo) eqn:Hb; [|reflexivity].
    apply Qle_bool_iff in Hb. exfalso. by apply (Qlt_not_le _ _ Hlt). }
  rewrite Hle. cbn [negb py_assert is_False]. rewrite Hnc. reflexivity.
Qed.

(** *** Centering a constant curve *)






(* --------------------------------------------------------------------- *)
(** ** Further properties of [RHALE] *)
(* --------------------------------------------------------------------- *)

Lemma py_setitem_insert {A} (l l' : list A) (i : Z) (x : A) :
  py_setitem l i x = Ok l' → ∃ k, l' = <[k := x]> l.
Proof.
  unfold py_setitem. intros H.
  destruct (_ && _); [injection H as <-; by eexists|].
  destruct (_ && _); [injection H as <-; by eexists|discriminate].
Qed.

Lemma py_index_position {A} (l : list A) (j : Z) (y : A) :
  py_index l j = Ok y →
  ∃ k, l !! k = Some y ∧
       ∀ (l2 : list A) (z : A), List.length l2 = List.length l → l2 !! k = Some z →
                                py_index l2 j = Ok z.
Proof.
  unfold py_index. intros H.
  destruct ((0 <=? j) && (j <? Z.of_nat (List.length l))) eqn:H1.
  - destruct (l !! Z.to_nat j) as [v|] eqn:Hv; [|discriminate]. injection H as ->.
    exists (Z.to_nat j). split; [exact Hv|]. intros l2 z Hlen Hz.
    by rewrite Hlen, H1, Hz.
  - destruct ((- Z.of_nat (List.length l) <=? j) && (j <? 0)) eqn:H2; [|discriminate].
    destruct (l !! Z.to_nat (Z.of_nat (List.length l) + j)) as [v|] eqn:Hv; [|discriminate].
    injection H as ->. exists (Z.to_nat (Z.of_nat (List.length l) + j)).
    split; [exact Hv|]. intros l2 z Hlen Hz. by rewrite Hlen, H1, H2, Hz.
Qed.

(** Marking one feature fitted leaves the others marked. *)
Lemma py_setitem_keeps_true (l l' : list bool) (i j : Z) :
  py_setitem l i true = Ok l' → py_index l j = Ok true → py_index l' j = Ok true.
Proof.
  intros [k ->]%py_setitem_insert (p & Hp & Hidx)%py_index_position.
  apply Hidx; [apply length_insert|].
  destruct (decide (k = p)) as [->|Hne].
  - apply list_lookup_insert_eq. by eapply lookup_lt_Some.
  - by rewrite list_lookup_insert_ne.
Qed.

(** One iteration of the loop of [fit] without centering. *)
Lemma RHALE_fit_body (s : Z) (binning_method : value) (self self' : RHALE) :
  (p <- RHALE_fit_feature s binning_method ;;
   modify (with_base
             (λ g, with_feature_effect (<[feature_key s := p]> (feature_effect g)) g)) ;;;
   ret tt ;;;
   self1 <- get ;;
   f <- lift (py_setitem (is_fitted (base self1)) s true) ;;
   modify (with_base (with_is_fitted f)) ;;;
   modify (with_base
             (λ g, with_method_args
                     (<[feature_key s := {[ "centering" := VBool false ]}]>
                        (method_args g)) g)))%method self = (Ok tt, self') →
  rhale_recorded binning_method self' s ∧
  ∀ t, rhale_recorded binning_method self t → rhale_recorded binning_method self' t.
Proof.
  unfold mbind at 1.
  pose proof (RHALE_fit_feature_keeps s binning_method self) as [[Kf Ka] Ke].
  destruct (RHALE_fit_feature s binning_method self) as [[p|] self1] eqn:Hff;
    [|discriminate].
  assert (Halg : p !! "alg_params" = Some binning_method).
  { revert Hff. unfold Effector.RHALE_fit_feature, mbind, get, lift, modify, ret.
    repeat match goal with
           | |- context [match ?r with (_, _) => _ end] =>
               destruct r as [[?|?] ?] eqn:?; try discriminate
           | |- context [match ?r with Ok _ => _ | Raise _ => _ end] =>
               destruct r eqn:?; try discriminate
           end.
    intros [= <- _]. apply lookup_insert_eq. }
  cbn [snd] in Kf, Ka, Ke.
  unfold mbind, modify, ret, get, lift.
  cbn [base with_base with_feature_effect is_fitted].
  destruct (py_setitem (is_fitted (base self1)) s true) as [f|] eqn:Hset; [|discriminate].
  intros [= <-].
  unfold rhale_recorded.
  cbn [base with_base with_feature_effect with_is_fitted with_method_args is_fitted
       feature_effect method_args].
  split.
  - split_and!.
    + by eapply py_setitem_index.
    + exists p. by rewrite lookup_insert_eq.
    + by rewrite lookup_insert_eq.
  - intros t (Ht & (q & Hq & Hqa) & Hm). rewrite <- Kf in Ht. split_and!.
    + by eapply py_setitem_keeps_true.
    + destruct (decide (feature_key s = feature_key t)) as [Heq|Hne].
      * exists p. by rewrite Heq, lookup_insert_eq.
      * exists q. by rewrite lookup_insert_ne, Ke.
    + destruct (decide (feature_key s = feature_key t)) as [Heq|Hne].
      * by rewrite Heq, lookup_insert_eq.
      * by rewrite lookup_insert_ne, Ka.
Qed.

Lemma RHALE_fit_loop_records (features binning_method fs : value) (l : list value)
    (self self' : RHALE) :
  prep_features features (dim (base self)) = Ok fs →
  py_iter fs = Ok l →
  RHALE_fit features binning_method (VBool false) self = (Ok tt, self') →
  ∀ s, VInt s ∈ l → rhale_recorded binning_method self' s.
Proof.
  intros Hf Hl. unfold Effector.RHALE_fit.
  unfold mbind at 1. unfold get at 1.
  unfold mbind at 1. unfold lift at 1. rewrite Hf.
  unfold mbind at 1. unfold lift at 1.
  change (prep_centering (VBool false)) with (Ok (VBool false) : result value).
  unfold mbind at 1. unfold lift at 1. rewrite Hl.
  change (negb (is_False (VBool false))) with false. cbv iota.
  clear Hf Hl.
  assert (Hgen : ∀ st st' : RHALE,
            for_each l
              (λ s0, match s0 with
                     | VInt s =>
                         p <- RHALE_fit_feature s binning_method ;;
                         modify (with_base
                                   (λ g, with_feature_effect
                                           (<[feature_key s := p]> (feature_effect g)) g)) ;;;
                         ret tt ;;;
                         self1 <- get ;;
                         f <- lift (py_setitem (is_fitted (base self1)) s true) ;;
                         modify (with_base (with_is_fitted f)) ;;;
                         modify (with_base
                                   (λ g, with_method_args
                                           (<[feature_key s :=
                                                {[ "centering" := VBool false ]}]>
                                              (method_args g)) g))
                     | _ =>
                         self0 <- get ;;
                         (if is_None (data_effect self0) then RHALE_compile else ret tt) ;;;
                         raise IndexError
                     end)%method st = (Ok tt, st') →
            (∀ s, VInt s ∈ l → rhale_recorded binning_method st' s) ∧
            (∀ t, rhale_recorded binning_method st t →
                  rhale_recorded binning_method st' t)).
  { induction l as [|v l IH]; intros st st' H.
    - cbn in H. injection H as <-. split; [|done].
      intros s Hs. by apply elem_of_nil in Hs.
    - cbn [for_each] in H. unfold mbind at 1 in H.
      destruct v as [| | s | | | | |];
        try (exfalso; revert H; unfold mbind, get, raise;
             destruct (is_None (data_effect st));
             [destruct (RHALE_compile st) as [[[]|] ?]|]; discriminate).
      match type of H with
      | match ?body st with _ => _ end = _ =>
          destruct (body st) as [[[]|] st1] eqn:Hbody; [|discriminate]
      end.
      destruct (RHALE_fit_body _ _ _ _ Hbody) as [Hs Hstable].
      destruct (IH _ _ H) as [Hrest Hstable'].
      split.
      + intros t [[= ->]|Ht]%elem_of_cons; [by apply Hstable' | by apply Hrest].
      + intros t Ht. by apply Hstable', Hstable. }
  intros H. by apply (Hgen self self').
Qed.

(** If [fit] without centering returns, every requested feature is marked
    fitted, has an effect record tagged with the binning method, and has
    [False] recorded as its centering mode. *)
Theorem RHALE_fit_records (features binning_method fs : value) (l : list value)
    (self self' : RHALE) (s : Z) :
  prep_features features (dim (base self)) = Ok fs →
  py_iter fs = Ok l →
  RHALE_fit features binning_method (VBool false) self = (Ok tt, self') →
  VInt s ∈ l →
  rhale_recorded binning_method self' s.
Proof. intros Hf Hl H Hs. by eapply RHALE_fit_loop_records. Qed.

(** After such a [fit], [refit] on a requested feature answers [False] for
    [centering=False] and [True] for every other mode, [True] and the two
    mode names alike. *)
Theorem RHALE_fit_then_refit (features binning_method fs centering : value)
    (l : list value) (self self' : RHALE) (s : Z) :
  prep_features features (dim (base self)) = Ok fs →
  py_iter fs = Ok l →
  RHALE_fit features binning_method (VBool false) self = (Ok tt, self') →
  VInt s ∈ l →
  type_of centering = TBool ∨ type_of centering = TStr →
  refit (base self') s centering = Ok (negb (is_False centering)).
Proof.
  intros Hf Hl H Hs Hty.
  destruct (RHALE_fit_loop_records _ _ _ _ _ _ Hf Hl H s Hs) as (Hfit & _ & Hm).
  unfold refit, py_getitem. rewrite Hfit. cbn [bind negb]. rewrite Hm. cbn [bind].
  rewrite lookup_singleton_eq. cbn [bind].
  destruct centering as [| [|] | | | | | |]; try (destruct Hty; discriminate);
    reflexivity.
Qed.

(** [compile] computes the effects at most once: on an object that holds
    them it changes nothing, and it never touches another attribute. *)
Theorem RHALE_compile_memoized (self : RHALE) :
  base (RHALE_compile self).2 = base self ∧
  model_jac (RHALE_compile self).2 = model_jac self ∧
  (is_None (data_effect self) = false → RHALE_compile self = (Ok tt, self)) ∧
  (∀ self', RHALE_compile self = (Ok tt, self') →
            is_None (data_effect self') = false →
            RHALE_compile self' = (Ok tt, self')).
Proof.
  assert (Hno : ∀ st, is_None (data_effect st) = false → RHALE_compile st = (Ok tt, st)).
  { intros st Hst. unfold Effector.RHALE_compile, mbind, get. by rewrite Hst. }
  split_and!; [| |exact (Hno self)|intros self' _ H'; by apply Hno];
    unfold Effector.RHALE_compile, mbind, get, lift, modify, ret;
    destruct (is_None (data_effect self)); cbn [andb];
    destruct (is_None (model_jac self)); cbn [negb];
    repeat match goal with
           | |- context [py_call ?f ?x] => destruct (py_call f x)
           | |- context [compute_jacobian_numerically ?f ?x] =>
               destruct (compute_jacobian_numerically f x)
           end; reflexivity.
Qed.

Lemma select_all_true {A} (l : list A) (mask : list bool) :
  List.length mask = List.length l → forallb id mask = true → select l mask = l.
Proof.
  revert mask. induction l as [|x l IH]; intros [|b mask]; cbn; try done.
  intros [= Hlen] [-> Hall]%andb_true_iff. cbn. by rewrite IH.
Qed.

Lemma mask_rows_all_true (m : matrix) (mask : list bool) :
  List.length mask = nrows m → forallb id mask = true → mask_rows m mask = Ok m.
Proof.
  intros Hlen Hall. rewrite (mask_rows_ok _ _ Hlen), (select_all_true _ _ Hlen Hall).
  by destruct m.
Qed.

Lemma with_data_same (self : RHALE) :
  with_base (with_data (data (base self))) self = self.
Proof. by destruct self as [[] ? ?]. Qed.

(** When every row lies within the limits of the feature and
    [data_effect] has one row per instance, [_fit_feature] hands the whole
    dataset and all effects to the binning strategy and leaves [data] as it
    is.  When the strategy answers [False] it raises [AssertionError]
    without looking at the effects of the feature or computing any bin
    statistics; otherwise it returns what [compute_ale_params] returns on
    the feature's column and effects, with the binning method added under
    ["alg_params"], and raises what that computation raises. *)
Theorem RHALE_fit_feature_within_limits (self self0 : RHALE) (feature : Z)
    (binning_method : value) (e : matrix) (col : vector) (lo hi : Q)
    (bins : bin_estimator) :
  (if is_None (data_effect self) then RHALE_compile else ret tt) self = (Ok tt, self0) →
  data_effect self0 = VArray (Arr2 e) →
  nrows e = nrows (data (base self0)) →
  column (data (base self0)) feature = Ok col →
  value_index2 (axis_limits (base self0)) 0 feature = Ok lo →
  value_index2 (axis_limits (base self0)) 1 feature = Ok hi →
  forallb (within lo hi) col = true →
  find_limits (data (base self0)) e feature (axis_limits (base self0)) binning_method
  = Ok bins →
  RHALE_fit_feature feature binning_method self
  = (if is_False (limits bins) then Raise AssertionError
     else bind (column e feature) (λ ce,
          bind (compute_ale_params col ce (limits bins)) (λ p,
          Ok (<["alg_params" := binning_method]> p))),
     self0).
Proof.
  intros Hcomp He Hrows Hcol Hlo Hhi Hin Hbins.
  pose proof (column_length _ _ _ Hcol) as Hlen.
  pose proof (forallb_within_masks col lo hi) as W. rewrite Hin in W.
  apply andb_true_iff in W as [A1 A2].
  assert (Hm1 : List.length (ge_mask col lo) = nrows (data (base self0)))
    by (unfold ge_mask; rewrite length_map; exact Hlen).
  pose proof (mask_rows_all_true _ _ Hm1 A1) as Hd1.
  assert (Hs1 : select col (ge_mask col lo) = col).
  { apply select_all_true; [|exact A1]. unfold ge_mask. by rewrite length_map. }
  rewrite Hs1 in A2.
  assert (Hm2 : List.length (le_mask col hi) = nrows (data (base self0)))
    by (unfold le_mask; rewrite length_map; exact Hlen).
  pose proof (mask_rows_all_true _ _ Hm2 A2) as Hd2.
  set (ind := logical_and (ge_mask col lo) (le_mask col hi)).
  assert (Hind : List.length ind = nrows (data (base self0))).
  { unfold ind. rewrite length_logical_and; [exact Hm1|]. by rewrite Hm1, Hm2. }
  assert (Aind : forallb id ind = true).
  { unfold ind. rewrite forallb_logical_and by (by rewrite Hm1, Hm2).
    by rewrite A1, A2. }
  pose proof (mask_rows_all_true _ _ Hind Aind) as Hdi.
  assert (Hei : mask_rows e ind = Ok e)
    by (apply mask_rows_all_true; [by rewrite Hrows | exact Aind]).
  unfold Effector.RHALE_fit_feature.
  unfold mbind at 1. unfold get at 1. unfold mbind at 1. rewrite Hcomp.
  unfold mbind at 1. unfold get at 1.
  unfold mbind at 1. unfold lift at 1. rewrite Hcol.
  unfold mbind at 1. unfold lift at 1. rewrite Hlo.
  unfold mbind at 1. unfold lift at 1. rewrite Hd1.
  unfold mbind at 1. unfold modify at 1. rewrite with_data_same.
  unfold mbind at 1. unfold get at 1.
  unfold mbind at 1. unfold lift at 1. rewrite Hcol.
  unfold mbind at 1. unfold lift at 1. rewrite Hhi.
  unfold mbind at 1. unfold lift at 1. rewrite Hd2.
  unfold mbind at 1. unfold modify at 1. rewrite with_data_same.
  unfold mbind at 1. unfold get at 1.
  unfold mbind at 1. unfold lift at 1. rewrite Hcol.
  unfold mbind at 1. unfold lift at 1. rewrite Hlo.
  unfold mbind at 1. unfold lift at 1.
  unfold mbind at 1. unfold lift at 1. rewrite Hhi.
  fold ind. unfold mbind at 1. unfold lift at 1. rewrite Hdi.
  unfold mbind at 1. unfold lift at 1. rewrite He.
  unfold value_mask_rows. rewrite Hei.
  unfold mbind at 1. unfold lift at 1. rewrite Hbins.
  unfold mbind at 1. unfold lift at 1.
  destruct (is_False (limits bins)); cbn [negb py_assert]; [reflexivity|].
  unfold mbind at 1. unfold lift at 1. rewrite Hcol.
  unfold mbind at 1. unfold lift at 1.
  destruct (column e feature) as [ce|ex]; cbn [bind]; [|reflexivity].
  unfold mbind at 1. unfold lift at 1.
  destruct (compute_ale_params col ce (limits bins)); reflexivity.
Qed.

(** *** Plotting the raw SHAP values *)

(** With [confidence_interval="shap_values"] and [nof_shap_values] either
    ["all"] or an integer not below the number of stored points, [plot]
    draws no sample: once [eval] has returned, the stored points reach the
    visualization module unchanged, without a standard-deviation band. *)
Theorem SHAP_plot_shap_values (self self1 : SHAPDependence) (feature : Z)
    (centering nof_axis_points scale_x scale_y nof_shap_values : value)
    (show_avg_output : bool) (y_limits : value) (lo hi : Q) (x : vector)
    (r : eval_result) (e : shap_effect) :
  value_index2 (axis_limits self) 0 feature = Ok lo →
  value_index2 (axis_limits self) 1 feature = Ok hi →
  np_linspace lo hi nof_axis_points = Ok x →
  SHAP_eval feature x false centering self = (Ok r, self1) →
  feature_effect self1 !! feature_key feature = Some e →
  (nof_shap_values = VStr "all" ∨
   ∃ n, nof_shap_values = VInt n ∧ Z.of_nat (List.length (xx e)) <= n) →
  SHAP_plot feature (VStr "shap_values") centering nof_axis_points scale_x scale_y
    nof_shap_values show_avg_output y_limits self
  = (Ok (ShapPlot x
           (match r with Curve y => y | CurveWithHeterogeneity y _ _ => y end)
           (VArray (Arr1 (xx e))) (VArray (Arr1 (yy e))) None feature
           (VStr "shap_values") scale_x scale_y
           (if negb show_avg_output then VNone else avg_output self1) y_limits),
     self1).
Proof.
  intros Hlo Hhi Hx Heval He Hn. unfold Effector.SHAP_plot.
  unfold mbind at 1. unfold lift at 1.
  change (prep_confidence_interval (VStr "shap_values"))
    with (Ok (VStr "shap_values") : result value).
  unfold mbind at 1. unfold get at 1.
  unfold mbind at 1. unfold lift at 1. rewrite Hlo.
  unfold mbind at 1. unfold lift at 1. rewrite Hhi.
  unfold mbind at 1. unfold lift at 1. rewrite Hx.
  unfold mbind at 1. rewrite Heval.
  unfold mbind at 1. unfold get at 1.
  change (py_eq (VStr "shap_values") (VStr "std")) with false.
  change (py_eq (VStr "shap_values") (VStr "shap_values")) with true.
  cbv iota. unfold py_getitem. rewrite He.
  unfold mbind, lift, ret.
  destruct Hn as [->|(n & -> & Hle)].
  - reflexivity.
  - change (py_ne (VInt n) (VStr "all")) with true. cbv iota.
    cbn [py_len py_lt_int].
    destruct (n <? Z.of_nat (List.length (xx e))) eqn:Hlt;
      [apply Z.ltb_lt in Hlt; lia | reflexivity].
Qed.

End EffectorFacts.

(* --------------------------------------------------------------------- *)
(** ** The statements on the sample objects *)
(* --------------------------------------------------------------------- *)

Lemma RHALE_fit_centering_raises_witness :
  ∃ e self',
    Effector.RHALE_fit Demo.compute_jacobian_numerically Demo.compute_ale_params
      Demo.find_limits (VInt 0) (VStr "greedy") (VBool true) Demo.rhale_inside
    = (Raise e, self') ∧
    Spec.same_fit_state Demo.rhale_inside self' ∧
    ∀ p self1,
      Effector.RHALE_fit_feature Demo.compute_jacobian_numerically
        Demo.compute_ale_params Demo.find_limits 0 (VStr "greedy") Demo.rhale_inside
      = (Ok p, self1) →
      e = AttributeError ∧
      self' = Effector.with_base
                (λ g, Effector.with_feature_effect
                        (<[Effector.feature_key 0 := p]> (Effector.feature_effect g)) g)
                self1.
Proof.
  apply (RHALE_fit_centering_raises Demo.compute_jacobian_numerically
           Demo.compute_ale_params Demo.find_limits Demo.rhale_inside
           (VInt 0) (VStr "greedy") (VBool true) (VStr "zero_integral")
           (VList [VInt 0]) 0 []); reflexivity.
Defined.

Lemma RHALE_fit_feature_misaligned_witness :
  ∃ self',
    Effector.RHALE_fit_feature Demo.compute_jacobian_numerically
      Demo.compute_ale_params Demo.find_limits 0 (VStr "greedy") Demo.rhale_outside
    = (Raise IndexError, self') ∧
    Effector.data_effect self' = VArray (Arr2 (Matrix 1 [[1%Q]; [1%Q]; [1%Q]])) ∧
    (nrows (Effector.data (Effector.base self')) < 3)%nat.
Proof.
  apply (RHALE_fit_feature_misaligned Demo.compute_jacobian_numerically
           Demo.compute_ale_params Demo.find_limits Demo.rhale_outside
           Demo.rhale_outside 0 (VStr "greedy") (Matrix 1 [[1%Q]; [1%Q]; [1%Q]])
           [0%Q; 1%Q; 2%Q] 0%Q 1%Q); reflexivity.
Defined.

(** The first object the defect leaves behind: the row above the limit is
    dropped from [data] while [data_effect] keeps its three rows. *)
Lemma RHALE_fit_feature_misaligned_sample :
  Effector.RHALE_fit_feature Demo.compute_jacobian_numerically
    Demo.compute_ale_params Demo.find_limits 0 (VStr "greedy") Demo.rhale_outside
  = (Raise IndexError,
     Effector.with_base (Effector.with_data (Matrix 1 [[0%Q]; [1%Q]])) Demo.rhale_outside).
Proof. reflexivity. Qed.

(** After [SHAPDependence.fit(features=0)] the
    feature is fitted and no fitting options are recorded, and
    [refit(0, "zero_start")] raises [KeyError]: it returns neither [True]
    nor [False]. *)
Lemma refit_raises_on_fitted_shap :
  (Demo.SHAP_fit (VInt 0) (VBool false) (VInt 100) (VInt 100) Demo.shap_new).1 = Ok tt ∧
  py_index (Effector.is_fitted Demo.shap_fitted) 0 = Ok true ∧
  Effector.method_args Demo.shap_fitted = ∅ ∧
  Effector.refit Demo.shap_fitted 0 (VStr "zero_start") = Raise KeyError.
Proof. vm_compute. repeat split; reflexivity. Qed.

Lemma fitted_have_records_shap_new : Spec.fitted_have_records Demo.shap_new.
Proof. intros [|f] H; cbn in H; discriminate. Qed.

Lemma refit_raises_without_record_witness :
  Effector.refit Demo.shap_fitted 0 (VStr "zero_start") = Raise KeyError.
Proof.
  apply (refit_raises_without_record Demo.EMPTY_SYMBOL Demo.random_choice
           Demo.prep_nof_instances_other Demo.shap_explainer Demo.UnivariateSpline
           (VInt 0) (VBool false) (VInt 100) (VInt 100) (VStr "zero_start")
           Demo.shap_new 0);
    [reflexivity | vm_compute; reflexivity | reflexivity].
Defined.

(** C5 on a fitted feature whose norm constant is the sentinel, with
    centering requested: [eval] fits again and evaluates the new record. *)
Lemma SHAP_eval_fits_exactly_when_witness :
  let self := Demo.shap_fitted in
  let eval := Demo.SHAP_eval 0 [1%Q] false (VStr "zero_start") self in
  py_index (Effector.is_fitted self) 0 = Ok true ∧
  (∃ e, Effector.feature_effect self !! Effector.feature_key 0 = Some e ∧
        py_eq (Effector.norm_const e) Demo.EMPTY_SYMBOL = true) ∧
  (Demo.SHAP_fit (VInt 0) (VStr "zero_start") (VInt 100) (VInt 100) self).1 = Ok tt ∧
  match Demo.SHAP_fit (VInt 0) (VStr "zero_start") (VInt 100) (VInt 100) self with
  | (Ok _, self') =>
      ∃ e', Demo.SHAP_fit_feature self 0 (VStr "zero_start") (VInt 100) (VInt 100)
            = Ok e' ∧
            Effector.feature_effect self' !! Effector.feature_key 0 = Some e' ∧
            py_index (Effector.is_fitted self') 0 = Ok true ∧
            eval = (Spec.stored_curve self' 0 e' [1%Q] false (VStr "zero_start"), self')
  | (Raise ex, self') => eval = (Raise ex, self')
  end.
Proof.
  intros self eval.
  split; [reflexivity|]. split; [eexists; split; reflexivity|].
  split; [vm_compute; reflexivity|].
  exact (SHAP_eval_fits_exactly_when Demo.EMPTY_SYMBOL Demo.random_choice
           Demo.prep_nof_instances_other Demo.shap_explainer Demo.UnivariateSpline
           Demo.shap_fitted 0 [1%Q] false (VStr "zero_start")).
Defined.

(** On the same object without centering [eval] does not fit: it returns
    the stored mean spline at the query point and leaves the object as it
    is. *)
Lemma SHAP_eval_stored_sample :
  Demo.SHAP_eval 0 [1%Q] false (VBool false) Demo.shap_fitted
  = (Ok (Effector.Curve [2%Q]), Demo.shap_fitted).
Proof. vm_compute. reflexivity. Qed.

(** On an object that was never fitted [eval] fits first. *)
Lemma SHAP_eval_unfitted_sample :
  py_index (Effector.is_fitted Demo.shap_new) 0 = Ok false ∧
  Demo.SHAP_eval 0 [1%Q] false (VBool false) Demo.shap_new
  = (Ok (Effector.Curve [2%Q]), Demo.shap_fitted).
Proof. vm_compute. split; reflexivity. Qed.

(** [fit(features=-1)] marks the last feature fitted and stores the record
    under ["feature_-1"]; on the object it leaves behind, [eval] of
    feature [0] raises [KeyError] in its condition, without fitting. *)
Lemma SHAP_eval_flag_without_record_sample :
  let fitted := Demo.SHAP_fit (VInt (-1)) (VBool false) (VInt 100) (VInt 100) Demo.shap_new in
  fitted.1 = Ok tt ∧
  py_index (Effector.is_fitted fitted.2) 0 = Ok true ∧
  Effector.feature_effect fitted.2 !! Effector.feature_key 0 = None ∧
  Demo.SHAP_eval 0 [1%Q] false (VBool false) fitted.2 = (Raise KeyError, fitted.2).
Proof. vm_compute. repeat split; reflexivity. Qed.

Lemma SHAP_fit_feature_norm_const_witness :
  let fit_feature :=
    Effector.SHAP_fit_feature Demo.EMPTY_SYMBOL Demo.random_choice
      Demo.prep_nof_instances_other Demo.shap_explainer Demo.UnivariateSpline in
  match fit_feature Demo.shap_new 0 (VStr "zero_integral") (VStr "all") (VInt 3) with
  | Ok e =>
      ∃ x0 xN grid,
        head (Effector.xx e) = Some x0 ∧ last (Effector.xx e) = Some xN ∧
        np_linspace x0 xN (VInt 3) = Ok grid ∧
        Effector.norm_const e
        = VFloat (trapz_pairs (zip grid (map (Effector.spline_mean e) grid))
                  / (xN - x0))
  | Raise _ => False
  end.
Proof.
  intros fit_feature.
  destruct (fit_feature Demo.shap_new 0 (VStr "zero_integral") (VStr "all") (VInt 3))
    as [e|ex] eqn:H.
  - exact (proj2 (SHAP_fit_feature_norm_const Demo.EMPTY_SYMBOL Demo.random_choice
                    Demo.prep_nof_instances_other Demo.shap_explainer
                    Demo.UnivariateSpline Demo.shap_new 0 (VStr "zero_integral")
                    (VStr "all") (VInt 3) e H)).
  - vm_compute in H. discriminate H.
Defined.

Lemma SHAP_plot_raises_witness :
  ∃ e self',
    Effector.SHAP_plot Demo.EMPTY_SYMBOL Demo.random_choice
      Demo.prep_nof_instances_other Demo.shap_explainer Demo.UnivariateSpline
      0 (VBool false) (VBool false) (VInt 30) VNone VNone (VInt 2) false VNone
      Demo.shap_fitted
    = (Raise e, self').
Proof.
  apply (SHAP_plot_raises Demo.EMPTY_SYMBOL Demo.random_choice
           Demo.prep_nof_instances_other Demo.shap_explainer Demo.UnivariateSpline
           Demo.shap_fitted 0 (VBool false) (VBool false) (VInt 30) VNone VNone 2
           false VNone).
  discriminate.
Defined.

(** On the fitted sample object the exception is the [TypeError] of
    [len(None)]. *)
Lemma SHAP_plot_raises_sample :
  (Effector.SHAP_plot Demo.EMPTY_SYMBOL Demo.random_choice
     Demo.prep_nof_instances_other Demo.shap_explainer Demo.UnivariateSpline
     0 (VBool false) (VBool false) (VInt 30) VNone VNone (VInt 2) false VNone
     Demo.shap_fitted).1
  = Raise TypeError.
Proof. vm_compute. reflexivity. Qed.

(* ===================================================================== *)
(** * Further properties of [pythia/helpers.py] *)
(* ===================================================================== *)

Section PythiaHelpersMore.
Import PythiaHelpers Spec.

(** ** Normalisers *)

(** A normalised feature selector is a fixed point: normalising twice is
    normalising once. *)
Theorem prep_features_idempotent (feat r : value) (D : nat) :
  prep_features feat D = Ok r → prep_features r D = Ok r.
Proof.
  unfold prep_features. intros H.
  destruct feat as [| b | n | q | s | l | a | f]; try discriminate H.
  - change (Ok (VList [VInt n]) = Ok r) in H. injection H as <-. reflexivity.
  - change (bool_decide (type_of (VStr s) ∈ [TList; TStr; TInt])) with true in H.
    cbn [py_assert bind] in H.
    destruct (py_eq (VStr s) (VStr "all")) eqn:Hall.
    + injection H as <-. reflexivity.
    + change (bool_decide (type_of (VStr s) = TInt)) with false in H.
      injection H as <-.
      change (bool_decide (type_of (VStr s) ∈ [TList; TStr; TInt])) with true.
      cbn [py_assert bind]. rewrite Hall. reflexivity.
  - change (Ok (VList l) = Ok r) in H. injection H as <-. reflexivity.
Qed.

Lemma prep_features_idempotent_witness :
  prep_features (VList [VInt 0; VInt 1; VInt 2]) 3
  = Ok (VList [VInt 0; VInt 1; VInt 2]).
Proof.
  apply (prep_features_idempotent (VStr "all") (VList [VInt 0; VInt 1; VInt 2]) 3).
  reflexivity.
Defined.

Lemma py_in_two_strings (s a b : string) :
  py_in (VStr s) [VStr a; VStr b] = true → s = a ∨ s = b.
Proof.
  cbn. destruct (String.eqb_spec s a); [by left|].
  destruct (String.eqb_spec s b); [by right|]. discriminate.
Qed.

(** Whatever [prep_centering] returns is [False], ["zero_start"] or
    ["zero_integral"], and is left as it is by a second call. *)
Theorem prep_centering_modes (centering r : value) :
  prep_centering centering = Ok r →
  (r = VBool false ∨ r = VStr "zero_start" ∨ r = VStr "zero_integral") ∧
  prep_centering r = Ok r.
Proof.
  unfold prep_centering. intros H.
  destruct centering as [| [|] | n | q | s | l | a | f]; try discriminate H.
  - change (Ok (VStr "zero_integral") = Ok r) in H. injection H as <-.
    split; [auto | reflexivity].
  - change (Ok (VBool false) = Ok r) in H. injection H as <-.
    split; [auto | reflexivity].
  - change (bool_decide (type_of (VStr s) ∈ [TBool; TStr])) with true in H.
    change (bool_decide (type_of (VStr s) = TStr)) with true in H.
    cbn [py_assert bind is_True] in H.
    destruct (py_in _ _) eqn:Hin; [|discriminate H]. injection H as <-.
    apply py_in_two_strings in Hin as [->| ->]; split; auto; reflexivity.
Qed.

Lemma prep_centering_modes_witness :
  (VStr "zero_integral" = VBool false ∨ VStr "zero_integral" = VStr "zero_start" ∨
   VStr "zero_integral" = VStr "zero_integral") ∧
  prep_centering (VStr "zero_integral") = Ok (VStr "zero_integral").
Proof.
  apply (prep_centering_modes (VBool true) (VStr "zero_integral")). reflexivity.
Defined.

(** Whatever [prep_uncertainty] returns is [False], ["std"] or
    ["std_err"], and is left as it is by a second call. *)
Theorem prep_uncertainty_modes (uncertainty r : value) :
  prep_uncertainty uncertainty = Ok r →
  (r = VBool false ∨ r = VStr "std" ∨ r = VStr "std_err") ∧
  prep_uncertainty r = Ok r.
Proof.
  unfold prep_uncertainty. intros H.
  destruct uncertainty as [| [|] | n | q | s | l | a | f]; try discriminate H.
  - change (Ok (VStr "std") = Ok r) in H. injection H as <-.
    split; [auto | reflexivity].
  - change (Ok (VBool false) = Ok r) in H. injection H as <-.
    split; [auto | reflexivity].
  - change (bool_decide (type_of (VStr s) ∈ [TBool; TStr])) with true in H.
    change (bool_decide (type_of (VStr s) = TStr)) with true in H.
    cbn [py_assert bind is_True] in H.
    destruct (py_in _ _) eqn:Hin; [|discriminate H]. injection H as <-.
    apply py_in_two_strings in Hin as [->| ->]; split; auto; reflexivity.
Qed.

Lemma prep_uncertainty_modes_witness :
  (VStr "std" = VBool false ∨ VStr "std" = VStr "std" ∨ VStr "std" = VStr "std_err") ∧
  prep_uncertainty (VStr "std") = Ok (VStr "std").
Proof. apply (prep_uncertainty_modes (VBool true) (VStr "std")). reflexivity. Defined.

End PythiaHelpersMore.

Section PythiaParams.
Import PythiaHelpers Spec.

(** ** Parameter dicts *)

Local Abbreviation valid_bin_method :=
  (λ x : value, py_in x [VStr "fixed"; VStr "greedy"; VStr "dp"]).
Local Abbreviation is_int := (λ x : value, bool_decide (type_of x = TInt)).

(** The checks a successful call has passed. *)
Lemma prep_dale_fit_params_checks (par d : params) :
  prep_dale_fit_params (Some par) = Ok d →
  supplied_ok par "bin_method" valid_bin_method = true ∧
  supplied_ok par "nof_bins" is_int = true ∧
  supplied_ok par "max_nof_bins" is_int = true.
Proof.
  unfold prep_dale_fit_params, supplied_ok. intros H.
  destruct (par !! "bin_method") as [b|] eqn:Eb;
  destruct (par !! "nof_bins") as [n|] eqn:En;
  destruct (par !! "max_nof_bins") as [m|] eqn:Em;
  repeat (rewrite ?lookup_insert_eq, ?lookup_insert_ne, ?Eb, ?En, ?Em in H by done;
          cbn [bind] in H;
          try match type of H with
              | context [py_assert ?c] => destruct c eqn:?; cbn [py_assert bind] in H
              end);
  try discriminate H; auto.
Qed.

(** The call succeeds exactly when the supplied bin method is one of the
    three names and the supplied bin counts are [int]s; the value under
    ["min_points_per_bin"] plays no part. *)
Theorem prep_dale_fit_params_succeeds_iff (par : params) :
  is_ok (prep_dale_fit_params (Some par))
  = supplied_ok par "bin_method" valid_bin_method
    && supplied_ok par "nof_bins" is_int
    && supplied_ok par "max_nof_bins" is_int.
Proof.
  unfold prep_dale_fit_params, supplied_ok, py_getitem.
  destruct (par !! "bin_method") as [b|] eqn:Eb;
  destruct (par !! "nof_bins") as [n|] eqn:En;
  destruct (par !! "max_nof_bins") as [m|] eqn:Em;
  destruct (par !! "min_points_per_bin") as [q|] eqn:Eq;
  cbv beta;
  repeat first
    [ progress (rewrite ?lookup_insert_eq, ?lookup_insert_ne, ?Eb, ?En, ?Em, ?Eq by done)
    | progress change (bool_decide (type_of (VInt 20) = TInt)) with true
    | progress cbn [py_assert bind is_ok andb]
    | match goal with
      | |- context [py_assert ?c] => destruct c eqn:?
      end ];
  rewrite ?andb_true_r, ?andb_false_r; first [reflexivity | congruence].
Qed.

(** A prepared dict is a fixed point of the preparation. *)
Theorem prep_dale_fit_params_idempotent (par d : params) :
  prep_dale_fit_params (Some par) = Ok d →
  prep_dale_fit_params (Some d) = Ok d.
Proof.
  intros H.
  destruct (prep_dale_fit_params_lookups _ _ H) as (Hb & Hn & Hm & Hq & _).
  destruct (prep_dale_fit_params_checks _ _ H) as (Cb & Cn & Cm).
  unfold supplied_ok in Cb, Cn, Cm.
  cbv beta in Cb, Cn, Cm.
  unfold prep_dale_fit_params, py_getitem. rewrite Hb.
  destruct (par !! "bin_method") as [b|]; cbn [default from_option id];
    [rewrite Cb | change (py_in (VStr "fixed") [VStr "fixed"; VStr "greedy"; VStr "dp"])
                    with true];
    cbn [py_assert bind]; rewrite Hn;
  (destruct (par !! "nof_bins") as [n|]; cbn [default from_option id];
    [rewrite Cn | change (bool_decide (type_of (VInt 100) = TInt)) with true];
    cbn [py_assert bind]; rewrite Hm);
  (destruct (par !! "max_nof_bins") as [m|]; cbn [default from_option id];
    [rewrite Cm | change (bool_decide (type_of (VInt 20) = TInt)) with true];
    cbn [py_assert bind]; rewrite Hq, Hm; cbn [bind default from_option id];
    rewrite ?Cm; reflexivity).
Qed.

Lemma prep_dale_fit_params_idempotent_witness :
  let d : params :=
    <["bin_method" := VStr "fixed"]>
      (<["nof_bins" := VInt 100]>
         (<["max_nof_bins" := VInt 20]> {[ "min_points_per_bin" := VInt 5 ]})) in
  prep_dale_fit_params (Some d) = Ok d.
Proof.
  intros d.
  apply (prep_dale_fit_params_idempotent {[ "min_points_per_bin" := VInt 5 ]} d).
  vm_compute. reflexivity.
Defined.

(** [prep_ale_fit_params] fails exactly on a supplied bin count that is not
    an [int]; otherwise the bin count is the supplied one or 100, the other
    keys are untouched, and the result is a fixed point. *)
Theorem prep_ale_fit_params_result (par : params) :
  match par !! "nof_bins" with
  | Some v =>
      if is_int v
      then prep_ale_fit_params par = Ok par
      else prep_ale_fit_params par = Raise AssertionError
  | None =>
      ∃ d, prep_ale_fit_params par = Ok d ∧
           d !! "nof_bins" = Some (VInt 100) ∧
           (∀ k, k ≠ "nof_bins" → d !! k = par !! k) ∧
           prep_ale_fit_params d = Ok d
  end.
Proof.
  unfold prep_ale_fit_params.
  destruct (par !! "nof_bins") as [v|] eqn:E.
  - cbv beta. destruct (bool_decide (type_of v = TInt)); reflexivity.
  - eexists. split; [reflexivity|]. rewrite lookup_insert_eq.
    split; [reflexivity|]. split; [|reflexivity].
    intros k Hk. by rewrite lookup_insert_ne.
Qed.

End PythiaParams.

Section PythiaAxisLimits.
Import PythiaHelpers.

(** ** Axis limits *)

Lemma fold_min_spec (v : vector) (acc : Q) :
  let r := fold_left (λ a y, if Qle_bool y a then y else a) v acc in
  (r = acc ∨ r ∈ v) ∧ (r <= acc)%Q ∧ ∀ x, x ∈ v → (r <= x)%Q.
Proof.
  revert acc. induction v as [|y v IH]; intros acc; cbn.
  - split; [by left|]. split; [apply Qle_refl|]. intros x Hx. by apply elem_of_nil in Hx.
  - destruct (Qle_bool y acc) eqn:Hy.
    + apply Qle_bool_iff in Hy. destruct (IH y) as ([->|Hin] & Hle & Hall).
      * split; [right; left|]. split; [exact Hy|].
        intros x [->|Hx]%elem_of_cons; [apply Qle_refl | by apply Hall].
      * split; [right; by right|]. split; [by eapply Qle_trans|].
        intros x [->|Hx]%elem_of_cons; [exact Hle | by apply Hall].
    + assert (Hacc : (acc <= y)%Q).
      { apply Qlt_le_weak, Qnot_le_lt. intros H. apply Qle_bool_iff in H. congruence. }
      destruct (IH acc) as ([->|Hin] & Hle & Hall).
      * split; [by left|]. split; [apply Qle_refl|].
        intros x [->|Hx]%elem_of_cons; [exact Hacc | by apply Hall].
      * split; [right; by right|]. split; [exact Hle|].
        intros x [->|Hx]%elem_of_cons; [by eapply Qle_trans | by apply Hall].
Qed.

Lemma fold_max_spec (v : vector) (acc : Q) :
  let r := fold_left (λ a y, if Qle_bool a y then y else a) v acc in
  (r = acc ∨ r ∈ v) ∧ (acc <= r)%Q ∧ ∀ x, x ∈ v → (x <= r)%Q.
Proof.
  revert acc. induction v as [|y v IH]; intros acc; cbn.
  - split; [by left|]. split; [apply Qle_refl|]. intros x Hx. by apply elem_of_nil in Hx.
  - destruct (Qle_bool acc y) eqn:Hy.
    + apply Qle_bool_iff in Hy. destruct (IH y) as ([->|Hin] & Hle & Hall).
      * split; [right; left|]. split; [exact Hy|].
        intros x [->|Hx]%elem_of_cons; [apply Qle_refl | by apply Hall].
      * split; [right; by right|]. split; [by eapply Qle_trans|].
        intros x [->|Hx]%elem_of_cons; [exact Hle | by apply Hall].
    + assert (Hacc : (y <= acc)%Q).
      { apply Qlt_le_weak, Qnot_le_lt. intros H. apply Qle_bool_iff in H. congruence. }
      destruct (IH acc) as ([->|Hin] & Hle & Hall).
      * split; [by left|]. split; [apply Qle_refl|].
        intros x [->|Hx]%elem_of_cons; [exact Hacc | by apply Hall].
      * split; [right; by right|]. split; [exact Hle|].
        intros x [->|Hx]%elem_of_cons; [by eapply Qle_trans | by apply Hall].
Qed.

Lemma array_min_spec (v : vector) (m : Q) :
  array_min v = Ok m → m ∈ v ∧ ∀ x, x ∈ v → (m <= x)%Q.
Proof.
  destruct v as [|y v]; [discriminate|]. cbn. intros [= <-].
  destruct (fold_min_spec v y) as ([->|Hin] & Hle & Hall).
  - split; [left|]. intros x [->|Hx]%elem_of_cons; [apply Qle_refl | by apply Hall].
  - split; [by right|]. intros x [->|Hx]%elem_of_cons; [exact Hle | by apply Hall].
Qed.

Lemma array_max_spec (v : vector) (m : Q) :
  array_max v = Ok m → m ∈ v ∧ ∀ x, x ∈ v → (x <= m)%Q.
Proof.
  destruct v as [|y v]; [discriminate|]. cbn. intros [= <-].
  destruct (fold_max_spec v y) as ([->|Hin] & Hle & Hall).
  - split; [left|]. intros x [->|Hx]%elem_of_cons; [apply Qle_refl | by apply Hall].
  - split; [by right|]. intros x [->|Hx]%elem_of_cons; [exact Hle | by apply Hall].
Qed.

(** What the loop leaves in the two rows. *)
Lemma axis_limits_loop_spec (data : matrix) (ds : list nat)
    (lower upper lower' upper' : vector) :
  axis_limits_loop data ds lower upper = Ok (lower', upper') →
  List.length lower' = List.length lower ∧ List.length upper' = List.length upper ∧
  (∀ d, d ∉ ds → lower' !! d = lower !! d ∧ upper' !! d = upper !! d) ∧
  (∀ d, d ∈ ds → (d < List.length lower)%nat → (d < List.length upper)%nat →
     ∃ c mn mx, column data (Z.of_nat d) = Ok c ∧
                array_min c = Ok mn ∧ array_max c = Ok mx ∧
                lower' !! d = Some mn ∧ upper' !! d = Some mx).
Proof.
  revert lower upper. induction ds as [|d0 ds IH]; intros lower upper H.
  - cbn in H. injection H as <- <-. split_and!; try done.
    intros d Hd. by apply elem_of_nil in Hd.
  - cbn [axis_limits_loop] in H.
    destruct (column data (Z.of_nat d0)) as [c|] eqn:Hc; cbn [bind] in H; [|discriminate].
    destruct (array_min c) as [mn|] eqn:Hmn; cbn [bind] in H; [|discriminate].
    destruct (array_max c) as [mx|] eqn:Hmx; cbn [bind] in H; [|discriminate].
    destruct (IH _ _ H) as (Hl & Hu & Hout & Hin). clear IH H.
    unfold vector in *. rewrite length_insert in Hl, Hu. split_and!; try done.
    + intros d [Hd0 Hd]%not_elem_of_cons. destruct (Hout d Hd) as [-> ->].
      by rewrite !list_lookup_insert_ne.
    + intros d Hd Hdl Hdu. destruct (decide (d ∈ ds)) as [Hds|Hds].
      * apply Hin; [done | by rewrite length_insert ..].
      * apply elem_of_cons in Hd as [->|Hd]; [|done].
        destruct (Hout d0 Hds) as [-> ->].
        exists c, mn, mx. rewrite !list_lookup_insert_eq by done. done.
Qed.

(** The limits of a dataset with at least one row bound every entry of
    their column, and both are entries of the column. *)
Theorem axis_limits_from_data_bounds (data lim : matrix) (d : nat) :
  axis_limits_from_data data = Ok lim →
  (d < ncols data)%nat →
  ∃ c mn mx,
    column data (Z.of_nat d) = Ok c ∧
    index2 lim 0 (Z.of_nat d) = Ok mn ∧ index2 lim 1 (Z.of_nat d) = Ok mx ∧
    mn ∈ c ∧ mx ∈ c ∧ ∀ x, x ∈ c → (mn <= x)%Q ∧ (x <= mx)%Q.
Proof.
  unfold axis_limits_from_data. intros H Hd.
  destruct (axis_limits_loop _ _ _ _) as [[lower upper]|] eqn:Hloop;
    cbn [bind] in H; [|discriminate].
  injection H as <-.
  destruct (axis_limits_loop_spec _ _ _ _ _ _ Hloop) as (Hl & Hu & _ & Hin).
  rewrite length_replicate in Hl, Hu.
  destruct (Hin d) as (c & mn & mx & Hc & Hmn & Hmx & Hlo & Hup).
  { apply elem_of_seq. lia. }
  { by rewrite length_replicate. }
  { by rewrite length_replicate. }
  destruct (array_min_spec _ _ Hmn) as [Imn Lmn].
  destruct (array_max_spec _ _ Hmx) as [Imx Lmx].
  exists c, mn, mx. split; [exact Hc|].
  assert (Hpos : col_pos (ncols data) (Z.of_nat d) = Ok d).
  { unfold col_pos.
    assert (Hin' : (0 <=? Z.of_nat d) && (Z.of_nat d <? Z.of_nat (ncols data)) = true)
      by (apply andb_true_iff; split; [apply Z.leb_le | apply Z.ltb_lt]; lia).
    by rewrite Hin', Nat2Z.id. }
  unfold index2. cbn [rows ncols fst snd]. rewrite Hpos.
  split_and!; try done.
  - change (py_index [lower; upper] 0) with (Ok lower). cbn [bind]. f_equal.
    exact (nth_lookup_Some lower d 0%Q mn Hlo).
  - change (py_index [lower; upper] 1) with (Ok upper). cbn [bind]. f_equal.
    exact (nth_lookup_Some upper d 0%Q mx Hup).
  - intros x Hx. split; [by apply Lmn | by apply Lmx].
Qed.

Lemma axis_limits_from_data_bounds_witness :
  let data := Matrix 2 [[3%Q; 1%Q]; [0%Q; 5%Q]; [2%Q; 4%Q]] in
  ∃ c mn mx,
    column data (Z.of_nat 1) = Ok c ∧
    index2 (Matrix 2 [[0%Q; 1%Q]; [3%Q; 5%Q]]) 0 (Z.of_nat 1) = Ok mn ∧
    index2 (Matrix 2 [[0%Q; 1%Q]; [3%Q; 5%Q]]) 1 (Z.of_nat 1) = Ok mx ∧
    mn ∈ c ∧ mx ∈ c ∧ ∀ x, x ∈ c → (mn <= x)%Q ∧ (x <= mx)%Q.
Proof.
  intros data.
  apply (axis_limits_from_data_bounds data (Matrix 2 [[0%Q; 1%Q]; [3%Q; 5%Q]]) 1).
  - reflexivity.
  - cbn. lia.
Defined.

(** On a dataset that has columns but no rows the call raises
    [ValueError]: the minimum of an empty column does not exist. *)
Theorem axis_limits_from_data_no_rows (D : nat) :
  axis_limits_from_data (Matrix (S D) []) = Raise ValueError.
Proof. reflexivity. Qed.

End PythiaAxisLimits.

(* ===================================================================== *)
(** * Further properties of [feature_effect/ale.py] *)
(* ===================================================================== *)

Section LegacyALEMore.
Import LegacyALE.

Variable create_fix_size_bins : vector → value → result vector.
Variable compute_data_effect : matrix → value → vector → Z → result vector.
Variable compute_fe_parameters :
  vector → vector → vector → value → result (gmap string value).
Variable compute_accumulated_effect :
  vector → value → value → value → bool → result vector.

Local Abbreviation compute_ale_parameters :=
  (LegacyALE.compute_ale_parameters
     create_fix_size_bins compute_data_effect compute_fe_parameters).
Local Abbreviation fit_loop :=
  (LegacyALE.fit_loop create_fix_size_bins compute_data_effect compute_fe_parameters).
Local Abbreviation fit :=
  (LegacyALE.fit create_fix_size_bins compute_data_effect compute_fe_parameters).
Local Abbreviation eval := (LegacyALE.eval compute_accumulated_effect).
Local Abbreviation call_ale_function :=
  (LegacyALE.call_ale_function compute_accumulated_effect).

(** The record stored for a key is the one [compute_ale_parameters] returns
    for a feature with that key, or the one held before. *)
Lemma fit_loop_records self l alg funcs pars funcs' pars' :
  fit_loop self l alg funcs pars = Ok (funcs', pars') →
  (∀ k, funcs !! k = AleFunction <$> pars !! k) →
  (∀ k, funcs' !! k = AleFunction <$> pars' !! k) ∧
  (∀ k, pars' !! k = pars !! k ∨
        ∃ s p, VInt s ∈ l ∧ k = feature_key s ∧
               compute_ale_parameters (data self) (model self) s alg = Ok p ∧
               pars' !! k = Some p) ∧
  (∀ s, VInt s ∈ l → is_Some (pars' !! feature_key s)).
Proof.
  revert funcs pars. induction l as [|v l IH]; intros funcs pars H Hinv.
  - cbn in H. injection H as <- <-. split_and!; [done | by left |].
    intros s Hs. by apply elem_of_nil in Hs.
  - destruct v as [| | s | | | | |]; cbn [LegacyALE.fit_loop] in H; try discriminate.
    destruct (compute_ale_parameters _ _ s alg) as [p|e] eqn:Hp; cbn [bind] in H;
      [|discriminate].
    unfold py_getitem in H. rewrite lookup_insert_eq in H. cbn [bind] in H.
    destruct (IH _ _ H) as (I1 & I2 & I3).
    { intros k. destruct (decide (feature_key s = k)) as [<-|Hne].
      - by rewrite !lookup_insert_eq.
      - by rewrite !lookup_insert_ne. }
    split_and!; [exact I1 | |].
    + intros k. destruct (I2 k) as [Hk|(t & q & Ht & -> & Hq & Hk)].
      * destruct (decide (feature_key s = k)) as [<-|Hne].
        -- right. exists s, p. rewrite lookup_insert_eq in Hk.
           split_and!; [left | done | done | done].
        -- left. by rewrite lookup_insert_ne in Hk.
      * right. exists t, q. split_and!; [by right | done | done | done].
    + intros t [Heq|Ht]%elem_of_cons; [|by apply I3].
      injection Heq as Heq. subst t.
      destruct (I2 (feature_key s)) as [Hk|(t' & q & _ & _ & _ & Hk)];
        rewrite Hk; [rewrite lookup_insert_eq|]; by eexists.
Qed.

(** After [fit] the two stored maps agree: each stored function is the
    closure over the parameter record stored under the same key, and no
    function is stored without its record. *)
Theorem ALE_fit_closures self features alg self' :
  fit self features alg = Ok self' →
  ∃ fe ap,
    feature_effect self' = Some fe ∧ ale_params self' = Some ap ∧
    ∀ k, fe !! k = AleFunction <$> ap !! k.
Proof.
  unfold LegacyALE.fit. intros H.
  destruct (py_assert _); cbn [bind] in H; [|discriminate].
  destruct (match (if py_eq features (VStr "all") then _ else features) with
            | VList l => Ok l | _ => Raise TypeError end) as [l|]; cbn [bind] in H;
    [|discriminate].
  destruct (fit_loop self l alg ∅ ∅) as [[fe ap]|] eqn:Hloop; cbn [bind] in H;
    [|discriminate].
  injection H as <-. exists fe, ap. split_and!; [done | done |].
  apply (fit_loop_records _ _ _ _ _ _ _ Hloop). intros k. by rewrite !lookup_empty.
Qed.

(** Round trip: after [fit], evaluating or plotting a requested feature
    uses the parameter record [compute_ale_parameters] returns for that
    feature; the plot title counts features from one. *)
Theorem ALE_eval_after_fit self features alg self' (s : Z) (x : vector)
    (block gt gt_bins : value) :
  fit self features alg = Ok self' →
  VInt s ∈ requested self features →
  ∃ p,
    compute_ale_parameters (data self) (model self) s alg = Ok p ∧
    eval self' x s = call_ale_function (AleFunction p) x ∧
    plot self' s block gt gt_bins
    = Ok (FeatureEffectPlot p s ("ALE: Effect of feature " +:+ str (s + 1))
            block gt gt_bins).
Proof.
  unfold LegacyALE.fit, requested. intros H Hs.
  destruct (py_assert _); cbn [bind] in H; [|discriminate].
  set (fs := if py_eq features (VStr "all") then _ else features) in H.
  assert (∃ l, fs = VList l ∧ VInt s ∈ l) as (l & Hfs & Hl).
  { subst fs. destruct (py_eq features (VStr "all")); [by eexists|].
    destruct features; cbn [bind] in H; try discriminate. by eexists. }
  rewrite Hfs in H. cbn [bind] in H.
  destruct (fit_loop self l alg ∅ ∅) as [[fe ap]|] eqn:Hloop; cbn [bind] in H;
    [|discriminate].
  injection H as <-.
  destruct (fit_loop_records _ _ _ _ _ _ _ Hloop) as (I1 & I2 & I3).
  { intros k. by rewrite !lookup_empty. }
  destruct (I2 (feature_key s)) as [Hk|(t & p & _ & Hkey & Hp & Hk)].
  { destruct (I3 s Hl) as [q Hq]. rewrite Hk, lookup_empty in Hq. discriminate. }
  apply feature_key_inj in Hkey as <-.
  exists p. split; [exact Hp|].
  unfold LegacyALE.eval, plot, py_getitem. cbn [feature_effect ale_params fst snd].
  rewrite I1, Hk. split; reflexivity.
Qed.

(** Before any [fit], [eval] fails on the [None] held in [feature_effect]
    and [plot] on the attribute [ale_params], which [__init__] never sets;
    after a [fit], both raise [KeyError] for a feature that was not
    requested. *)
Theorem ALE_not_fitted_raises (data : matrix) (model : value) (x : vector) (s : Z)
    (block gt gt_bins : value) (features : value) (alg : gmap string value)
    (self' : ALE) :
  fit (ALE_init data model) features alg = Ok self' →
  VInt s ∉ requested (ALE_init data model) features →
  eval (ALE_init data model) x s = Raise TypeError ∧
  plot (ALE_init data model) s block gt gt_bins = Raise AttributeError ∧
  eval self' x s = Raise KeyError ∧
  plot self' s block gt gt_bins = Raise KeyError.
Proof.
  intros H Hs. split; [reflexivity|]. split; [reflexivity|].
  destruct (fit_stores_requested _ _ _ _ _ _ _ H) as (fe & ap & Hfe & Hap & K).
  destruct (K s) as [Kf Kp].
  assert (fe !! feature_key s = None) as Hf
    by (apply eq_None_not_Some; intros ?; by apply Hs, Kf).
  assert (ap !! feature_key s = None) as Hp
    by (apply eq_None_not_Some; intros ?; by apply Hs, Kp).
  unfold LegacyALE.eval, plot, py_getitem. rewrite Hfe, Hap, Hf, Hp. done.
Qed.

End LegacyALEMore.

Lemma ALE_fit_closures_witness :
  match DemoALE.fit DemoALE.ale_new (VList [VInt 0; VInt 1]) ∅ with
  | Ok self' =>
      ∃ fe ap,
        LegacyALE.feature_effect self' = Some fe ∧
        LegacyALE.ale_params self' = Some ap ∧
        ∀ k, fe !! k = LegacyALE.AleFunction <$> ap !! k
  | Raise _ => False
  end.
Proof.
  destruct (DemoALE.fit DemoALE.ale_new (VList [VInt 0; VInt 1]) ∅) as [self'|e] eqn:H.
  - exact (ALE_fit_closures DemoALE.create_fix_size_bins DemoALE.compute_data_effect
             DemoALE.compute_fe_parameters _ _ _ _ H).
  - vm_compute in H. discriminate H.
Defined.

Lemma ALE_eval_after_fit_witness :
  match DemoALE.fit DemoALE.ale_new (VStr "all") ∅ with
  | Ok self' =>
      ∃ p,
        LegacyALE.compute_ale_parameters DemoALE.create_fix_size_bins
          DemoALE.compute_data_effect DemoALE.compute_fe_parameters
          (LegacyALE.data DemoALE.ale_new) (LegacyALE.model DemoALE.ale_new) 1 ∅
        = Ok p ∧
        LegacyALE.eval DemoALE.compute_accumulated_effect self' [1%Q] 1
        = LegacyALE.call_ale_function DemoALE.compute_accumulated_effect
            (LegacyALE.AleFunction p) [1%Q] ∧
        LegacyALE.plot self' 1 (VBool false) VNone VNone
        = Ok (LegacyALE.FeatureEffectPlot p 1
                ("ALE: Effect of feature " +:+ str (1 + 1))
                (VBool false) VNone VNone)
  | Raise _ => False
  end.
Proof.
  destruct (DemoALE.fit DemoALE.ale_new (VStr "all") ∅) as [self'|e] eqn:H.
  - apply (ALE_eval_after_fit DemoALE.create_fix_size_bins DemoALE.compute_data_effect
             DemoALE.compute_fe_parameters DemoALE.compute_accumulated_effect
             DemoALE.ale_new (VStr "all") ∅ self' 1 [1%Q] (VBool false) VNone VNone H).
    cbn. apply elem_of_cons; right. apply elem_of_cons; by left.
  - vm_compute in H. discriminate H.
Defined.

Lemma ALE_not_fitted_raises_witness :
  match DemoALE.fit DemoALE.ale_new (VList [VInt 0]) ∅ with
  | Ok self' =>
      LegacyALE.eval DemoALE.compute_accumulated_effect DemoALE.ale_new [1%Q] 1
      = Raise TypeError ∧
      LegacyALE.plot DemoALE.ale_new 1 (VBool false) VNone VNone
      = Raise AttributeError ∧
      LegacyALE.eval DemoALE.compute_accumulated_effect self' [1%Q] 1
      = Raise KeyError ∧
      LegacyALE.plot self' 1 (VBool false) VNone VNone = Raise KeyError
  | Raise _ => False
  end.
Proof.
  destruct (DemoALE.fit DemoALE.ale_new (VList [VInt 0]) ∅) as [self'|e] eqn:H.
  - apply (ALE_not_fitted_raises DemoALE.create_fix_size_bins DemoALE.compute_data_effect
             DemoALE.compute_fe_parameters DemoALE.compute_accumulated_effect
             (Matrix 2 [[0%Q; 1%Q]; [1%Q; 0%Q]]) VNone [1%Q] 1 (VBool false) VNone VNone
             (VList [VInt 0]) ∅ self' H).
    cbn. intros [Heq|Hin]%elem_of_cons; [discriminate | by apply elem_of_nil in Hin].
  - vm_compute in H. discriminate H.
Defined.

(* --------------------------------------------------------------------- *)
(** ** The further statements on the sample objects *)
(* --------------------------------------------------------------------- *)

Lemma prep_dale_fit_params_fills_witness :
  let par : gmap string value := {[ "nof_bins" := VInt 7 ]} in
  match PythiaHelpers.prep_dale_fit_params (Some par) with
  | Ok d =>
      d !! "bin_method" = Some (default (VStr "fixed") (par !! "bin_method")) ∧
      d !! "nof_bins" = Some (default (VInt 100) (par !! "nof_bins")) ∧
      d !! "max_nof_bins" = Some (default (VInt 20) (par !! "max_nof_bins")) ∧
      d !! "min_points_per_bin" = Some (default VNone (par !! "min_points_per_bin")) ∧
      ∀ k, k ∉ ["bin_method"; "nof_bins"; "max_nof_bins"; "min_points_per_bin"] →
           d !! k = par !! k
  | Raise _ => False
  end.
Proof.
  intros par.
  destruct (PythiaHelpers.prep_dale_fit_params (Some par)) as [d|e] eqn:H.
  - exact (prep_dale_fit_params_fills par d H).
  - vm_compute in H. discriminate H.
Defined.

Lemma GlobalEffect_init_direct_witness :
  let m := Matrix 1 [[0%Q]; [1%Q]] in
  match Effector.GlobalEffect_init (E := Effector.shap_effect) Demo.random_choice
          Demo.prep_nof_instances_other
          [VStr "demo"; VArray (Arr2 m); Demo.first_column; VStr "all"; VNone; VNone;
           VNone; VNone] with
  | Ok g =>
      Effector.indices g = seq 0 (nrows m) ∧ Effector.nof_instances g = nrows m ∧
      Effector.data g = m ∧ Effector.dim g = ncols m ∧
      (∃ out, Effector.py_call Demo.first_column m = Ok out ∧
              Effector.avg_output g = VFloat (np_mean out)) ∧
      (∃ l, Effector.axis_limits_from_data m = Ok l ∧
            Effector.axis_limits g = VArray (Arr2 l)) ∧
      Effector.is_fitted g = replicate (ncols m) false ∧
      List.length (Effector.is_fitted g) = ncols m ∧
      Effector.method_args g = ∅ ∧ Effector.feature_effect g = ∅
  | Raise _ => False
  end.
Proof.
  intros m.
  destruct (Effector.GlobalEffect_init _ _ _) as [g|e] eqn:H.
  - exact (GlobalEffect_init_direct Demo.random_choice Demo.prep_nof_instances_other
             Effector.shap_effect (VStr "demo") Demo.first_column VNone VNone VNone VNone
             m g H).
  - vm_compute in H. discriminate H.
Defined.

Lemma RHALE_eval_unnorm_curves_witness :
  Effector.RHALE_eval_unnorm Demo.compute_accumulated_effect Demo.np_sqrt
    Demo.rhale_fitted 0 [1%Q] false
  = bind (Demo.compute_accumulated_effect [1%Q] (VArray (Arr1 [0%Q; 1%Q]))
            (VArray (Arr1 [1%Q])) (VArray (Arr1 [1%Q])))
      (λ y, Ok (Effector.Curve y))
  ∧ Effector.RHALE_eval_unnorm Demo.compute_accumulated_effect Demo.np_sqrt
      Demo.rhale_fitted 0 [1%Q] true
    = bind (Demo.compute_accumulated_effect [1%Q] (VArray (Arr1 [0%Q; 1%Q]))
              (VArray (Arr1 [1%Q])) (VArray (Arr1 [1%Q]))) (λ y,
      bind (Demo.np_sqrt (VArray (Arr1 [0%Q]))) (λ sd,
      bind (Demo.compute_accumulated_effect [1%Q] (VArray (Arr1 [0%Q; 1%Q])) sd
              (VArray (Arr1 [1%Q]))) (λ std,
      bind (Demo.np_sqrt (VArray (Arr1 [0%Q]))) (λ se,
      bind (Demo.compute_accumulated_effect [1%Q] (VArray (Arr1 [0%Q; 1%Q])) se
              (VArray (Arr1 [1%Q]))) (λ std_err,
      Ok (Effector.CurveWithHeterogeneity y std std_err)))))).
Proof.
  apply (RHALE_eval_unnorm_curves Demo.compute_accumulated_effect Demo.np_sqrt
           Demo.rhale_fitted 0 [1%Q]
           (<["alg_params" := VStr "greedy"]> Demo.bin_statistics));
    vm_compute; reflexivity.
Defined.

Lemma RHALE_fit_records_witness :
  match Demo.RHALE_fit (VInt 0) (VStr "greedy") (VBool false) Demo.rhale_inside with
  | (Ok _, self') => Spec.rhale_recorded (VStr "greedy") self' 0
  | (Raise _, _) => False
  end.
Proof.
  destruct (Demo.RHALE_fit (VInt 0) (VStr "greedy") (VBool false) Demo.rhale_inside)
    as [[[]|e] self'] eqn:H.
  - apply (RHALE_fit_records Demo.compute_jacobian_numerically Demo.compute_ale_params
             Demo.find_limits (VInt 0) (VStr "greedy") (VList [VInt 0]) [VInt 0]
             Demo.rhale_inside self' 0); [reflexivity | reflexivity | exact H |].
    apply elem_of_cons. by left.
  - vm_compute in H. discriminate H.
Defined.

Lemma RHALE_fit_then_refit_witness :
  match Demo.RHALE_fit (VInt 0) (VStr "greedy") (VBool false) Demo.rhale_inside with
  | (Ok _, self') =>
      Effector.refit (Effector.base self') 0 (VStr "zero_start")
      = Ok (negb (is_False (VStr "zero_start")))
  | (Raise _, _) => False
  end.
Proof.
  destruct (Demo.RHALE_fit (VInt 0) (VStr "greedy") (VBool false) Demo.rhale_inside)
    as [[[]|e] self'] eqn:H.
  - apply (RHALE_fit_then_refit Demo.compute_jacobian_numerically
             Demo.compute_ale_params Demo.find_limits (VInt 0) (VStr "greedy")
             (VList [VInt 0]) (VStr "zero_start") [VInt 0] Demo.rhale_inside self' 0);
      [reflexivity | reflexivity | exact H | | by right].
    apply elem_of_cons. by left.
  - vm_compute in H. discriminate H.
Defined.

Lemma RHALE_fit_feature_within_limits_witness :
  Effector.RHALE_fit_feature Demo.compute_jacobian_numerically Demo.compute_ale_params
    Demo.find_limits 0 (VStr "greedy") Demo.rhale_inside
  = (Ok (<["alg_params" := VStr "greedy"]> Demo.bin_statistics), Demo.rhale_inside)
  ∧ Effector.RHALE_fit_feature Demo.compute_jacobian_numerically
      Demo.compute_ale_params_strict Demo.find_limits_refusing 0 (VStr "greedy")
      Demo.rhale_inside
    = (Raise AssertionError, Demo.rhale_inside).
Proof.
  split.
  - apply (RHALE_fit_feature_within_limits Demo.compute_jacobian_numerically
             Demo.compute_ale_params Demo.find_limits Demo.rhale_inside
             Demo.rhale_inside 0 (VStr "greedy") (Matrix 1 [[1%Q]; [1%Q]])
             [0%Q; 1%Q] 0%Q 1%Q
             {| Effector.limits := VArray (Arr1 [0%Q; 1%Q]);
                Effector.class_name := "Greedy" |}); reflexivity.
  - apply (RHALE_fit_feature_within_limits Demo.compute_jacobian_numerically
             Demo.compute_ale_params_strict Demo.find_limits_refusing
             Demo.rhale_inside Demo.rhale_inside 0 (VStr "greedy")
             (Matrix 1 [[1%Q]; [1%Q]]) [0%Q; 1%Q] 0%Q 1%Q
             {| Effector.limits := VBool false; Effector.class_name := "Greedy" |});
      reflexivity.
Defined.

Lemma nonnegative_features_0 : Spec.nonnegative_features [VInt 0].
Proof.
  intros s [Heq|Hin]%elem_of_cons; [injection Heq as ->; lia | by apply elem_of_nil in Hin].
Qed.

Lemma SHAP_fit_keeps_records_witness :
  Spec.fitted_have_records
    (Demo.SHAP_fit (VInt 0) (VStr "zero_start") (VStr "all") (VInt 10) Demo.shap_new).2.
Proof.
  apply (SHAP_fit_keeps_records Demo.EMPTY_SYMBOL Demo.random_choice
           Demo.prep_nof_instances_other Demo.shap_explainer Demo.UnivariateSpline
           (VInt 0) (VStr "zero_start") (VStr "all") (VInt 10) (VList [VInt 0])
           [VInt 0] Demo.shap_new);
    [exact fitted_have_records_shap_new | reflexivity | reflexivity
    | exact nonnegative_features_0].
Defined.

Lemma SHAP_eval_leaves_fitted_witness :
  match Demo.SHAP_eval 0 [1%Q; 2%Q] true (VBool true) Demo.shap_new with
  | (Ok _, self') =>
      py_index (Effector.is_fitted self') 0 = Ok true ∧
      is_Some (Effector.feature_effect self' !! Effector.feature_key 0) ∧
      Effector.SHAP_eval_must_fit Demo.EMPTY_SYMBOL self' 0 (VBool false) = Ok false
  | (Raise _, _) => False
  end.
Proof.
  destruct (Demo.SHAP_eval 0 [1%Q; 2%Q] true (VBool true) Demo.shap_new)
    as [[r|e] self'] eqn:H.
  - exact (SHAP_eval_leaves_fitted Demo.EMPTY_SYMBOL Demo.random_choice
             Demo.prep_nof_instances_other Demo.shap_explainer Demo.UnivariateSpline
             0 [1%Q; 2%Q] true (VBool true) Demo.shap_new self' r H).
  - vm_compute in H. discriminate H.
Defined.

Lemma SHAP_eval_shape_witness :
  match Demo.SHAP_eval 0 [1%Q; 2%Q] true (VBool true) Demo.shap_new with
  | (Ok r, _) =>
      ∃ y sd err, r = Effector.CurveWithHeterogeneity y sd err ∧
                  List.length y = 2%nat ∧ List.length sd = 2%nat ∧
                  List.length err = 2%nat ∧ Forall (λ z, z = 0%Q) err
  | (Raise _, _) => False
  end.
Proof.
  destruct (Demo.SHAP_eval 0 [1%Q; 2%Q] true (VBool true) Demo.shap_new)
    as [[r|e] self'] eqn:H.
  - exact (SHAP_eval_shape Demo.EMPTY_SYMBOL Demo.random_choice
             Demo.prep_nof_instances_other Demo.shap_explainer Demo.UnivariateSpline
             0 [1%Q; 2%Q] true (VBool true) Demo.shap_new self' r H).
  - vm_compute in H. discriminate H.
Defined.

Lemma SHAP_eval_degenerate_limits_witness :
  ∃ e self',
    Demo.SHAP_eval 0 [1%Q] false (VBool false) Demo.shap_degenerate = (Raise e, self').
Proof.
  apply (SHAP_eval_degenerate_limits Demo.EMPTY_SYMBOL Demo.random_choice
           Demo.prep_nof_instances_other Demo.shap_explainer Demo.UnivariateSpline
           0 [1%Q] false (VBool false) Demo.shap_degenerate 1%Q 1%Q);
    [reflexivity | reflexivity | apply Qle_refl].
Defined.

Lemma SHAP_zero_start_round_trip_witness :
  match Demo.SHAP_fit_feature Demo.shap_new 0 (VStr "zero_start") (VStr "all") (VInt 10) with
  | Ok e =>
      ∃ x0 y,
        head (Effector.xx e) = Some x0 ∧
        Effector.SHAP_eval_curve 0 [x0] false (VStr "zero_start")
          (Effector.with_feature_effect {[ Effector.feature_key 0 := e ]} Demo.shap_new)
        = (Ok (Effector.Curve [y]),
           Effector.with_feature_effect {[ Effector.feature_key 0 := e ]} Demo.shap_new) ∧
        (y == 0)%Q
  | Raise _ => False
  end.
Proof.
  destruct (Demo.SHAP_fit_feature Demo.shap_new 0 (VStr "zero_start") (VStr "all")
              (VInt 10)) as [e|ex] eqn:H.
  - apply (SHAP_zero_start_round_trip Demo.EMPTY_SYMBOL Demo.random_choice
             Demo.prep_nof_instances_other Demo.shap_explainer Demo.UnivariateSpline
             Demo.shap_new
             (Effector.with_feature_effect {[ Effector.feature_key 0 := e ]} Demo.shap_new)
             0 (VStr "all") (VInt 10) e 0%Q 4%Q);
      [exact H | apply lookup_singleton_eq | reflexivity | reflexivity | reflexivity].
  - vm_compute in H. discriminate H.
Defined.


Lemma SHAP_plot_shap_values_witness :
  ∃ rendering self1,
    Demo.SHAP_plot 0 (VStr "shap_values") (VBool false) (VInt 3) VNone VNone
      (VStr "all") false VNone Demo.shap_fitted
    = (Ok rendering, self1).
Proof.
  eexists _, _.
  eapply (SHAP_plot_shap_values Demo.EMPTY_SYMBOL Demo.random_choice
            Demo.prep_nof_instances_other Demo.shap_explainer Demo.UnivariateSpline
            Demo.shap_fitted _ 0 (VBool false) (VInt 3) VNone VNone (VStr "all")
            false VNone 0%Q 4%Q).
  - reflexivity.
  - reflexivity.
  - reflexivity.
  - vm_compute. reflexivity.
  - vm_compute. reflexivity.
  - by left.
Defined.

Lemma RHALE_compile_memoized_witness :
  Effector.RHALE_compile Demo.compute_jacobian_numerically Demo.rhale_inside
  = (Ok tt, Demo.rhale_inside).
Proof.
  apply (proj1 (proj2 (proj2 (RHALE_compile_memoized Demo.compute_jacobian_numerically
                                Demo.rhale_inside)))).
  reflexivity.
Defined.
